(** * StaySphere: pricing, search parsing and ranking heuristics

    A shallow embedding of the rent price calculator
    ([services/marketDataService.js]), the market data service
    ([services/marketData.js]), the helpers of the AI routes (the
    natural-language parser and its database query, the preferences read
    from chat messages, the personalized score, the cost analysis and the
    pricing analysis) and of the search routes (the smart score and its
    ranking, the market and comparable statistics, the search history and
    the pagination of the advanced search), followed by the properties
    established about them.

    Numbers.  A JavaScript Number is modelled by [JS.num]: an exact rational,
    [+Infinity], [-Infinity] or [NaN].  Finite arithmetic is exact: neither
    the rounding nor the overflow of binary64 is modelled, and there is a
    single zero.  Properties that depend on a result being finite are
    stated for amounts of ordinary size ([Coverage.large]), where the code
    cannot overflow.

    Strings are sequences of 8-bit characters; case conversion and white
    space are those of ASCII. *)

From Stdlib Require Import QArith Qround Qabs ZArith String Ascii List Bool.
From Stdlib Require Import Lia Lqa DecimalString Sorted Permutation.
Import ListNotations.

(* ================================================================== *)
(** ** JavaScript values and operators used by the code *)
(* ================================================================== *)

Module JS.

(** *** Numbers *)

Inductive num : Type :=
| Fin (q : Q)
| PInf
| NInf
| NaN.

Definition of_Z (z : Z) : num := Fin (inject_Z z).

(** An infinity of the given sign; a zero sign stands for [Infinity * 0]
    and the like, which are [NaN]. *)
Definition inf_of (c : comparison) : num :=
  match c with Gt => PInf | Lt => NInf | Eq => NaN end.

Definition neg (n : num) : num :=
  match n with
  | Fin q => Fin (- q)
  | PInf => NInf
  | NInf => PInf
  | NaN => NaN
  end.

Definition add (a b : num) : num :=
  match a, b with
  | NaN, _ | _, NaN => NaN
  | Fin x, Fin y => Fin (x + y)
  | PInf, NInf | NInf, PInf => NaN
  | PInf, _ | _, PInf => PInf
  | NInf, _ | _, NInf => NInf
  end.

Definition sub (a b : num) : num := add a (neg b).

Definition mul (a b : num) : num :=
  match a, b with
  | NaN, _ | _, NaN => NaN
  | Fin x, Fin y => Fin (x * y)
  | Fin x, PInf | PInf, Fin x => inf_of (x ?= 0)%Q
  | Fin x, NInf | NInf, Fin x => inf_of (CompOpp (x ?= 0)%Q)
  | PInf, PInf | NInf, NInf => PInf
  | PInf, NInf | NInf, PInf => NInf
  end.

(** Division; a finite number over zero is an infinity of the sign of the
    numerator, and [0 / 0] is [NaN]. *)
Definition div (a b : num) : num :=
  match a, b with
  | NaN, _ | _, NaN => NaN
  | Fin x, Fin y =>
      if Qeq_bool y 0 then inf_of (x ?= 0)%Q else Fin (x / y)
  | Fin _, (PInf | NInf) => Fin 0
  | PInf, Fin y => if Qle_bool 0 y then PInf else NInf
  | NInf, Fin y => if Qle_bool 0 y then NInf else PInf
  | (PInf | NInf), (PInf | NInf) => NaN
  end.

(** Numeric comparison; [None] when an operand is [NaN]. *)
Definition cmp (a b : num) : option comparison :=
  match a, b with
  | NaN, _ | _, NaN => None
  | Fin x, Fin y => Some (x ?= y)%Q
  | NInf, NInf | PInf, PInf => Some Eq
  | NInf, _ | _, PInf => Some Lt
  | PInf, _ | _, NInf => Some Gt
  end.

(** [a < b], [a <= b], [a > b], [a >= b] and [a === b] on numbers. *)
Definition lt (a b : num) : bool :=
  match cmp a b with Some Lt => true | _ => false end.
Definition le (a b : num) : bool :=
  match cmp a b with Some Lt | Some Eq => true | _ => false end.
Definition gt (a b : num) : bool := lt b a.
Definition ge (a b : num) : bool := le b a.
Definition eqb (a b : num) : bool :=
  match cmp a b with Some Eq => true | _ => false end.

(** ToBoolean on a number: [0] and [NaN] are falsy. *)
Definition truthy (n : num) : bool :=
  match n with
  | Fin q => negb (Qeq_bool q 0)
  | NaN => false
  | PInf | NInf => true
  end.

(** [a || b] on numbers. *)
Definition or_else (a b : num) : num := if truthy a then a else b.

(** *** The [Math] object *)

Module Math.

Definition abs (n : num) : num :=
  match n with
  | Fin q => Fin (Qabs q)
  | PInf | NInf => PInf
  | NaN => NaN
  end.

Definition max2 (a b : num) : num :=
  match cmp a b with
  | None => NaN
  | Some Lt => b
  | Some _ => a
  end.

Definition min2 (a b : num) : num :=
  match cmp a b with
  | None => NaN
  | Some Gt => b
  | Some _ => a
  end.

(** [Math.max(a, b, c)]. *)
Definition max3 (a b c : num) : num := max2 (max2 a b) c.

(** [Math.round]: the nearest integer, halves towards [+Infinity]. *)
Definition round (n : num) : num :=
  match n with
  | Fin q => of_Z (Qfloor (q + (1 # 2)))
  | _ => n
  end.

(** [Math.floor] and [Math.ceil]. *)
Definition floor (n : num) : num :=
  match n with
  | Fin q => of_Z (Qfloor q)
  | _ => n
  end.

Definition ceil (n : num) : num :=
  match n with
  | Fin q => of_Z (Qceiling q)
  | _ => n
  end.

End Math.

(** [parseFloat(x.toFixed(2))]: [x] rounded to two decimals, halves away
    from zero. *)
Definition toFixed2 (n : num) : num :=
  match n with
  | Fin q =>
      let m := Qfloor (Qabs q * 100 + (1 # 2)) in
      let r := Qred (Qmake m 100) in
      Fin (if Qle_bool 0 q then r else Qred (- r))
  | _ => n
  end.

(** Equality of numbers up to the representation of fractions. *)
Definition num_eq (a b : num) : Prop :=
  match a, b with
  | Fin x, Fin y => (x == y)%Q
  | PInf, PInf | NInf, NInf | NaN, NaN => True
  | _, _ => False
  end.

(** *** Strings *)

Definition lower_char (c : ascii) : ascii :=
  let n := nat_of_ascii c in
  if (65 <=? n)%nat && (n <=? 90)%nat then ascii_of_nat (n + 32) else c.

Fixpoint toLowerCase (s : string) : string :=
  match s with
  | EmptyString => EmptyString
  | String c r => String (lower_char c) (toLowerCase r)
  end.

(** [s.includes(sub)]. *)
Fixpoint includes_text (sub s : string) : bool :=
  prefix sub s
  || match s with
     | EmptyString => false
     | String _ r => includes_text sub r
     end.

(** The characters of [s] all satisfy [p]. *)
Fixpoint all_chars (p : ascii -> bool) (s : string) : bool :=
  match s with
  | EmptyString => true
  | String c r => p c && all_chars p r
  end.

(** Decimal rendering of a number used as a property key or inside a
    template literal.  Integers are written in plain decimal (JavaScript
    switches to the exponent form from 1e21 on); [None] stands for the
    rendering of a fraction.  Neither a fraction nor an exponent form
    names a property of the objects of this program. *)
Definition numeral (n : num) : option string :=
  match n with
  | Fin q =>
      if Qeq_bool q (inject_Z (Qfloor q))
      then Some (NilZero.string_of_int (Z.to_int (Qfloor q)))
      else None
  | PInf => Some "Infinity"%string
  | NInf => Some "-Infinity"%string
  | NaN => Some "NaN"%string
  end.

(** *** Dynamically typed values received from callers *)

Inductive value : Type :=
| Undefined
| Null
| Bool (b : bool)
| Num (n : num)
| Str (s : string)
| Obj.                       (* an object, array or function *)

Definition truthy_value (v : value) : bool :=
  match v with
  | Undefined | Null => false
  | Bool b => b
  | Num n => truthy n
  | Str s => negb (String.eqb s "")
  | Obj => true
  end.

(** *** Completions: a value, or a thrown exception *)

Inductive exn : Type :=
| TypeError
| Error (message : string).

Inductive completion (A : Type) : Type :=
| Normal (a : A)
| Throw (e : exn).
Arguments Normal {A} a.
Arguments Throw {A} e.

Definition bind {A B} (m : completion A) (k : A -> completion B)
  : completion B :=
  match m with
  | Normal a => k a
  | Throw e => Throw e
  end.

(** [try { m } catch (error) { throw new Error(message) }]. *)
Definition try_rethrow {A} (m : completion A) (message : string)
  : completion A :=
  match m with
  | Normal a => Normal a
  | Throw _ => Throw (Error message)
  end.

(** [v.toLowerCase()]: only strings have the method. *)
Definition call_toLowerCase (v : value) : completion string :=
  match v with
  | Str s => Normal (toLowerCase s)
  | _ => Throw TypeError
  end.

(** *** Object literals used as lookup tables

    [own t k] is the own property [k] of the literal [t]; a key written
    twice keeps its last value.  A key that is not an own property is
    looked up in [Object.prototype], whose members are objects and
    functions. *)

Definition table := list (string * Q).

Definition own (t : table) (k : string) : option Q :=
  fold_left
    (fun acc kv => if String.eqb (fst kv) k then Some (snd kv) else acc)
    t None.

Definition Object_prototype : list string :=
  [ "constructor"; "hasOwnProperty"; "isPrototypeOf";
    "propertyIsEnumerable"; "toLocaleString"; "toString"; "valueOf";
    "__proto__"; "__defineGetter__"; "__defineSetter__";
    "__lookupGetter__"; "__lookupSetter__" ]%string.

Definition inherited (k : string) : bool :=
  existsb (String.eqb k) Object_prototype.

(** What a table read and the arithmetic on it can produce: a number, or
    a value that is not a number (an inherited member, or the string
    obtained by adding one to something), which is truthy and converts to
    [NaN]. *)
Inductive cell : Type :=
| Number (n : num)
| Opaque.

Definition toNumber (c : cell) : num :=
  match c with Number n => n | Opaque => NaN end.

(** [t[k] || d]. *)
Definition get_or (t : table) (k : string) (d : Q) : cell :=
  match own t k with
  | Some q => Number (or_else (Fin q) (Fin d))
  | None => if inherited k then Opaque else Number (Fin d)
  end.

(** [t[n] || d] for a number [n] used as the key. *)
Definition get_num_or (t : table) (n : num) (d : Q) : cell :=
  match numeral n with
  | Some k => get_or t k d
  | None => Number (Fin d)
  end.

(** [a + b]: numeric addition on two numbers, a string otherwise. *)
Definition plus (a b : cell) : cell :=
  match a, b with
  | Number x, Number y => Number (add x y)
  | _, _ => Opaque
  end.

(** *** Plain objects returned to callers

    An object is the list of its own fields, in the order they were
    written. *)

Local Unset Elimination Schemes.
Inductive data : Type :=
| DNull
| DBool (b : bool)
| DNum (n : num)
| DStr (s : string)
| DDate (t : Z)                          (* a [Date], as its time value *)
| DOpaque                                (* see [cell] *)
| DArr (items : list data)
| DObj (fields : list (string * data)).
Local Set Elimination Schemes.

Definition of_cell (c : cell) : data :=
  match c with Number n => DNum n | Opaque => DOpaque end.

(** [o.k] for an own field. *)
Definition field (k : string) (o : data) : option data :=
  match o with
  | DObj fs =>
      fold_left
        (fun acc kv => if String.eqb (fst kv) k then Some (snd kv) else acc)
        fs None
  | _ => None
  end.

Definition has_field (k : string) (o : data) : bool :=
  match field k o with Some _ => true | None => false end.

End JS.

Declare Scope js_scope.
Delimit Scope js_scope with js.
Notation "x <- m ;; k" := (JS.bind m (fun x => k))
  (at level 61, m at next level, right associativity) : js_scope.

(* ================================================================== *)
(** ** services/marketDataService.js: the rent price calculator *)
(* ================================================================== *)

Module MarketDataService.
Import JS.
Local Open Scope string_scope.
Local Open Scope Q_scope.
Local Open Scope js_scope.

(** Base prices per square foot by property type (in INR). *)
Definition BASE_PRICES : table :=
  [ ("apartment", 4000); ("house", 3500); ("villa", 5000);
    ("penthouse", 6000); ("studio", 4500); ("default", 4000) ].

(** Location multipliers; cities and states share the one object. *)
Definition LOCATION_MULTIPLIERS : table :=
  [ ("mumbai", 1.8); ("delhi", 1.6); ("bangalore", 1.7);
    ("hyderabad", 1.4); ("chennai", 1.3); ("kolkata", 1.2);
    ("pune", 1.3); ("ahmedabad", 1.1); ("vishakapatnam", 1.0);
    ("maharashtra", 1.3); ("delhi", 1.6); ("karnataka", 1.2);
    ("telangana", 1.1); ("tamil nadu", 1.1); ("west bengal", 1.0);
    ("gujarat", 1.0); ("andhra pradesh", 0.9); ("default", 1.0) ].

(** Amenity values (in INR per month). *)
Definition AMENITY_VALUES : table :=
  [ ("parking", 1000); ("gym", 1500); ("pool", 2000);
    ("air conditioning", 2000); ("security", 1000);
    ("power backup", 1000); ("lift", 800); ("water supply", 500);
    ("maintenance", 1000); ("playground", 500); ("garden", 500);
    ("clubhouse", 1000); ("internet", 800); ("housekeeping", 1000) ].

Definition BEDROOM_MULTIPLIERS : table :=
  [ ("1", 1.0); ("2", 1.3); ("3", 1.6); ("4", 1.9); ("5", 2.2);
    ("default", 1.0) ].

Definition BATHROOM_MULTIPLIERS : table :=
  [ ("1", 1.0); ("2", 1.2); ("3", 1.4); ("4", 1.6); ("default", 1.0) ].

(** [t.default]. *)
Definition dot_default (t : table) : Q :=
  match own t "default" with Some q => q | None => 0 end.

(** The [amenities] field: absent, an array, or something that
    [Array.isArray] rejects. *)
Inductive amenities_field : Type :=
| NoAmenities
| AmenityArray (l : list value)
| NotAnArray.

(** The argument of [calculateRentPrice].  The numeric fields are a
    Number or absent; the categorical ones are any value. *)
Record Property : Type := {
  propertyType : value;
  bedrooms : option num;
  bathrooms : option num;
  squareFootage : option num;
  city : value;
  state : value;
  amenities : amenities_field
}.

Record PriceRange : Type := {
  min : num;
  max : num;
  currency : string;
  period : string
}.

Record PriceEstimate : Type := {
  basePrice : num;
  amenitiesValue : num;
  totalPrice : num;
  priceRange : PriceRange;
  locationMultiplier : num;
  bedroomMultiplier : num;
  bathroomMultiplier : num
}.

(** A destructuring default: used when the field is [undefined]. *)
Definition with_default {A} (o : option A) (d : A) : A :=
  match o with Some a => a | None => d end.

Definition value_default (v d : value) : value :=
  match v with Undefined => d | _ => v end.

(** [v || d] on values. *)
Definition value_or (v d : value) : value :=
  if truthy_value v then v else d.

(** [m.toFixed(2)] then [parseFloat]; only numbers have the method. *)
Definition call_toFixed2 (c : cell) : completion num :=
  match c with
  | Number n => Normal (toFixed2 n)
  | Opaque => Throw TypeError
  end.

(** The reducer over the amenity tags:
    [total + (AMENITY_VALUES[amenity.toLowerCase()] || 0)]. *)
Definition amenity_step (total : completion cell) (amenity : value)
  : completion cell :=
  t <- total ;;
  k <- call_toLowerCase amenity ;;
  Normal (plus t (get_or AMENITY_VALUES k 0)).

Definition amenities_sum (a : amenities_field) : completion cell :=
  match a with
  | AmenityArray l => fold_left amenity_step l (Normal (Number (Fin 0)))
  | NotAnArray => Normal (Number (Fin 0))
  | NoAmenities => Normal (Number (Fin 0))   (* the default [[]] *)
  end.

(** The unrounded total of the calculation, kept apart so that the price
    range can be related to it. *)
Record Workings : Type := {
  w_basePrice : num;
  w_amenitiesValue : cell;
  w_totalPrice : cell;
  w_location : num;
  w_bedroom : cell;
  w_bathroom : cell
}.

Definition workings (property : Property) : completion Workings :=
  let bedrooms := with_default property.(bedrooms) (Fin 1) in
  let bathrooms := with_default property.(bathrooms) (Fin 1) in
  let squareFootage := with_default property.(squareFootage) (Fin 0) in
  let city := value_default property.(city) (Str "") in
  let state := value_default property.(state) (Str "") in
  propertyType <-
    call_toLowerCase (value_or property.(propertyType) (Str "apartment")) ;;
  let basePricePerSqFt :=
    get_or BASE_PRICES propertyType (dot_default BASE_PRICES) in
  let basePrice :=
    mul (toNumber basePricePerSqFt) (or_else squareFootage (Fin 1000)) in
  cityKey <- call_toLowerCase city ;;
  let cityMultiplier := get_or LOCATION_MULTIPLIERS cityKey 1.0 in
  stateKey <- call_toLowerCase state ;;
  let stateMultiplier := get_or LOCATION_MULTIPLIERS stateKey 1.0 in
  let locationMultiplier :=
    Math.max3 (toNumber cityMultiplier) (toNumber stateMultiplier)
              (Fin 0.8) in
  let basePrice := mul basePrice locationMultiplier in
  let bedroomMultiplier :=
    get_num_or BEDROOM_MULTIPLIERS bedrooms
               (dot_default BEDROOM_MULTIPLIERS) in
  let bathroomMultiplier :=
    get_num_or BATHROOM_MULTIPLIERS bathrooms
               (dot_default BATHROOM_MULTIPLIERS) in
  let basePrice :=
    mul basePrice
        (mul (toNumber bedroomMultiplier) (toNumber bathroomMultiplier)) in
  amenitiesValue <- amenities_sum property.(amenities) ;;
  let totalPrice := plus (Number basePrice) amenitiesValue in
  Normal {| w_basePrice := basePrice;
            w_amenitiesValue := amenitiesValue;
            w_totalPrice := totalPrice;
            w_location := locationMultiplier;
            w_bedroom := bedroomMultiplier;
            w_bathroom := bathroomMultiplier |}.

Definition estimate_of (w : Workings) : completion PriceEstimate :=
  let totalPrice := toNumber w.(w_totalPrice) in
  let priceVariance := mul totalPrice (Fin 0.15) in
  let minPrice := Math.round (sub totalPrice priceVariance) in
  let maxPrice := Math.round (add totalPrice priceVariance) in
  let lm := toFixed2 w.(w_location) in
  bm <- call_toFixed2 w.(w_bedroom) ;;
  tm <- call_toFixed2 w.(w_bathroom) ;;
  Normal {| basePrice := Math.round w.(w_basePrice);
            amenitiesValue := Math.round (toNumber w.(w_amenitiesValue));
            totalPrice := Math.round totalPrice;
            priceRange := {| min := minPrice; max := maxPrice;
                             currency := "INR"; period := "month" |};
            locationMultiplier := lm;
            bedroomMultiplier := bm;
            bathroomMultiplier := tm |}.

Definition calculateRentPrice (property : Property)
  : completion PriceEstimate :=
  try_rethrow (w <- workings property ;; estimate_of w)
              "Failed to calculate rent price".

End MarketDataService.


(* ================================================================== *)
(** ** services/marketData.js: market data and price trends *)
(* ================================================================== *)

Module MarketData.
Import JS.
Local Open Scope string_scope.
Local Open Scope Q_scope.
Local Open Scope js_scope.

(** What the service reads of a stored listing. *)
Record Doc : Type := {
  pricing_rent : option num;             (* [prop.pricing?.rent] *)
  doc_propertyType : option string
}.

(** The [location] argument; a field is [None] when it is absent. *)
Record Location : Type := {
  loc_city : option string;
  loc_state : option string
}.

(** The listing store: what
    [Property.find({'address.city': city, 'address.state': state})]
    resolves to for a location, or the exception it rejects with. *)
Record Store : Type := {
  find : Location -> completion (list Doc)
}.

(** The host services the module calls: the clock, the calendar and the
    successive results of [Math.random()], each in [0, 1). *)
Record Host : Type := {
  now : Z;
  isoDateMonthsAgo : nat -> string;
  random : nat -> Q
}.

Definition opt_str (o : option string) : data :=
  match o with Some s => DStr s | None => DNull end.

(** Global market data (fallback). *)
Definition getGlobalMarketData (h : Host) : data :=
  DObj [ ("location", DObj [("city", DStr "Global"); ("state", DStr "All")]);
         ("averageRent", DNum (Fin 1500));
         ("propertyTypeDistribution",
           DObj [ ("Apartment", DNum (Fin 45)); ("House", DNum (Fin 35));
                  ("Condo", DNum (Fin 15)); ("Other", DNum (Fin 5)) ]);
         ("totalListings", DNum (Fin 100));
         ("lastUpdated", DDate h.(now));
         ("isEstimate", DBool true) ].

(** [propertyTypes[type] = (propertyTypes[type] || 0) + 1] for a key
    other than ["__proto__"]. *)
Fixpoint bump_key (counts : list (string * cell)) (type : string)
  : list (string * cell) :=
  match counts with
  | [] =>
      [ (type, plus (if inherited type then Opaque else Number (Fin 0))
                    (Number (Fin 1))) ]
  | (k, c) :: rest =>
      if String.eqb k type
      then (k, plus (match c with
                     | Number n => Number (or_else n (Fin 0))
                     | Opaque => Opaque
                     end) (Number (Fin 1))) :: rest
      else (k, c) :: bump_key rest type
  end.

(** [propertyTypes[type] = (propertyTypes[type] || 0) + 1].  Assigning a
    string to ["__proto__"] changes nothing: the key is the accessor of the
    prototype, which ignores a value that is not an object. *)
Definition bump (counts : list (string * cell)) (type : string)
  : list (string * cell) :=
  if String.eqb type "__proto__" then counts else bump_key counts type.

Definition type_of (d : Doc) : string :=
  match d.(doc_propertyType) with
  | Some s => if String.eqb s "" then "Unknown" else s
  | None => "Unknown"
  end.

Definition rent_or_0 (d : Doc) : num :=
  match d.(pricing_rent) with
  | Some r => or_else r (Fin 0)
  | None => Fin 0
  end.

Definition length_num {A} (l : list A) : num := of_Z (Z.of_nat (length l)).

(** The aggregate computed from the stored listings of the location. *)
Definition aggregate (h : Host) (l : Location) (properties : list Doc)
  : data :=
  let totalRent :=
    fold_left (fun sum prop => add sum (rent_or_0 prop)) properties (Fin 0) in
  let avgRent := div totalRent (length_num properties) in
  let propertyTypes :=
    fold_left (fun acc prop => bump acc (type_of prop)) properties [] in
  DObj [ ("location", DObj [ ("city", opt_str l.(loc_city));
                             ("state", opt_str l.(loc_state)) ]);
         ("averageRent", DNum (Math.round avgRent));
         ("propertyTypeDistribution",
           DObj (map (fun kc => (fst kc, of_cell (snd kc))) propertyTypes));
         ("totalListings", DNum (length_num properties));
         ("lastUpdated", DDate h.(now)) ].

Definition no_city (l : Location) : bool :=
  match l.(loc_city) with
  | Some s => String.eqb s ""
  | None => true
  end.

(** [getMarketData(location)]; [None] is a missing location. *)
Definition getMarketData (h : Host) (st : Store) (location : option Location)
  : data :=
  match location with
  | None => getGlobalMarketData h
  | Some l =>
      if no_city l then getGlobalMarketData h
      else
        match st.(find) l with
        | Throw _ => getGlobalMarketData h          (* the [catch] *)
        | Normal properties =>
            match properties with
            | [] => getGlobalMarketData h
            | _ => aggregate h l properties
            end
        end
  end.

(** One turn of the loop of [getPriceTrends], for the month [i] back and
    the [k]-th call of [Math.random()]. *)
Definition trend_point (h : Host) (i k : nat) : data :=
  let basePrice :=
    add (Fin 1200) (sub (mul (Fin (h.(random) k)) (Fin 600)) (Fin 300)) in
  DObj [ ("date", DStr (h.(isoDateMonthsAgo) i));
         ("averageRent",
           DNum (Math.round
                   (add basePrice (mul (of_Z (Z.of_nat i)) (Fin 20))))) ].

(** [for (let i = months - 1; i >= 0; i--)], with [k] calls of
    [Math.random()] made so far. *)
Fixpoint trend_loop (h : Host) (months k : nat) : list data :=
  match months with
  | O => []
  | S i => trend_point h i k :: trend_loop h i (S k)
  end.

Definition getPriceTrends (h : Host) (location : option Location)
           (months : nat) : data :=
  DArr (trend_loop h months 0).

End MarketData.

(* ================================================================== *)
(** ** Regular expressions, as [String.prototype.match] runs them *)
(* ================================================================== *)

Module RegExp.
Import JS.
Local Open Scope string_scope.

(** The pattern language the program uses.  Quantifiers are greedy and
    backtrack.  Capture groups are numbered as they close; the patterns
    of the program do not nest them. *)
Inductive regex : Type :=
| Chr (c : ascii)                        (* a literal character *)
| Class (p : ascii -> bool)              (* a character class *)
| Seq (r1 r2 : regex)
| Opt (r : regex)                        (* [r?] *)
| Star (r : regex)                       (* [r*] *)
| Plus (r : regex)                       (* [r+] *)
| Group (r : regex).                     (* [(r)] *)

Fixpoint literal (s : string) (tail : regex) : regex :=
  match s with
  | EmptyString => tail
  | String c r => Seq (Chr c) (literal r tail)
  end.

Definition between (lo hi : nat) (c : ascii) : bool :=
  let n := nat_of_ascii c in (lo <=? n)%nat && (n <=? hi)%nat.

(** [\d], [\s] and [[a-zA-Z\s]]. *)
Definition digit (c : ascii) : bool := between 48 57 c.
Definition space (c : ascii) : bool :=
  between 9 13 c || (nat_of_ascii c =? 32)%nat.
Definition letter_or_space (c : ascii) : bool :=
  between 97 122 c || between 65 90 c || space c.

(** The text consumed between the input [s] and its suffix [rest]. *)
Definition consumed (s rest : string) : string :=
  substring 0 (String.length s - String.length rest) s.

Section Matcher.
Variable R : Type.

(** [run r s caps k]: match [r] at the start of [s], then continue with
    [k] on the remaining input and the captures; on failure of [k] the
    next alternative of [r] is tried. *)
Fixpoint run (r : regex) (s : string) (caps : list string)
         (k : string -> list string -> option R) {struct r} : option R :=
  match r with
  | Chr c =>
      match s with
      | String d rest => if Ascii.eqb c d then k rest caps else None
      | EmptyString => None
      end
  | Class p =>
      match s with
      | String d rest => if p d then k rest caps else None
      | EmptyString => None
      end
  | Seq r1 r2 => run r1 s caps (fun s1 caps1 => run r2 s1 caps1 k)
  | Opt r1 =>
      match run r1 s caps k with
      | Some x => Some x
      | None => k s caps
      end
  | Star r1 =>
      (fix loop (fuel : nat) (s : string) (caps : list string)
         : option R :=
         match fuel with
         | O => k s caps
         | S fuel' =>
             match run r1 s caps
                     (fun s1 caps1 =>
                        if (String.length s1 <? String.length s)%nat
                        then loop fuel' s1 caps1 else None) with
             | Some x => Some x
             | None => k s caps
             end
         end) (String.length s) s caps
  | Plus r1 =>
      run r1 s caps
        (fun s0 caps0 =>
           (fix loop (fuel : nat) (s : string) (caps : list string)
              : option R :=
              match fuel with
              | O => k s caps
              | S fuel' =>
                  match run r1 s caps
                          (fun s1 caps1 =>
                             if (String.length s1 <? String.length s)%nat
                             then loop fuel' s1 caps1 else None) with
                  | Some x => Some x
                  | None => k s caps
                  end
              end) (String.length s0) s0 caps0)
  | Group r1 =>
      run r1 s caps (fun s1 caps1 => k s1 (caps1 ++ [consumed s s1])%list)
  end.
End Matcher.
Arguments run {R} r s caps k.

(** [s.match(r)] for a pattern without the [g] flag: the captures of the
    leftmost match, or [None] for [null]. *)
Fixpoint match_ (r : regex) (s : string) : option (list string) :=
  match run r s [] (fun _ caps => Some caps) with
  | Some caps => Some caps
  | None =>
      match s with
      | EmptyString => None
      | String _ rest => match_ r rest
      end
  end.

(** [m[1]] of a successful match. *)
Definition group1 (caps : list string) : string := nth 0 caps "".

(** [m[2]] of a successful match. *)
Definition group2 (caps : list string) : string := nth 1 caps "".

(** What a pattern can match: [matches r w caps] when [r] matches exactly
    the text [w] and its groups capture [caps]. *)
Inductive matches : regex -> string -> list string -> Prop :=
| M_Chr (c : ascii) : matches (Chr c) (String c "") []
| M_Class (p : ascii -> bool) (c : ascii) :
    p c = true -> matches (Class p) (String c "") []
| M_Seq r1 r2 w1 w2 c1 c2 :
    matches r1 w1 c1 -> matches r2 w2 c2 ->
    matches (Seq r1 r2) (w1 ++ w2) (c1 ++ c2)%list
| M_Opt_none r : matches (Opt r) "" []
| M_Opt_some r w c : matches r w c -> matches (Opt r) w c
| M_Star_nil r : matches (Star r) "" []
| M_Star_cons r w1 w2 c1 c2 :
    matches r w1 c1 -> matches (Star r) w2 c2 ->
    matches (Star r) (w1 ++ w2) (c1 ++ c2)%list
| M_Plus r w1 w2 c1 c2 :
    matches r w1 c1 -> matches (Star r) w2 c2 ->
    matches (Plus r) (w1 ++ w2) (c1 ++ c2)%list
| M_Group r w c :
    matches r w c -> matches (Group r) w (c ++ [w])%list.

End RegExp.

(* ================================================================== *)
(** ** What the route handlers read of a stored listing *)
(* ================================================================== *)

Module Models.
Import JS.

(** A hydrated [Property] document.  Optional numbers are [None] when the
    field is absent; [amenities] is a schema array, always present. *)
Record Listing : Type := {
  title : string;
  rent : option num;                     (* [pricing.rent] *)
  bedrooms : option num;                 (* [specifications.bedrooms] *)
  squareFootage : option num;            (* [specifications.squareFootage] *)
  yearBuilt : option num;                (* [specifications.yearBuilt] *)
  amenities : list string;
  views : option num;
  createdAt : Z
}.

(** A [{min, max}] range of preferences. *)
Record Range : Type := {
  min : option num;
  max : option num
}.

(** ToNumber of an optional number: [undefined] converts to [NaN]. *)
Definition number (o : option num) : num :=
  match o with Some n => n | None => NaN end.

(** ToBoolean of an optional number. *)
Definition present (o : option num) : bool :=
  match o with Some n => truthy n | None => false end.

(** [xs.includes(x)] on strings. *)
Definition includes (xs : list string) (x : string) : bool :=
  existsb (String.eqb x) xs.

Definition length_num {A} (l : list A) : num := of_Z (Z.of_nat (length l)).

End Models.

(* ================================================================== *)
(** ** The AI routes: natural-language search and personalized score *)
(* ================================================================== *)

Module AiRoutes.
Import JS RegExp Models.
Local Open Scope string_scope.
Local Open Scope Q_scope.

(** [parseInt(s)] in base ten: optional white space and sign, then the
    longest run of digits; [NaN] when there is none. *)
Fixpoint skip_space (s : string) : string :=
  match s with
  | String c r => if space c then skip_space r else s
  | EmptyString => s
  end.

Fixpoint digits (s : string) (acc : option Z) : option Z :=
  match s with
  | String c r =>
      if digit c
      then digits r (Some (10 * match acc with Some a => a | None => 0 end
                           + Z.of_nat (nat_of_ascii c - 48))%Z)
      else acc
  | EmptyString => acc
  end.

(** The Number nearest to a non-negative integer: the integer itself
    below 2^53; from there on the integer rounded to 53 significant bits,
    ties to even, and [Infinity] when that reaches 2^1024.  (From the 21st
    digit on the language lets an implementation replace digits by zeros;
    the result is an integer or [Infinity] either way.) *)
Definition nearest_number (z : Z) : num :=
  if (z <? 2 ^ 53)%Z then of_Z z
  else
    let e := (Z.log2 z - 52)%Z in
    let q := Z.shiftr z e in
    let r := Z.land z (Z.ones e) in
    let half := Z.shiftl 1 (e - 1) in
    let m :=
      if (r <? half)%Z then q
      else if (half <? r)%Z then (q + 1)%Z
      else if Z.even q then q else (q + 1)%Z in
    let v := Z.shiftl m e in
    if (2 ^ 1024 <=? v)%Z then PInf else of_Z v.

Definition parseInt (s : string) : num :=
  let s := skip_space s in
  let '(negative, s) :=
    match s with
    | String "-" r => (true, r)
    | String "+" r => (false, r)
    | _ => (false, s)
    end in
  match digits s None with
  | Some z => if negative then neg (nearest_number z) else nearest_number z
  | None => NaN
  end.

(** [s.trim()]. *)
Fixpoint trim_end (s : string) : string :=
  match s with
  | EmptyString => EmptyString
  | String c r =>
      match trim_end r with
      | EmptyString => if space c then EmptyString else String c EmptyString
      | r' => String c r'
      end
  end.

Definition trim (s : string) : string := trim_end (skip_space s).

(** [/under \$?(\d+)/], [/(\d+)\s*bed/] and [/in ([a-zA-Z\s]+)/]. *)
Definition price_pattern : regex :=
  literal "under " (Seq (Opt (Chr "$")) (Group (Plus (Class digit)))).

Definition bedroom_pattern : regex :=
  Seq (Group (Plus (Class digit)))
      (Seq (Star (Class space)) (Seq (Chr "b") (Seq (Chr "e") (Chr "d")))).

Definition location_pattern : regex :=
  Seq (Chr "i") (Seq (Chr "n") (Seq (Chr " ")
      (Group (Plus (Class letter_or_space))))).

(** The object built by the parser; a field that was not assigned is
    [None]. *)
Record Filters : Type := {
  maxRent : option num;
  f_bedrooms : option num;
  city : option string
}.

Definition parseNaturalLanguageQuery (query : string) : Filters :=
  let lowerQuery := toLowerCase query in
  let priceMatch := match_ price_pattern lowerQuery in
  let bedroomMatch := match_ bedroom_pattern lowerQuery in
  let locationMatch := match_ location_pattern lowerQuery in
  {| maxRent := option_map (fun m => parseInt (group1 m)) priceMatch;
     f_bedrooms := option_map (fun m => parseInt (group1 m)) bedroomMatch;
     city := option_map (fun m => trim (group1 m)) locationMatch |}.

(** [user.preferences], as far as the score reads it. *)
Record UserPrefs : Type := {
  budget : option Range;
  p_bedrooms : option Range;
  p_amenities : option (list string)
}.

(** The three terms of the personalized score. *)
Definition budget_match (property : Listing) (userPrefs : UserPrefs) : num :=
  match userPrefs.(budget) with
  | Some b =>
      if present b.(max)
      then if le (number property.(rent)) (number b.(max))
           then Fin 30 else Fin 0
      else Fin 0
  | None => Fin 0
  end.

Definition bedroom_match (property : Listing) (userPrefs : UserPrefs)
  : num :=
  match userPrefs.(p_bedrooms) with
  | Some b =>
      if present b.(min)
      then if ge (number property.(bedrooms)) (number b.(min))
           then Fin 25 else Fin 0
      else Fin 0
  | None => Fin 0
  end.

Definition amenity_matches (property : Listing) (userPrefs : UserPrefs)
  : num :=
  match userPrefs.(p_amenities) with
  | Some wanted =>
      let matches :=
        length_num (filter (includes property.(amenities)) wanted) in
      mul matches (Fin 5)
  | None => Fin 0
  end.

Definition calculatePersonalizedScore (property : Listing)
           (userPrefs : UserPrefs) : num :=
  let score := Fin 0 in
  let score := add score (budget_match property userPrefs) in
  let score := add score (bedroom_match property userPrefs) in
  let score := add score (amenity_matches property userPrefs) in
  Math.min2 score (Fin 100).

(** The number of calls of [Math.random()] that the route's
    [getMarketData(property)] makes before it draws the market health: one
    for the average rent when the listing has a rent, one for the price per
    square foot when it has a size. *)
Definition rent_draws (property : Listing) : nat :=
  if present property.(rent) then 1 else 0.

Definition figure_draws (property : Listing) : nat :=
  (rent_draws property
   + if present property.(squareFootage) then 1 else 0)%nat.

(** The route's own [getMarketData(property)]: figures drawn around the
    listing's rent with up to three calls of [Math.random()];
    [random k] is the result of the [k]-th call, counted from zero. *)
Definition getMarketData (random : nat -> Q) (isoNow : string)
           (property : Listing) : data :=
  DObj [ ("averageRent",
           if present property.(rent)
           then DNum (Math.round
                        (mul (number property.(rent))
                             (add (Fin 0.9)
                                  (mul (Fin (random 0%nat)) (Fin 0.2)))))
           else DNull);
         ("averagePricePerSqFt",
           if present property.(squareFootage)
           then DNum (mul (div (or_else (number property.(rent)) (Fin 0))
                               (number property.(squareFootage)))
                          (add (Fin 0.8)
                               (mul (Fin (random (rent_draws property)))
                                    (Fin 0.4))))
           else DNull);
         ("marketHealth",
           match Qfloor (random (figure_draws property) * 3) with
           | 0%Z => DStr "growing"
           | 1%Z => DStr "stable"
           | 2%Z => DStr "declining"
           | _ => DNull
           end);
         ("lastUpdated", DStr isoNow) ].

End AiRoutes.

(* ================================================================== *)
(** ** The search routes: smart score and smart recommendations *)
(* ================================================================== *)

Module SearchRoutes.
Import JS Models.
Local Open Scope string_scope.
Local Open Scope Q_scope.

(** [marketDataService.getMarketData(city, state)] is not part of the
    sources at hand; the routes read its [avgRent] object, keyed by
    ["studio"] and ["<n>bed"], which is taken as a parameter. *)
Record MarketData : Type := {
  avgRent : list (string * num)
}.

Definition avgRent_get (m : MarketData) (k : option string) : option num :=
  match k with
  | Some k =>
      fold_left
        (fun acc kv => if String.eqb (fst kv) k then Some (snd kv) else acc)
        m.(avgRent) None
  | None => None
  end.

(** [bedrooms === 0 ? 'studio' : `${bedrooms}bed`]. *)
Definition bedroomKey (bedrooms : option num) : option string :=
  match bedrooms with
  | Some n =>
      if eqb n (Fin 0) then Some "studio"
      else option_map (fun d => d ++ "bed") (numeral n)
  | None => Some "undefinedbed"
  end.

Definition getRelativePricing (rent : option num) (marketData : MarketData)
           (bedrooms : option num) : string :=
  let marketAvg :=
    if present (avgRent_get marketData (bedroomKey bedrooms))
    then avgRent_get marketData (bedroomKey bedrooms)
    else avgRent_get marketData (Some "1bed") in
  let ratio := div (number rent) (number marketAvg) in
  if lt ratio (Fin 0.9) then "good-value"
  else if lt ratio (Fin 1.1) then "market-rate"
  else "premium".

(** [req.body.preferences], as far as the score reads it. *)
Record Preferences : Type := {
  budget : option Range;
  p_amenities : option (list string)
}.

(** Price scoring (30% weight). *)
Definition price_term (property : Listing) (preferences : Preferences)
  : num :=
  match preferences.(budget) with
  | Some b =>
      let budgetMid := div (add (number b.(min)) (number b.(max))) (Fin 2) in
      let priceDiff :=
        div (Math.abs (sub (number property.(rent)) budgetMid)) budgetMid in
      mul (sub (Fin 1) priceDiff) (Fin 30)
  | None => Fin 0
  end.

(** Amenity matching (25% weight). *)
Definition amenity_term (property : Listing) (preferences : Preferences)
  : num :=
  match preferences.(p_amenities) with
  | Some wanted =>
      if (0 <? length wanted)%nat
      then let matchedAmenities :=
             filter (includes wanted) property.(amenities) in
           mul (div (length_num matchedAmenities) (length_num wanted))
               (Fin 25)
      else Fin 0
  | None => Fin 0
  end.

(** Market position (20% weight). *)
Definition market_term (property : Listing) (marketData : MarketData)
  : num :=
  let marketPosition :=
    getRelativePricing property.(rent) marketData property.(bedrooms) in
  if String.eqb marketPosition "good-value" then Fin 20
  else if String.eqb marketPosition "market-rate" then Fin 15
  else if String.eqb marketPosition "premium" then Fin 10
  else Fin 0.

(** Property quality indicators (15% weight). *)
Definition quality_term (property : Listing) : num :=
  add (add (if gt (number property.(yearBuilt)) (Fin 2010)
            then Fin 5 else Fin 0)
           (if (5 <? length property.(amenities))%nat
            then Fin 5 else Fin 0))
      (if gt (number property.(squareFootage)) (Fin 1000)
       then Fin 5 else Fin 0).

(** Demand/popularity (10% weight). *)
Definition popularity_term (property : Listing) : num :=
  Math.min2 (Fin 10) (div (number property.(views)) (Fin 50)).

Definition calculateSmartScore (property : Listing)
           (preferences : Preferences) (marketData : MarketData) : num :=
  let score := Fin 50 in
  let score := add score (price_term property preferences) in
  let score := add score (amenity_term property preferences) in
  let score := add score (market_term property marketData) in
  let score := add score (quality_term property) in
  let score := add score (popularity_term property) in
  Math.min2 (Fin 100) (Math.max2 (Fin 0) score).

(** *** [Array.prototype.sort]

    The sort is stable: an element moves behind another one only when the
    comparison function returns a number above zero for the pair.  For a
    consistent comparison function this determines the result; when the
    function returns [NaN] for some pairs the language leaves the order to
    the implementation. *)
Section Sort.
Variable A : Type.
Variable comparefn : A -> A -> num.

Fixpoint insert (x : A) (l : list A) : list A :=
  match l with
  | [] => [x]
  | y :: rest =>
      if gt (comparefn x y) (Fin 0)
      then y :: insert x rest
      else x :: l
  end.

Definition sort (l : list A) : list A := fold_right insert [] l.
End Sort.
Arguments insert {A} comparefn x l.
Arguments sort {A} comparefn l.

(** A listing with its [smartScore] attached. *)
Record Scored : Type := {
  listing : Listing;
  smartScore : num
}.

(** What the route holds as [marketDataService], the result of
    [require('../services/marketDataService')].  That module exports
    [calculateRentPrice] and [getMarketTrends] and nothing else, so the
    member [getMarketData] that the route calls is [undefined]: [None].
    [Some marketOf] describes a module that would export the function,
    [marketOf] giving the market data of a listing's city and state. *)
Record Exports : Type := {
  getMarketData : option (Listing -> MarketData)
}.

Definition marketDataService : Exports := {| getMarketData := None |}.

(** [service.getMarketData(property.address.city, property.address.state)];
    calling [undefined] raises a TypeError. *)
Definition call_getMarketData (service : Exports) (property : Listing)
  : completion MarketData :=
  match service.(getMarketData) with
  | Some marketOf => Normal (marketOf property)
  | None => Throw TypeError
  end.

(** [xs.map(f)] for a callback that can throw: the elements are visited in
    order and the first exception ends the call. *)
Fixpoint map_throwing {A B} (f : A -> completion B) (xs : list A)
  : completion (list B) :=
  match xs with
  | [] => Normal []
  | x :: rest =>
      bind (f x) (fun y =>
      bind (map_throwing f rest) (fun ys => Normal (y :: ys)))
  end.

(** The listing with its score, computed from the given market data. *)
Definition scored (preferences : Preferences) (marketData : MarketData)
           (property : Listing) : Scored :=
  {| listing := property;
     smartScore := calculateSmartScore property preferences marketData |}.

(** The ranking of [/smart-recommendations], applied to [found], the
    result of [Property.find(query).sort({createdAt: -1}).limit(50)]. *)
Definition recommendations (service : Exports) (found : list Listing)
           (preferences : Preferences) : completion (list Scored) :=
  bind (map_throwing
          (fun property =>
             bind (call_getMarketData service property)
                  (fun marketData =>
                     Normal (scored preferences marketData property)))
          found)
       (fun properties =>
          let properties :=
            sort (fun a b => sub b.(smartScore) a.(smartScore)) properties in
          Normal (firstn 20 properties)).

(** The answer of the route: the ranking, or the answer of its [catch]
    block. *)
Inductive response : Type :=
| Json (recommendations : list Scored)
| Status500 (message : string).

Definition smartRecommendations (service : Exports) (found : list Listing)
           (preferences : Preferences) : response :=
  match recommendations service found preferences with
  | Normal ranking => Json ranking
  | Throw _ => Status500 "Smart recommendations service error"
  end.

End SearchRoutes.

(* ================================================================== *)
(** ** Conditions on inputs, as the properties below state them *)
(* ================================================================== *)

Module Contracts.
Import JS Models.
Local Open Scope string_scope.
Local Open Scope Q_scope.

Module P := MarketDataService.

(** *** The argument of [calculateRentPrice] *)

Definition is_Str (v : value) : bool :=
  match v with Str _ => true | _ => false end.

(** A categorical field holds a string or is absent; the amenity tags
    are strings. *)
Definition string_or_absent (v : value) : bool :=
  match v with Str _ | Undefined => true | _ => false end.

Definition tags_are_strings (a : P.amenities_field) : bool :=
  match a with
  | P.AmenityArray l => forallb is_Str l
  | _ => true
  end.

Definition categorical_strings (p : P.Property) : bool :=
  string_or_absent p.(P.propertyType)
  && string_or_absent p.(P.city)
  && string_or_absent p.(P.state)
  && tags_are_strings p.(P.amenities).

(** The keys under which the tables are read. *)
Definition key_of (v : value) : string :=
  match v with Str s => toLowerCase s | _ => "" end.

Definition type_key (p : P.Property) : string :=
  key_of (P.value_or p.(P.propertyType) (Str "apartment")).

Definition city_key (p : P.Property) : string := key_of p.(P.city).
Definition state_key (p : P.Property) : string := key_of p.(P.state).

Definition tag_keys (p : P.Property) : list string :=
  match p.(P.amenities) with
  | P.AmenityArray l => map key_of l
  | _ => []
  end.

(** No key names a member inherited from [Object.prototype]. *)
Definition plain_keys (p : P.Property) : bool :=
  negb (inherited (type_key p))
  && negb (inherited (city_key p))
  && negb (inherited (state_key p))
  && forallb (fun k => negb (inherited k)) (tag_keys p).

(** The sum of the amenity values, over the keys of the tags. *)
Definition tags_value (keys : list string) (start : cell) : cell :=
  fold_left (fun t k => plus t (get_or P.AMENITY_VALUES k 0)) keys start.

(** The intermediate values of the calculation when the categorical
    fields are strings. *)
Definition workings_of (p : P.Property) : P.Workings :=
  let basePricePerSqFt :=
    get_or P.BASE_PRICES (type_key p)
           (P.dot_default P.BASE_PRICES) in
  let area :=
    or_else (P.with_default p.(P.squareFootage) (Fin 0)) (Fin 1000) in
  let location :=
    Math.max3
      (toNumber (get_or P.LOCATION_MULTIPLIERS (city_key p) 1.0))
      (toNumber (get_or P.LOCATION_MULTIPLIERS (state_key p) 1.0))
      (Fin 0.8) in
  let bedroom :=
    get_num_or P.BEDROOM_MULTIPLIERS (P.with_default p.(P.bedrooms) (Fin 1))
               (P.dot_default P.BEDROOM_MULTIPLIERS) in
  let bathroom :=
    get_num_or P.BATHROOM_MULTIPLIERS (P.with_default p.(P.bathrooms) (Fin 1))
               (P.dot_default P.BATHROOM_MULTIPLIERS) in
  let base :=
    mul (mul (mul (toNumber basePricePerSqFt) area) location)
        (mul (toNumber bedroom) (toNumber bathroom)) in
  let tags := tags_value (tag_keys p) (Number (Fin 0)) in
  {| P.w_basePrice := base;
     P.w_amenitiesValue := tags;
     P.w_totalPrice := plus (Number base) tags;
     P.w_location := location;
     P.w_bedroom := bedroom;
     P.w_bathroom := bathroom |}.

(** Well-formed numeric fields: counts and areas are non-negative
    integers, the number of bathrooms is a non-negative number; each may
    be absent. *)
Definition whole (q : Q) : bool := Qeq_bool q (inject_Z (Qfloor q)).

Definition count_or_absent (o : option num) : bool :=
  match o with
  | None => true
  | Some (Fin q) => Qle_bool 0 q && whole q
  | Some _ => false
  end.

Definition amount_or_absent (o : option num) : bool :=
  match o with
  | None => true
  | Some (Fin q) => Qle_bool 0 q
  | Some _ => false
  end.

Definition numeric_well_formed (p : P.Property) : bool :=
  count_or_absent p.(P.bedrooms)
  && amount_or_absent p.(P.bathrooms)
  && count_or_absent p.(P.squareFootage).

(** The same listing with another area, or other numbers of rooms. *)
Definition with_area (p : P.Property) (area : option num) : P.Property :=
  {| P.propertyType := p.(P.propertyType);
     P.bedrooms := p.(P.bedrooms);
     P.bathrooms := p.(P.bathrooms);
     P.squareFootage := area;
     P.city := p.(P.city);
     P.state := p.(P.state);
     P.amenities := p.(P.amenities) |}.

Definition with_rooms (p : P.Property) (beds baths : option num)
  : P.Property :=
  {| P.propertyType := p.(P.propertyType);
     P.bedrooms := beds;
     P.bathrooms := baths;
     P.squareFootage := p.(P.squareFootage);
     P.city := p.(P.city);
     P.state := p.(P.state);
     P.amenities := p.(P.amenities) |}.

(** *** The market data service *)

(** The store holds listings for the location and the query succeeds: the
    aggregate is computed from them. *)
Definition real_aggregate (st : MarketData.Store)
           (location : option MarketData.Location) : bool :=
  match location with
  | None => false
  | Some l =>
      negb (MarketData.no_city l)
      && match st.(MarketData.find) l with
         | Normal (_ :: _) => true
         | _ => false
         end
  end.

(** *** The input of the ranking *)

(** Newest first, as [.sort({createdAt: -1})] returns the listings. *)
Definition newest_first (l : list Listing) : Prop :=
  StronglySorted (fun a b => (createdAt b <= createdAt a)%Z) l.

(** Every score is a number, so that the comparison function of the sort
    is consistent. *)
Definition scores_are_numbers (found : list Listing)
           (preferences : SearchRoutes.Preferences)
           (marketOf : Listing -> SearchRoutes.MarketData) : Prop :=
  Forall (fun property =>
            SearchRoutes.calculateSmartScore property preferences
                                             (marketOf property) <> NaN)
         found.

(** The listings of [found] with their scores, in the order of [found],
    scored with the market data that [marketOf] supplies. *)
Definition scored_found (found : list Listing)
           (preferences : SearchRoutes.Preferences)
           (marketOf : Listing -> SearchRoutes.MarketData)
  : list SearchRoutes.Scored :=
  map (fun property =>
         SearchRoutes.scored preferences (marketOf property) property)
      found.

(** A module that exports [getMarketData]. *)
Definition supplying (marketOf : Listing -> SearchRoutes.MarketData)
  : SearchRoutes.Exports :=
  {| SearchRoutes.getMarketData := Some marketOf |}.

(** The comparison function of the ranking, [(a, b) => b.score - a.score],
    and the order it sorts by. *)
Definition by_score {A} (score : A -> num) (a b : A) : num :=
  sub (score b) (score a).

Definition better {A} (score : A -> num) (a b : A) : Prop :=
  ge (score a) (score b) = true.

(** Best score first. *)
Definition best_first (l : list SearchRoutes.Scored) : Prop :=
  StronglySorted (better SearchRoutes.smartScore) l.

(** Two scored listings tie when their scores are [===]. *)
Definition tie (a b : SearchRoutes.Scored) : Prop :=
  eqb a.(SearchRoutes.smartScore) b.(SearchRoutes.smartScore) = true.

(** [a] stands before [b] in [l]. *)
Definition before {A} (a b : A) (l : list A) : Prop :=
  exists l1 l2 l3, l = (l1 ++ a :: l2 ++ b :: l3)%list.

(** [0 <= n <= 100] for a number [n]. *)
Definition in_0_100 (n : num) : Prop :=
  exists q, n = Fin q /\ 0 <= q <= 100.

End Contracts.

(* ================================================================== *)
(** ** Inputs used in the examples *)
(* ================================================================== *)

Module Samples.
Import JS Models.
Local Open Scope string_scope.
Local Open Scope Q_scope.

Module P := MarketDataService.

Definition property (type : string) (beds baths sqft : option num)
           (city state : value) (tags : list string) : P.Property :=
  {| P.propertyType := Str type;
     P.bedrooms := beds;
     P.bathrooms := baths;
     P.squareFootage := sqft;
     P.city := city;
     P.state := state;
     P.amenities := P.AmenityArray (map Str tags) |}.

(** The pricing example: a two-bedroom flat of 900 sq ft in Mumbai. *)
Definition mumbai_flat : P.Property :=
  property "apartment" (Some (Fin 2)) (Some (Fin 1)) (Some (Fin 900))
           (Str "mumbai") Undefined ["parking"; "gym"].

(** Numeric fields that are [NaN] or negative. *)
Definition malformed_flat : P.Property :=
  property "apartment" (Some (Fin (-2))) (Some NaN) (Some NaN)
           (Str "mumbai") Undefined ["parking"; "gym"].

Definition negative_area_flat : P.Property :=
  property "apartment" (Some (Fin 2)) (Some (Fin 1)) (Some (Fin (-900)))
           (Str "mumbai") Undefined [].

(** A listing whose city and state both read "Andhra Pradesh". *)
Definition andhra_flat : P.Property :=
  property "apartment" (Some (Fin 2)) (Some (Fin 1)) (Some (Fin 900))
           (Str "Andhra Pradesh") (Str "Andhra Pradesh") [].

(** Categorical fields that name a member of [Object.prototype]. *)
Definition constructor_type_flat : P.Property :=
  property "constructor" (Some (Fin 2)) (Some (Fin 1)) (Some (Fin 900))
           (Str "mumbai") Undefined ["parking"; "gym"].

Definition constructor_city_flat : P.Property :=
  property "apartment" (Some (Fin 2)) (Some (Fin 1)) (Some (Fin 900))
           (Str "constructor") (Str "Maharashtra") ["parking"; "gym"].

(** A city that no table knows. *)
Definition atlantis_flat : P.Property :=
  property "igloo" (Some (Fin 7)) (Some (Fin 9)) None
           (Str "Atlantis") (Str "Nowhere") ["moat"].

Definition listing (created : Z) (price : Q) (seen : option num) : Listing :=
  {| title := "flat";
     rent := Some (Fin price);
     bedrooms := Some (Fin 2);
     squareFootage := None;
     yearBuilt := None;
     amenities := ["pool"];
     views := seen;
     createdAt := created |}.

(** Three listings, newest first; the first and the last score alike. *)
Definition found3 : list Listing :=
  [ listing 3 1800 (Some (Fin 0));
    listing 2 2500 (Some (Fin 0));
    listing 1 1800 (Some (Fin 0)) ].

Definition market : SearchRoutes.MarketData :=
  {| SearchRoutes.avgRent :=
       [ ("studio", Fin 1000); ("1bed", Fin 1500); ("2bed", Fin 2000) ] |}.

Definition no_preferences : SearchRoutes.Preferences :=
  {| SearchRoutes.budget := None; SearchRoutes.p_amenities := None |}.

(** A budget with a ceiling and no floor, as in [{budget: {max: 2000}}]. *)
Definition ceiling_only : SearchRoutes.Preferences :=
  {| SearchRoutes.budget := Some {| min := None; max := Some (Fin 2000) |};
     SearchRoutes.p_amenities := None |}.

Definition budget_1000_2000 : Range :=
  {| min := Some (Fin 1000); max := Some (Fin 2000) |}.

Definition with_budget : SearchRoutes.Preferences :=
  {| SearchRoutes.budget := Some budget_1000_2000;
     SearchRoutes.p_amenities := None |}.

Definition user_with_budget : AiRoutes.UserPrefs :=
  {| AiRoutes.budget := Some budget_1000_2000;
     AiRoutes.p_bedrooms := None;
     AiRoutes.p_amenities := None |}.

Definition host : MarketData.Host :=
  {| MarketData.now := 0;
     MarketData.isoDateMonthsAgo := fun _ => "2024-01-01";
     MarketData.random := fun _ => 1 # 2 |}.

End Samples.


(* ================================================================== *)
(** ** The AI routes: the other helpers *)
(* ================================================================== *)

Module AiHelpers.
Import JS RegExp Models.
Local Open Scope string_scope.
Local Open Scope Q_scope.

Module P := MarketDataService.

(** *** Preferences read from a chat message *)

(** [/\$?(\d{1,4}),?(\d{3})/]; [\d{1,4}] tries four digits first and
    gives them back one by one. *)
Definition one_to_four_digits : regex :=
  Seq (Class digit)
      (Opt (Seq (Class digit)
                (Opt (Seq (Class digit) (Opt (Class digit)))))).

Definition three_digits : regex :=
  Seq (Class digit) (Seq (Class digit) (Class digit)).

Definition budget_pattern : regex :=
  Seq (Opt (Chr "$"))
      (Seq (Group one_to_four_digits)
           (Seq (Opt (Chr ",")) (Group three_digits))).

Record ExtractedPrefs : Type := {
  e_budget : option Range;               (* [{max: amount}] *)
  e_bedrooms : option Range;             (* [{min: n}] *)
  e_petPolicy : option string
}.

Definition extractPreferencesFromText (text : string) : ExtractedPrefs :=
  let lowerText := toLowerCase text in
  let budgetMatch := match_ budget_pattern lowerText in
  let bedroomMatch := match_ AiRoutes.bedroom_pattern lowerText in
  {| e_budget :=
       match budgetMatch with
       | Some m =>
           (* [m[2] || ''] is [m[2]] *)
           let amount := AiRoutes.parseInt (group1 m ++ group2 m) in
           if gt amount (Fin 500) && lt amount (Fin 10000)
           then Some {| min := None; max := Some amount |}
           else None
       | None => None
       end;
     e_bedrooms :=
       option_map
         (fun m => {| min := Some (AiRoutes.parseInt (group1 m));
                      max := None |})
         bedroomMatch;
     e_petPolicy :=
       if includes_text "pet" lowerText
          || includes_text "dog" lowerText
          || includes_text "cat" lowerText
       then Some "allowed" else None |}.

(** *** The database query of the natural-language search *)

Record MongoQuery : Type := {
  q_status : string;                     (* [status] *)
  q_rent_lte : option num;               (* [pricing.rent: {$lte}] *)
  q_bedrooms : option num;               (* [specifications.bedrooms] *)
  q_city : option string                 (* [new RegExp(city, 'i')] *)
}.

Definition buildMongoQuery (filters : AiRoutes.Filters) : MongoQuery :=
  {| q_status := "active";
     q_rent_lte :=
       if present filters.(AiRoutes.maxRent)
       then filters.(AiRoutes.maxRent) else None;
     q_bedrooms :=
       if present filters.(AiRoutes.f_bedrooms)
       then filters.(AiRoutes.f_bedrooms) else None;
     q_city :=
       match filters.(AiRoutes.city) with
       | Some c => if String.eqb c "" then None else Some c
       | None => None
       end |}.

(** *** The cost analysis *)

(** [commutePrefs.workAddress], when the user has commute preferences. *)
Definition calculateCommuteCost (commutePrefs : option (option string))
  : num :=
  match commutePrefs with
  | Some (Some workAddress) =>
      if String.eqb workAddress "" then Fin 0 else Fin 150
  | _ => Fin 0
  end.

(** What [generateCostAnalysis] reads. *)
Record CostData : Type := {
  d_rent : num;
  d_utilities : num;
  d_commuteCost : num;
  d_amenities : list string;
  d_averageRent : num                    (* [marketData.averageRent] *)
}.

(** The ratings, the value sentence and the highlights of the analysis.
    The summary and the affordability sentence, which format numbers with
    [toLocaleString] and [toFixed], are not part of the record. *)
Record CostAnalysis : Type := {
  estimatedIncomeNeeded : num;
  affordability_rating : num;
  valueScore : num;
  value_rating : num;
  value_description : string;
  highlights : list string
}.

Definition generateCostAnalysis (data : CostData) : CostAnalysis :=
  let totalMonthly :=
    add (add data.(d_rent) data.(d_utilities)) data.(d_commuteCost) in
  let estimatedIncomeNeeded :=
    Math.ceil (div (mul totalMonthly (Fin 12)) (Fin 0.3)) in
  let valueScore :=
    mul (div data.(d_rent) (or_else data.(d_averageRent) data.(d_rent)))
        (Fin 5) in
  {| estimatedIncomeNeeded := estimatedIncomeNeeded;
     affordability_rating :=
       Math.min2 (Fin 5)
         (Math.max2 (Fin 1)
            (sub (Fin 5)
                 (Math.floor (div (sub totalMonthly (Fin 1000)) (Fin 500)))));
     valueScore := valueScore;
     value_rating := Math.min2 (Fin 5) (Math.max2 (Fin 1) valueScore);
     value_description :=
       if gt valueScore (Fin 4.5)
       then "Excellent value compared to similar properties in the area."
       else if gt valueScore (Fin 3.5)
       then "Good value for the price and location."
       else if gt valueScore (Fin 2.5)
       then "Average pricing for the area and features."
       else "Higher than average pricing for this market segment.";
     highlights :=
       ((if lt data.(d_utilities) (Fin 100)
         then ["Low utility costs"] else [])
        ++ (if lt data.(d_commuteCost) (Fin 50)
            then ["Minimal commute expenses"] else [])
        ++ (if includes data.(d_amenities) "laundry"
            then ["In-unit laundry can save on external costs"] else [])
        ++ (if includes data.(d_amenities) "parking"
            then ["Parking included (potential savings)"] else []))%list |}.

(** What the cost analysis route reads of the listing beside the fields of
    [Listing], and of the user. *)
Record CostRequest : Type := {
  r_property : Listing;
  r_city : option string;                (* [address?.city] *)
  r_deposit : option num;                (* [pricing.deposit] *)
  r_utilities : option num;              (* [pricing.utilities.estimated] *)
  r_commute : option (option string)     (* [user.preferences.commute] *)
}.

Record BasicCosts : Type := {
  b_rent : num;
  b_deposit : num;
  b_utilities : num;
  b_commuteCost : num;
  b_totalMonthlyCost : num;
  b_yearlyProjection : num
}.

(** [x || y] for an optional number [x]. *)
Definition or_num (x : option num) (y : num) : num :=
  if present x then number x else y.

Definition basicCosts (r : CostRequest) : BasicCosts :=
  let rent := or_num r.(r_property).(rent) (Fin 0) in
  let deposit := or_num r.(r_deposit) (Math.ceil (mul rent (Fin 1.5))) in
  let utilities :=
    or_num r.(r_utilities)
      (if present r.(r_property).(squareFootage)
       then Math.ceil (mul (number r.(r_property).(squareFootage)) (Fin 0.15))
       else Fin 150) in
  let commuteCost :=
    match r.(r_commute) with
    | Some c => calculateCommuteCost (Some c)
    | None => Fin 0
    end in
  let totalMonthlyCost := add (add rent utilities) commuteCost in
  {| b_rent := rent;
     b_deposit := deposit;
     b_utilities := utilities;
     b_commuteCost := commuteCost;
     b_totalMonthlyCost := totalMonthlyCost;
     b_yearlyProjection := mul totalMonthlyCost (Fin 12) |}.

(** [marketComparison.averageRent]: the figure of the route's
    [getMarketData], or one drawn with the next call of [Math.random()]. *)
Definition comparison_averageRent (random : nat -> Q) (isoNow : string)
           (r : CostRequest) : num :=
  let rent := or_num r.(r_property).(rent) (Fin 0) in
  let next := S (AiRoutes.figure_draws r.(r_property)) in
  let drawn :=
    Math.round (add (mul rent (Fin 0.9))
                    (mul (mul (Fin (random next)) rent) (Fin 0.2))) in
  match field "averageRent"
              (AiRoutes.getMarketData random isoNow r.(r_property)) with
  | Some (DNum n) => or_else n drawn
  | _ => drawn
  end.

(** The analysis of the cost analysis route. *)
Definition costAnalysis (random : nat -> Q) (isoNow : string)
           (r : CostRequest) : CostAnalysis :=
  let costs := basicCosts r in
  generateCostAnalysis
    {| d_rent := costs.(b_rent);
       d_utilities := costs.(b_utilities);
       d_commuteCost := costs.(b_commuteCost);
       d_amenities := r.(r_property).(amenities);
       d_averageRent := comparison_averageRent random isoNow r |}.

(** The recommendations of the cost analysis.  The suggestion of the
    first one is a sentence around the amount [saving]; the other
    suggestions are fixed sentences and are left out of the record. *)
Record Recommendation : Type := {
  rec_type : string;
  rec_priority : string;
  rec_message : string;
  rec_saving : option num
}.

(** What [generateRecommendations] reads. *)
Record RecommendationData : Type := {
  g_rent : num;
  g_marketAverage : num;
  g_amenities : list string;
  g_city : option string                 (* [property.address?.city] *)
}.

Definition generateRecommendations (data : RecommendationData)
  : list Recommendation :=
  ((if gt data.(g_rent) (mul data.(g_marketAverage) (Fin 1.1))
    then [ {| rec_type := "price"; rec_priority := "high";
              rec_message := "This property is priced above the market average. Consider negotiating the rent or looking for similar properties in the area.";
              rec_saving :=
                Some (Math.round (sub data.(g_rent) data.(g_marketAverage)))
           |} ]
    else if lt data.(g_rent) (mul data.(g_marketAverage) (Fin 0.9))
    then [ {| rec_type := "price"; rec_priority := "low";
              rec_message := "This property is priced below the market average, which could indicate good value.";
              rec_saving := None |} ]
    else [])
   ++ (if negb (includes data.(g_amenities) "laundry")
          && negb (includes data.(g_amenities) "in-unit laundry")
       then [ {| rec_type := "amenity"; rec_priority := "medium";
                 rec_message := "No in-unit laundry available.";
                 rec_saving := None |} ]
       else [])
   ++ (match data.(g_city) with
       | Some city =>
           if includes_text "downtown" (toLowerCase city)
           then [ {| rec_type := "location"; rec_priority := "low";
                     rec_message := "Downtown location detected.";
                     rec_saving := None |} ]
           else []
       | None => []
       end))%list.

(** The recommendations of the cost analysis route. *)
Definition costRecommendations (random : nat -> Q) (isoNow : string)
           (r : CostRequest) : list Recommendation :=
  generateRecommendations
    {| g_rent := (basicCosts r).(b_rent);
       g_marketAverage := comparison_averageRent random isoNow r;
       g_amenities := r.(r_property).(amenities);
       g_city := r.(r_city) |}.

(** *** The pricing analysis *)

(** Get market position relative to average. *)
Definition getMarketPosition (rent average : num) : string :=
  let ratio := div rent average in
  if gt ratio (Fin 1.15) then "premium"
  else if gt ratio (Fin 1.05) then "above-average"
  else if lt ratio (Fin 0.85) then "budget"
  else if lt ratio (Fin 0.95) then "below-average"
  else "market-rate".

(** [getMarketTrends(city, state).averageRent]. *)
Definition trends_averageRent : table :=
  [ ("apartment", 35000); ("house", 45000); ("villa", 80000);
    ("studio", 25000) ].

(** The property key a value converts to; [None] for an object, whose
    rendering is not modelled. *)
Definition property_key (v : value) : option string :=
  match v with
  | Undefined => Some "undefined"
  | Null => Some "null"
  | Bool true => Some "true"
  | Bool false => Some "false"
  | Num n => numeral n
  | Str s => Some s
  | Obj => None
  end.

(** [marketTrends.averageRent[propertyData.propertyType] || d]. *)
Definition trend_average_or (propertyType : value) (d : num) : cell :=
  match property_key propertyType with
  | Some k =>
      match own trends_averageRent k with
      | Some q => Number (or_else (Fin q) d)
      | None => if inherited k then Opaque else Number d
      end
  | None => Number d
  end.

(** The object handed to [calculateRentPrice]: every field of the request
    with its [||] default.  A falsy [amenities] that is not [undefined]
    would become [[]], which is priced like the [NotAnArray] it is kept
    as. *)
Definition request_property (propertyData : P.Property) : P.Property :=
  {| P.propertyType :=
       P.value_or propertyData.(P.propertyType) (Str "apartment");
     P.bedrooms := Some (or_num propertyData.(P.bedrooms) (Fin 1));
     P.bathrooms := Some (or_num propertyData.(P.bathrooms) (Fin 1));
     P.squareFootage :=
       Some (or_num propertyData.(P.squareFootage) (Fin 1000));
     P.city := P.value_or propertyData.(P.city) (Str "");
     P.state := P.value_or propertyData.(P.state) (Str "");
     P.amenities :=
       match propertyData.(P.amenities) with
       | P.NoAmenities => P.AmenityArray []
       | a => a
       end |}.

Record PricingResponse : Type := {
  success : bool;
  recommendedPrice : num;
  range_min : num;
  range_max : num;
  insight_averageRent : cell;
  insight_averagePricePerSqFt : num;
  marketPosition : string
}.

(** The answer of the pricing analysis route: the analysis, or the
    fallback figures when the calculation throws. *)
Definition pricingAnalysis (propertyData : P.Property) : PricingResponse :=
  match P.calculateRentPrice (request_property propertyData) with
  | Normal priceAnalysis =>
      let total := priceAnalysis.(P.totalPrice) in
      let average :=
        trend_average_or propertyData.(P.propertyType)
                         (mul total (Fin 1.1)) in
      {| success := true;
         recommendedPrice := total;
         range_min := priceAnalysis.(P.priceRange).(P.min);
         range_max := priceAnalysis.(P.priceRange).(P.max);
         insight_averageRent := average;
         insight_averagePricePerSqFt :=
           div total (or_num propertyData.(P.squareFootage) (Fin 1000));
         marketPosition := getMarketPosition total (toNumber average) |}
  | Throw _ =>
      let fallbackPrice := Fin 15000 in
      {| success := false;
         recommendedPrice := fallbackPrice;
         range_min := mul fallbackPrice (Fin 0.9);
         range_max := mul fallbackPrice (Fin 1.1);
         insight_averageRent := Number (mul fallbackPrice (Fin 1.1));
         insight_averagePricePerSqFt := div fallbackPrice (Fin 1000);
         marketPosition := "average" |}
  end.

(** *** Confidence and strategy of the pricing report *)

(** What the two functions read of [pricingData] and [marketInsights]. *)
Record PricingSignals : Type := {
  demandScore : option num;              (* [marketData.demandScore] *)
  marketHealth : option num;
  sizeAdjustment : option num;           (* [priceBreakdown] *)
  amenityBonus : option num;
  demandLevel : option string;           (* [trends] *)
  inventory : option string;
  priceDirection : option string
}.

Definition calculateConfidence (s : PricingSignals) : num :=
  let confidence := Fin 70 in
  let confidence :=
    if gt (number s.(demandScore)) (Fin 7)
    then add confidence (Fin 10) else confidence in
  let confidence :=
    if gt (number s.(marketHealth)) (Fin 60)
    then add confidence (Fin 10) else confidence in
  let confidence :=
    if present s.(sizeAdjustment)
    then add confidence (Fin 5) else confidence in
  let confidence :=
    if present s.(amenityBonus)
    then add confidence (Fin 5) else confidence in
  Math.min2 (Fin 95) confidence.

(** [x === 'text'] for an optional string. *)
Definition is_text (x : option string) (text : string) : bool :=
  match x with Some s => String.eqb s text | None => false end.

Definition generatePricingStrategy (s : PricingSignals) : list string :=
  let strategies :=
    ((if is_text s.(demandLevel) "high"
      then ["Consider aggressive pricing due to high demand"] else [])
     ++ (if is_text s.(inventory) "low"
         then ["Limited inventory supports premium pricing"] else [])
     ++ (if is_text s.(priceDirection) "rising"
         then ["Market trending upward - price at upper range"]
         else if is_text s.(priceDirection) "falling"
         then ["Market softening - consider competitive pricing"] else [])
     ++ (if gt (number s.(demandScore)) (Fin 8.5)
         then ["High demand score supports premium positioning"]
         else []))%list in
  if (0 <? length strategies)%nat then strategies
  else ["Price competitively based on market conditions"].

End AiHelpers.


(* ================================================================== *)
(** ** The search routes: statistics, advice and the advanced search *)
(* ================================================================== *)

Module SearchStats.
Import JS Models.
Local Open Scope string_scope.
Local Open Scope Q_scope.

(** [xs[i]] for an array of numbers: [undefined] unless [i] is the index
    of an element. *)
Definition at_index (xs : list num) (i : num) : option num :=
  match i with
  | Fin q =>
      if Qle_bool 0 q && Qeq_bool q (inject_Z (Qfloor q))
      then nth_error xs (Z.to_nat (Qfloor q))
      else None
  | _ => None
  end.

(** [xs.reduce((sum, x) => sum + x, 0)]. *)
Definition sum (xs : list num) : num := fold_left add xs (Fin 0).

(** [xs.sort((a, b) => a - b)]. *)
Definition ascending (xs : list num) : list num :=
  SearchRoutes.sort (fun a b => sub a b) xs.

Record Quartiles : Type := {
  q1 : option num;
  q3 : option num
}.

Record MarketStats : Type := {
  averageRent : num;
  medianRent : option num;
  minRent : option num;
  maxRent : option num;
  totalProperties : num;
  priceRange : option Quartiles          (* absent when nothing was found *)
}.

(** [calculateMarketStats], from the listings the query found.  A rent
    is read as a number; the language would sort an absent rent last
    without consulting the comparison function, a case that the schema
    rules out ([pricing.rent] is required) and that [NaN] stands for
    here. *)
Definition calculateMarketStats (properties : list Listing) : MarketStats :=
  match properties with
  | [] =>
      {| averageRent := Fin 0; medianRent := Some (Fin 0);
         minRent := Some (Fin 0); maxRent := Some (Fin 0);
         totalProperties := Fin 0; priceRange := None |}
  | _ =>
      let rents := ascending (map (fun p => number p.(rent)) properties) in
      {| averageRent := Math.round (div (sum rents) (length_num rents));
         medianRent :=
           at_index rents (Math.floor (div (length_num rents) (Fin 2)));
         minRent := at_index rents (Fin 0);
         maxRent := at_index rents (sub (length_num rents) (Fin 1));
         totalProperties := length_num properties;
         priceRange :=
           Some {| q1 := at_index rents
                           (Math.floor (mul (length_num rents) (Fin 0.25)));
                   q3 := at_index rents
                           (Math.floor (mul (length_num rents) (Fin 0.75)))
                |} |}
  end.

Record ComparableStats : Type := {
  c_averageRent : num;
  c_medianRent : option num;
  c_min : option num;
  c_max : option num;
  c_averageSize : num;
  c_pricePerSqFt : option num            (* absent when nothing was found *)
}.

(** The sizes that count: [.filter(s => s > 0)]. *)
Definition positive_sizes (comparables : list Listing) : list num :=
  filter (fun s => gt s (Fin 0))
         (map (fun p => number p.(squareFootage)) comparables).

Definition calculateComparableStats (comparables : list Listing)
  : ComparableStats :=
  match comparables with
  | [] =>
      {| c_averageRent := Fin 0; c_medianRent := Some (Fin 0);
         c_min := Some (Fin 0); c_max := Some (Fin 0);
         c_averageSize := Fin 0; c_pricePerSqFt := None |}
  | _ =>
      let rents := ascending (map (fun p => number p.(rent)) comparables) in
      let sizes := positive_sizes comparables in
      {| c_averageRent := Math.round (div (sum rents) (length_num rents));
         c_medianRent :=
           at_index rents (Math.floor (div (length_num rents) (Fin 2)));
         c_min := at_index rents (Fin 0);
         c_max := at_index rents (sub (length_num rents) (Fin 1));
         c_averageSize :=
           if (0 <? length sizes)%nat
           then Math.round (div (sum sizes) (length_num sizes))
           else Fin 0;
         c_pricePerSqFt :=
           Some (if (0 <? length sizes)%nat
                 then div (div (sum rents) (length_num rents))
                          (div (sum sizes) (length_num sizes))
                 else Fin 0) |}
  end.

(** [marketInsights.trends], as far as the advice reads it. *)
Record Trends : Type := {
  priceDirection : option string;
  inventory : option string;
  demandLevel : option string
}.

Definition is_text (x : option string) (text : string) : bool :=
  match x with Some s => String.eqb s text | None => false end.

Definition limited_data : string :=
  "Limited data available - consider expanding location search".

Definition generateMarketRecommendations (trends : Trends)
           (marketStats : MarketStats) : list string :=
  ((if is_text trends.(priceDirection) "rising"
    then ["Market prices are trending upward - consider acting quickly on good deals"]
    else [])
   ++ (if is_text trends.(inventory) "low"
       then ["Limited inventory - be prepared to make quick decisions"]
       else [])
   ++ (if is_text trends.(demandLevel) "high"
       then ["High demand market - consider expanding search criteria"]
       else [])
   ++ (if lt marketStats.(totalProperties) (Fin 10)
       then [limited_data] else []))%list.

(** *** The search history of the advanced search *)

(** [xs.slice(-n)]: the last [n] elements. *)
Definition slice_last {A} (n : nat) (xs : list A) : list A :=
  skipn (length xs - n) xs.

(** [user.searchHistory.push(entry)], then keep only the last 50. *)
Definition recordSearch {A} (searchHistory : list A) (entry : A) : list A :=
  let searchHistory := (searchHistory ++ [entry])%list in
  if (50 <? length searchHistory)%nat
  then slice_last 50 searchHistory
  else searchHistory.

(** *** The aggregation pipeline of the advanced search *)

Section Pipeline.
Variable Doc : Type.

(** The stages the route builds.  [$match] keeps the documents that
    satisfy its conditions, [$addFields] and [$lookup] rewrite each
    document, [$sort] orders them, [$skip] and [$limit] drop a prefix and
    cut to a prefix, [$unwind] replaces each document by one per element
    of its array. *)
Inductive stage : Type :=
| Match (keep : Doc -> bool)
| AddFields (rewrite : Doc -> Doc)
| Sort (comparefn : Doc -> Doc -> num)
| Skip (n : Z)
| Limit (n : Z)
| Lookup (rewrite : Doc -> Doc)
| Unwind (unwound : Doc -> list Doc).

(** The database rejects a negative [$skip] and a [$limit] that is not
    positive. *)
Definition run_stage (st : stage) (docs : list Doc)
  : completion (list Doc) :=
  match st with
  | Match keep => Normal (filter keep docs)
  | AddFields rewrite => Normal (map rewrite docs)
  | Sort comparefn => Normal (SearchRoutes.sort comparefn docs)
  | Skip n =>
      if (n <? 0)%Z then Throw (Error "$skip")
      else Normal (skipn (Z.to_nat n) docs)
  | Limit n =>
      if (n <=? 0)%Z then Throw (Error "$limit")
      else Normal (firstn (Z.to_nat n) docs)
  | Lookup rewrite => Normal (map rewrite docs)
  | Unwind unwound => Normal (flat_map unwound docs)
  end.

Definition aggregate (pipeline : list stage) (docs : list Doc)
  : completion (list Doc) :=
  fold_left (fun acc st => bind acc (run_stage st)) pipeline (Normal docs).

(** [pipeline.slice(0, -n)]. *)
Definition slice_but_last {A} (n : nat) (xs : list A) : list A :=
  firstn (length xs - n) xs.

(** The parts of the request that shape the pipeline: the conditions of
    the [$match] stage, the score added, the order, the joins, and the
    parsed [page] and [limit]. *)
Record Search : Type := {
  s_matches : Doc -> bool;
  s_scored : Doc -> Doc;
  s_order : Doc -> Doc -> num;
  s_landlord : Doc -> Doc;
  s_unwound : Doc -> list Doc;
  s_page : Z;
  s_limit : Z
}.

Definition pipeline_of (q : Search) : list stage :=
  let skip := ((q.(s_page) - 1) * q.(s_limit))%Z in
  [ Match q.(s_matches); AddFields q.(s_scored); Sort q.(s_order);
    Skip skip; Limit q.(s_limit);
    Lookup q.(s_landlord); Unwind q.(s_unwound) ].

(** [pipeline.slice(0, -3)], to which the route appends [$count]. *)
Definition countPipeline_of (q : Search) : list stage :=
  slice_but_last 3 (pipeline_of q).

(** [totalResult[0]?.total || 0]: the number of documents that reach the
    [$count] stage. *)
Definition total_of (q : Search) (docs : list Doc) : completion Z :=
  bind (aggregate (countPipeline_of q) docs)
       (fun counted => Normal (Z.of_nat (length counted))).

End Pipeline.

End SearchStats.


(* ================================================================== *)
(** ** Conditions and measures used by the further properties *)
(* ================================================================== *)

Module Coverage.
Import JS Models.
Local Open Scope string_scope.
Local Open Scope Q_scope.

(** A lower-case letter or white space. *)
Definition lower_or_space (c : ascii) : bool :=
  RegExp.between 97 122 c || RegExp.space c.

(** What [parseInt] makes of a run of digits: an integer of at least
    [lower], or [Infinity] when the run is too long for a Number. *)
Definition count_from (lower : Z) (n : num) : Prop :=
  n = PInf \/ exists z, n = of_Z z /\ (lower <= z)%Z.

(** [c.repeat(n)]. *)
Fixpoint repeat_char (c : ascii) (n : nat) : string :=
  match n with
  | O => EmptyString
  | S n' => String c (repeat_char c n')
  end.

(** A number that is neither [NaN] nor infinite. *)
Definition finite (n : num) : Prop :=
  match n with Fin _ => True | _ => False end.

(** *** Amounts of ordinary size

    The model computes with exact rationals where the code computes in
    binary64.  The two agree on whether a result is a number as long as no
    operation of the code overflows to an infinity or underflows to zero.
    The properties that depend on it are therefore stated for amounts of
    ordinary size only: at most 10^15 in absolute value, and at least
    10^-15 where the amount is divided by. *)
Definition large : Q := 1000000000000000.
Definition small : Q := 1 # 1000000000000000.

Definition ordinary (n : num) : Prop :=
  match n with Fin q => Qabs q <= large | _ => False end.

(** A size that is absent, or at most [large] and, when it is positive,
    at least [small]. *)
Definition ordinary_size (o : option num) : Prop :=
  match o with
  | None => True
  | Some (Fin s) => s <= large /\ (0 < s -> small <= s)
  | Some _ => False
  end.

(** The budget of the preferences, when there is one, has a floor and a
    ceiling of ordinary size whose sum is at least [small] in absolute
    value, and the listing has a rent of ordinary size. *)
Definition budget_usable (property : Listing)
           (preferences : SearchRoutes.Preferences) : Prop :=
  match preferences.(SearchRoutes.budget) with
  | None => True
  | Some b =>
      exists r lo hi,
        property.(rent) = Some (Fin r)
        /\ b.(min) = Some (Fin lo) /\ b.(max) = Some (Fin hi)
        /\ Qabs r <= large /\ Qabs lo <= large /\ Qabs hi <= large
        /\ small <= Qabs (lo + hi)
  end.

(** The area of the listing, when it has one, is at most [large]. *)
Definition ordinary_area (p : MarketDataService.Property) : Prop :=
  match p.(MarketDataService.squareFootage) with
  | Some (Fin a) => a <= large
  | _ => True
  end.

(** The market average [getRelativePricing] divides by: that of the
    bedroom count, or else that of one bedroom. *)
Definition market_average (marketData : SearchRoutes.MarketData)
           (bedrooms : option num) : option num :=
  if present (SearchRoutes.avgRent_get marketData
                (SearchRoutes.bedroomKey bedrooms))
  then SearchRoutes.avgRent_get marketData (SearchRoutes.bedroomKey bedrooms)
  else SearchRoutes.avgRent_get marketData (Some "1bed").

(** The sum of the counts of a [propertyTypeDistribution] object; [None]
    when an entry is not a finite number. *)
Definition counts_sum (distribution : data) : option Q :=
  match distribution with
  | DObj fs =>
      fold_right
        (fun kv acc =>
           match snd kv, acc with
           | DNum (Fin q), Some a => Some (q + a)
           | _, _ => None
           end)
        (Some 0) fs
  | _ => None
  end.

(** No stored listing has a property type that names a member inherited
    from [Object.prototype]. *)
Definition plain_types (st : MarketData.Store) : Prop :=
  forall l properties,
    st.(MarketData.find) l = Normal properties ->
    Forall (fun d => inherited (MarketData.type_of d) = false) properties.

(** A store with three listings, whatever the location. *)
Definition three_listings : MarketData.Store :=
  {| MarketData.find := fun _ =>
       Normal [ {| MarketData.pricing_rent := Some (Fin 1000);
                   MarketData.doc_propertyType := Some "apartment" |};
                {| MarketData.pricing_rent := Some (Fin 2000);
                   MarketData.doc_propertyType := Some "house" |};
                {| MarketData.pricing_rent := None;
                   MarketData.doc_propertyType := Some "apartment" |} ] |}.

Definition austin : MarketData.Location :=
  {| MarketData.loc_city := Some "Austin";
     MarketData.loc_state := Some "TX" |}.

(** The rents of the listings, as the statistics read them. *)
Definition rents_of (properties : list Listing) : list num :=
  map (fun p => number p.(rent)) properties.

(** The documents of [docs] that satisfy the conditions of a search. *)
Definition matching {Doc} (q : SearchStats.Search Doc) (docs : list Doc)
  : Z :=
  Z.of_nat (length (filter q.(SearchStats.s_matches Doc) docs)).

(** Inputs used in the examples: a cost-analysis request for a listing
    at 1800 a month that states nothing else, a source of random numbers
    that always draws one half, and the costs of that request. *)
Definition cost_request : AiHelpers.CostRequest :=
  {| AiHelpers.r_property := Samples.listing 1 1800 None;
     AiHelpers.r_city := Some "Austin";
     AiHelpers.r_deposit := None;
     AiHelpers.r_utilities := None;
     AiHelpers.r_commute := None |}.

Definition one_half (k : nat) : Q := 1 # 2.

(** A source of random numbers that always draws zero. *)
Definition always_zero (k : nat) : Q := 0.

Definition cost_data : AiHelpers.CostData :=
  {| AiHelpers.d_rent := Fin 1800;
     AiHelpers.d_utilities := Fin 150;
     AiHelpers.d_commuteCost := Fin 0;
     AiHelpers.d_amenities := [];
     AiHelpers.d_averageRent := Fin 1800 |}.

(** The second page, twelve per page, of a search that every document
    satisfies, over documents that are plain numbers. *)
Definition second_page : SearchStats.Search Z :=
  {| SearchStats.s_matches := fun _ => true;
     SearchStats.s_scored := fun d => d;
     SearchStats.s_order := fun a b => sub (of_Z b) (of_Z a);
     SearchStats.s_landlord := fun d => d;
     SearchStats.s_unwound := fun d => [d];
     SearchStats.s_page := 2;
     SearchStats.s_limit := 12 |}.

End Coverage.


(* ================================================================== *)
(** ** Properties *)
(* ================================================================== *)

Import JS.
Module P := MarketDataService.

Local Open Scope string_scope.

(** *** Numbers *)

Lemma add_NaN_r (a : num) : add a NaN = NaN.
Proof. destruct a; reflexivity. Qed.

Lemma max2_NaN_r (a : num) : Math.max2 a NaN = NaN.
Proof. destruct a; reflexivity. Qed.

Lemma min2_NaN_r (a : num) : Math.min2 a NaN = NaN.
Proof. destruct a; reflexivity. Qed.

(** *** The rent price calculator on the documented example *)

(** C6.  For the two-bedroom, one-bathroom apartment of 900 sq ft in
    Mumbai with parking and a gym, the base price is the apartment rate
    (4000 INR per sq ft) times 900, times the Mumbai multiplier 1.8, times
    the two-bedroom multiplier 1.3, times the one-bathroom multiplier 1.0;
    the amenities are worth 1000 + 1500 = 2500; the total is their sum, and
    the range is the total minus and plus 15 percent. *)
Theorem pricing_example_mumbai :
  let base := (4000 * 900 * 1.8 * 1.3 * 1.0)%Q in
  let total := (base + (1000 + 1500))%Q in
  own P.BASE_PRICES "apartment" = Some 4000%Q /\
  own P.LOCATION_MULTIPLIERS "mumbai" = Some 1.8%Q /\
  own P.BEDROOM_MULTIPLIERS "2" = Some 1.3%Q /\
  own P.BATHROOM_MULTIPLIERS "1" = Some 1.0%Q /\
  own P.AMENITY_VALUES "parking" = Some 1000%Q /\
  own P.AMENITY_VALUES "gym" = Some 1500%Q /\
  exists w est,
    P.workings Samples.mumbai_flat = Normal w /\
    num_eq w.(P.w_basePrice) (Fin base) /\
    num_eq (toNumber w.(P.w_amenitiesValue)) (Fin 2500) /\
    num_eq (toNumber w.(P.w_totalPrice)) (Fin total) /\
    P.calculateRentPrice Samples.mumbai_flat = Normal est /\
    est.(P.basePrice) = Fin 8424000 /\
    est.(P.amenitiesValue) = Fin 2500 /\
    est.(P.totalPrice) = Fin 8426500 /\
    est.(P.priceRange).(P.min)
      = Math.round (Fin (total - total * 0.15)%Q) /\
    est.(P.priceRange).(P.max)
      = Math.round (Fin (total + total * 0.15)%Q) /\
    est.(P.priceRange).(P.min) = Fin 7162525 /\
    est.(P.priceRange).(P.max) = Fin 9690475 /\
    num_eq est.(P.locationMultiplier) (Fin 1.8) /\
    num_eq est.(P.bedroomMultiplier) (Fin 1.3) /\
    num_eq est.(P.bathroomMultiplier) (Fin 1.0).
Proof.
  cbv zeta.
  repeat (split; [reflexivity|]).
  eexists; eexists.
  split; [vm_compute; reflexivity|].
  repeat (split; [vm_compute; reflexivity|]).
  vm_compute; reflexivity.
Qed.

(** *** The natural-language query parser *)

(** The claim of C2 as written fails: the city is not ["Austin"]. *)
Lemma parse_austin_city_is_not_Austin :
  AiRoutes.parseNaturalLanguageQuery
    "2 bedroom apartment in Austin under $2000"
  <> {| AiRoutes.maxRent := Some (Fin 2000);
        AiRoutes.f_bedrooms := Some (Fin 2);
        AiRoutes.city := Some "Austin" |}.
Proof. vm_compute. intro H. discriminate H. Qed.

(** C2, amended.  The query "2 bedroom apartment in Austin under $2000"
    parses to two bedrooms, a rent ceiling of 2000 and the city
    ["austin under"]: the city is read from the lower-cased query as the
    longest run of letters and white space after the first ["in "],
    trimmed, and does not stop at a filter keyword.  The query
    "apartment with a pool" parses to the empty filter object. *)
Theorem parse_examples :
  AiRoutes.parseNaturalLanguageQuery
    "2 bedroom apartment in Austin under $2000"
  = {| AiRoutes.maxRent := Some (Fin 2000);
       AiRoutes.f_bedrooms := Some (Fin 2);
       AiRoutes.city := Some "austin under" |}
  /\ RegExp.match_ AiRoutes.location_pattern
       (toLowerCase "2 bedroom apartment in Austin under $2000")
     = Some ["austin under "]
  /\ AiRoutes.parseNaturalLanguageQuery "apartment with a pool"
     = {| AiRoutes.maxRent := None;
          AiRoutes.f_bedrooms := None;
          AiRoutes.city := None |}.
Proof. repeat split; vm_compute; reflexivity. Qed.

(** *** The smart score *)

(** A listing without a view count scores [NaN], whatever the rest. *)
Lemma smart_score_without_views property preferences marketData :
  property.(Models.views) = None ->
  SearchRoutes.calculateSmartScore property preferences marketData = NaN.
Proof.
  intros Hv. unfold SearchRoutes.calculateSmartScore.
  assert (Hp : SearchRoutes.popularity_term property = NaN).
  { unfold SearchRoutes.popularity_term. rewrite Hv. reflexivity. }
  rewrite Hp, add_NaN_r, max2_NaN_r, min2_NaN_r. reflexivity.
Qed.

(** The final clamp confines every score that is a number to [0, 100]. *)
Lemma clamp_range (score : num) :
  Math.min2 (Fin 100) (Math.max2 (Fin 0) score) = NaN
  \/ Contracts.in_0_100 (Math.min2 (Fin 100) (Math.max2 (Fin 0) score)).
Proof.
  destruct score as [q| | |]; simpl.
  - right. unfold Math.max2, Math.min2, cmp.
    destruct (0 ?= q)%Q eqn:E0; cbn [cmp].
    + change (100 ?= 0)%Q with Gt. exists 0%Q. split; [reflexivity|lra].
    + destruct (100 ?= q)%Q eqn:E1.
      * apply Qeq_alt in E1. exists 100%Q. split; [reflexivity|lra].
      * apply Qlt_alt in E1. exists 100%Q. split; [reflexivity|lra].
      * apply Qgt_alt in E1. apply Qlt_alt in E0.
        exists q. split; [reflexivity|lra].
    + change (100 ?= 0)%Q with Gt. exists 0%Q. split; [reflexivity|lra].
  - right. exists 100%Q. split; [reflexivity|lra].
  - right. exists 0%Q. split; [reflexivity|lra].
  - left. reflexivity.
Qed.

(** X21.  Whatever the listing, the preferences and the market data,
    the smart score is either [NaN] or a number between 0 and 100: the
    final clamp lets nothing else through. *)
Lemma smart_score_number_in_range property preferences marketData :
  SearchRoutes.calculateSmartScore property preferences marketData = NaN
  \/ Contracts.in_0_100
       (SearchRoutes.calculateSmartScore property preferences marketData).
Proof. unfold SearchRoutes.calculateSmartScore. apply clamp_range. Qed.

(** C1.  The score leaves [0, 100] on inputs the route can receive: with
    a budget that has a ceiling and no floor the score of a listing is
    [NaN], and so is the score of a listing without a view count. *)
Theorem smart_score_not_a_number :
  SearchRoutes.calculateSmartScore
    (Samples.listing 1 1800 (Some (Fin 0)))
    Samples.ceiling_only
    Samples.market = NaN
  /\ SearchRoutes.calculateSmartScore
       (Samples.listing 1 1800 None)
       Samples.no_preferences
       Samples.market = NaN
  /\ ~ Contracts.in_0_100 NaN.
Proof.
  repeat split; try (vm_compute; reflexivity).
  intros [q [H _]]. discriminate H.
Qed.

(** *** The rent price calculator never validates its numbers *)

Lemma own_In (t : table) (k : string) (q : Q) :
  own t k = Some q -> In (k, q) t.
Proof.
  unfold own.
  enough (G : forall acc,
             fold_left
               (fun acc kv =>
                  if String.eqb (fst kv) k then Some (snd kv) else acc)
               t acc = Some q ->
             acc = Some q \/ In (k, q) t).
  { intros H. destruct (G None H) as [H0|H0]; [discriminate|exact H0]. }
  induction t as [|[k' v] t IH]; intros acc H; simpl in *.
  - left; exact H.
  - apply IH in H. destruct H as [H|H]; [|right; right; exact H].
    destruct (String.eqb_spec k' k) as [->|_].
    + injection H as ->. right; left; reflexivity.
    + left; exact H.
Qed.

Lemma numeral_plain (n : num) (k : string) :
  numeral n = Some k -> inherited k = false.
Proof.
  destruct n as [q| | |]; simpl.
  - destruct (Qeq_bool q (inject_Z (Qfloor q))); [|discriminate].
    intros H; injection H as <-.
    destruct (Z.to_int (Qfloor q)) as [u|u]; destruct u; reflexivity.
  - intros H; injection H as <-; reflexivity.
  - intros H; injection H as <-; reflexivity.
  - intros H; injection H as <-; reflexivity.
Qed.

Lemma get_or_plain (t : table) (k : string) (d : Q) :
  inherited k = false ->
  get_or t k d
  = Number (match own t k with
            | Some q => or_else (Fin q) (Fin d)
            | None => Fin d
            end).
Proof.
  intros H. unfold get_or. destruct (own t k); [reflexivity|].
  rewrite H. reflexivity.
Qed.

Lemma get_num_or_Number (t : table) (n : num) (d : Q) :
  exists m, get_num_or t n d = Number m.
Proof.
  unfold get_num_or. destruct (numeral n) as [k|] eqn:E.
  - rewrite (get_or_plain t k d (numeral_plain n k E)). eexists; reflexivity.
  - eexists; reflexivity.
Qed.

Lemma amenities_fold_strings (l : list value) (start : cell) :
  forallb Contracts.is_Str l = true ->
  fold_left P.amenity_step l (Normal start)
  = Normal (Contracts.tags_value (map Contracts.key_of l) start).
Proof.
  revert start. induction l as [|v l IH]; intros start H; simpl in *.
  - reflexivity.
  - apply andb_prop in H. destruct H as [Hv Hl].
    destruct v; try discriminate Hv. simpl. apply IH. exact Hl.
Qed.

Lemma amenities_sum_strings (p : P.Property) :
  Contracts.tags_are_strings p.(P.amenities) = true ->
  P.amenities_sum p.(P.amenities)
  = Normal (Contracts.tags_value (Contracts.tag_keys p) (Number (Fin 0))).
Proof.
  unfold Contracts.tag_keys, Contracts.tags_are_strings, P.amenities_sum.
  destruct (P.amenities p); intros H; try reflexivity.
  apply amenities_fold_strings. exact H.
Qed.

Lemma lower_type_strings (v : value) :
  Contracts.string_or_absent v = true ->
  call_toLowerCase (P.value_or v (Str "apartment"))
  = Normal (Contracts.key_of (P.value_or v (Str "apartment"))).
Proof.
  destruct v; try discriminate; intros _; try reflexivity.
  unfold P.value_or. simpl. destruct (String.eqb s ""); reflexivity.
Qed.

Lemma lower_place_strings (v : value) :
  Contracts.string_or_absent v = true ->
  call_toLowerCase (P.value_default v (Str ""))
  = Normal (Contracts.key_of v).
Proof. destruct v; try discriminate; intros _; reflexivity. Qed.

Lemma workings_strings (p : P.Property) :
  Contracts.categorical_strings p = true ->
  P.workings p = Normal (Contracts.workings_of p).
Proof.
  unfold Contracts.categorical_strings. intros H.
  apply andb_prop in H. destruct H as [H Ha].
  apply andb_prop in H. destruct H as [H Hs].
  apply andb_prop in H. destruct H as [Ht Hc].
  unfold P.workings.
  rewrite (lower_type_strings _ Ht). cbn [bind].
  rewrite (lower_place_strings _ Hc). cbn [bind].
  rewrite (lower_place_strings _ Hs). cbn [bind].
  rewrite (amenities_sum_strings p Ha). cbn [bind].
  reflexivity.
Qed.

Lemma estimate_of_workings (p : P.Property) :
  exists est, P.estimate_of (Contracts.workings_of p) = Normal est
    /\ est.(P.totalPrice)
       = Math.round (toNumber (Contracts.workings_of p).(P.w_totalPrice))
    /\ est.(P.priceRange).(P.min)
       = Math.round
           (sub (toNumber (Contracts.workings_of p).(P.w_totalPrice))
                (mul (toNumber (Contracts.workings_of p).(P.w_totalPrice))
                     (Fin 0.15)))
    /\ est.(P.priceRange).(P.max)
       = Math.round
           (add (toNumber (Contracts.workings_of p).(P.w_totalPrice))
                (mul (toNumber (Contracts.workings_of p).(P.w_totalPrice))
                     (Fin 0.15)))
    /\ est.(P.locationMultiplier)
       = toFixed2 (Contracts.workings_of p).(P.w_location).
Proof.
  unfold P.estimate_of.
  destruct (get_num_or_Number P.BEDROOM_MULTIPLIERS
              (P.with_default p.(P.bedrooms) (Fin 1))
              (P.dot_default P.BEDROOM_MULTIPLIERS)) as [mb Hb].
  destruct (get_num_or_Number P.BATHROOM_MULTIPLIERS
              (P.with_default p.(P.bathrooms) (Fin 1))
              (P.dot_default P.BATHROOM_MULTIPLIERS)) as [mt Ht].
  cbn [Contracts.workings_of P.w_bedroom P.w_bathroom P.w_totalPrice
       P.w_location P.w_basePrice P.w_amenitiesValue].
  rewrite Hb, Ht. cbn [P.call_toFixed2 bind].
  eexists. split; [reflexivity|]. cbn. repeat split; reflexivity.
Qed.

(** The claim of C3 as written fails: with a [NaN] area, a [NaN] number of
    bathrooms and a negative number of bedrooms the calculator returns a
    price, computed for 1000 sq ft and multipliers of 1.0; with a negative
    area it returns a negative price. *)
Lemma malformed_numbers_are_priced :
  (exists est,
     P.calculateRentPrice Samples.malformed_flat = Normal est
     /\ est.(P.totalPrice) = Fin 7202500
     /\ est.(P.bedroomMultiplier) = Fin 1
     /\ est.(P.bathroomMultiplier) = Fin 1)
  /\ (exists est,
        P.calculateRentPrice Samples.negative_area_flat = Normal est
        /\ est.(P.totalPrice) = Fin (-8424000)).
Proof.
  split; eexists; (split; [vm_compute; reflexivity|]);
    repeat split; reflexivity.
Qed.

(** C3, amended.  The calculator validates no number: whenever the
    categorical fields are strings (or absent) and each of the area, the
    number of bedrooms and the number of bathrooms is a number or absent,
    it returns an estimate, whatever those numbers are ([NaN], negative,
    zero, fractional or infinite).  Whatever it raises, on any input, is
    the generic error "Failed to calculate rent price".  Malformed numbers
    are priced by default: an area that is [NaN], zero or absent is priced
    as 1000 sq ft, and [NaN] numbers of bedrooms and bathrooms are priced
    as one of each.  A numeric field that holds something other than a
    number is not covered. *)
Theorem rent_price_validates_no_number (p : P.Property)
  (Hcat : Contracts.categorical_strings p = true) :
  (exists est, P.calculateRentPrice p = Normal est)
  /\ (forall p' e, P.calculateRentPrice p' = Throw e ->
                   e = Error "Failed to calculate rent price")
  /\ P.calculateRentPrice (Contracts.with_area p (Some NaN))
     = P.calculateRentPrice (Contracts.with_area p (Some (Fin 1000)))
  /\ P.calculateRentPrice (Contracts.with_area p (Some (Fin 0)))
     = P.calculateRentPrice (Contracts.with_area p (Some (Fin 1000)))
  /\ P.calculateRentPrice (Contracts.with_area p None)
     = P.calculateRentPrice (Contracts.with_area p (Some (Fin 1000)))
  /\ P.calculateRentPrice (Contracts.with_rooms p (Some NaN) (Some NaN))
     = P.calculateRentPrice
         (Contracts.with_rooms p (Some (Fin 1)) (Some (Fin 1))).
Proof.
  split; [|split].
  - unfold P.calculateRentPrice. rewrite (workings_strings p Hcat).
    cbn [bind].
    destruct (estimate_of_workings p) as [est [He _]].
    rewrite He. exists est. reflexivity.
  - intros p' e. unfold P.calculateRentPrice, try_rethrow.
    destruct (bind _ _); intros H; [discriminate|].
    injection H as <-. reflexivity.
  - repeat split; reflexivity.
Qed.

Lemma rent_price_validates_no_number_witness :
  Contracts.categorical_strings Samples.malformed_flat = true
  /\ (exists est, P.calculateRentPrice Samples.malformed_flat = Normal est).
Proof.
  split; [reflexivity|].
  exact (proj1 (rent_price_validates_no_number Samples.malformed_flat
                  eq_refl)).
Defined.

(** *** The location multiplier *)

Local Open Scope Q_scope.

Lemma truthy_nonzero (q d : Q) : ~ q == 0 -> or_else (Fin q) (Fin d) = Fin q.
Proof.
  intros H. unfold or_else, truthy.
  destruct (Qeq_bool q 0) eqn:E; [|reflexivity].
  apply Qeq_bool_eq in E. contradiction.
Qed.

(** Every entry of the table of multipliers lies between 0.9 and 1.8, and
    the only one below 1.0 is that of "andhra pradesh". *)
Lemma LOCATION_MULTIPLIERS_entries :
  Forall (fun kv => 0.9 <= snd kv <= 1.8
                    /\ (snd kv < 1 -> fst kv = "andhra pradesh"))
         P.LOCATION_MULTIPLIERS.
Proof.
  unfold P.LOCATION_MULTIPLIERS.
  repeat constructor; simpl; try lra;
    intros H; exfalso; revert H; apply Qle_not_lt; discriminate.
Qed.

Lemma location_lookup (k : string) :
  inherited k = false ->
  exists q, get_or P.LOCATION_MULTIPLIERS k 1.0 = Number (Fin q)
            /\ 0.9 <= q <= 1.8
            /\ (q < 1 -> k = "andhra pradesh").
Proof.
  intros Hk. rewrite (get_or_plain _ _ _ Hk).
  destruct (own P.LOCATION_MULTIPLIERS k) as [q|] eqn:E.
  - apply own_In in E.
    pose proof (proj1 (Forall_forall _ _) LOCATION_MULTIPLIERS_entries _ E)
      as [Hr Ha]. simpl in Hr, Ha.
    exists q. rewrite truthy_nonzero by lra. auto.
  - exists 1.0. split; [reflexivity|]. split; [lra|].
    intros H. exfalso. lra.
Qed.

Lemma max2_Fin (a b : Q) :
  exists q, Math.max2 (Fin a) (Fin b) = Fin q
            /\ a <= q /\ b <= q /\ (q = a \/ q = b).
Proof.
  unfold Math.max2, cmp. destruct (a ?= b) eqn:E.
  - apply Qeq_alt in E. exists a. repeat split; auto; lra.
  - apply Qlt_alt in E. exists b. repeat split; auto; lra.
  - apply Qgt_alt in E. exists a. repeat split; auto; lra.
Qed.

(** The floor of 0.8 is never the binding argument. *)
Lemma max3_floor_idle (c s : Q) :
  0.9 <= c -> 0.9 <= s ->
  Math.max3 (Fin c) (Fin s) (Fin 0.8) = Math.max2 (Fin c) (Fin s).
Proof.
  intros Hc Hs. unfold Math.max3.
  destruct (max2_Fin c s) as [q [-> [Hq _]]].
  unfold Math.max2, cmp. destruct (q ?= 0.8) eqn:E; try reflexivity.
  apply Qlt_alt in E. exfalso. lra.
Qed.

Lemma toFixed2_bounds (q : Q) :
  0 <= q ->
  exists r, toFixed2 (Fin q) = Fin r
            /\ (0.9 <= q -> 0.9 <= r)
            /\ (r < 1 -> q < 1).
Proof.
  intros H0. unfold toFixed2.
  assert (E : Qle_bool 0 q = true) by (apply Qle_bool_iff; exact H0).
  rewrite E. pose proof (Qabs_pos q H0) as Habs.
  set (m := Qfloor (Qabs q * 100 + (1 # 2))).
  exists (Qred (m # 100)). split; [reflexivity|].
  assert (Hm : Qred (m # 100) == inject_Z m * (1 # 100)).
  { rewrite Qred_correct. unfold Qeq, Qmult, inject_Z. simpl. lia. }
  split.
  - intros H. rewrite Hm.
    assert (90 <= m)%Z.
    { change 90%Z with (Qfloor (90 + (1 # 2))). apply Qfloor_resp_le. lra. }
    assert (inject_Z 90 <= inject_Z m) by (rewrite <- Zle_Qle; assumption).
    change (inject_Z 90) with 90 in *. lra.
  - intros H. rewrite Hm in H.
    assert (Hlt : inject_Z m < inject_Z 100).
    { change (inject_Z 100) with 100. lra. }
    rewrite <- Zlt_Qlt in Hlt.
    assert (Hle : inject_Z (m + 1) <= inject_Z 100)
      by (rewrite <- Zle_Qle; lia).
    change (inject_Z 100) with 100 in Hle.
    pose proof (Qlt_floor (Qabs q * 100 + (1 # 2))) as Hf. fold m in Hf.
    lra.
Qed.

(** The claim of C10 as written fails: a listing whose city and state both
    read "Andhra Pradesh" gets a location multiplier of 0.9. *)
Lemma location_multiplier_below_one :
  exists est,
    P.calculateRentPrice Samples.andhra_flat = Normal est
    /\ est.(P.locationMultiplier) = Fin 0.9
    /\ lt est.(P.locationMultiplier) (Fin 1.0) = true.
Proof.
  eexists. split; [vm_compute; reflexivity|]. split; reflexivity.
Qed.

(** C10, amended.  For every input whose categorical fields are strings
    and whose city and state name no inherited member, the multiplier is
    the larger of the city and the state lookups, each an entry of the one
    shared table or 1.0; the floor of 0.8 is never binding; the returned
    multiplier is at least 0.9, and it is below 1.0 only when both the
    city and the state read "andhra pradesh". *)
Theorem location_multiplier_bounds (p : P.Property)
  (Hcat : Contracts.categorical_strings p = true)
  (Hcity : inherited (Contracts.city_key p) = false)
  (Hstate : inherited (Contracts.state_key p) = false) :
  exists est c s r,
    P.calculateRentPrice p = Normal est
    /\ get_or P.LOCATION_MULTIPLIERS (Contracts.city_key p) 1.0
       = Number (Fin c)
    /\ get_or P.LOCATION_MULTIPLIERS (Contracts.state_key p) 1.0
       = Number (Fin s)
    /\ Math.max3 (Fin c) (Fin s) (Fin 0.8) = Math.max2 (Fin c) (Fin s)
    /\ est.(P.locationMultiplier) = toFixed2 (Math.max2 (Fin c) (Fin s))
    /\ est.(P.locationMultiplier) = Fin r
    /\ 0.9 <= r
    /\ (r < 1 -> Contracts.city_key p = "andhra pradesh"
                 /\ Contracts.state_key p = "andhra pradesh").
Proof.
  destruct (location_lookup _ Hcity) as [c [Ec [Hc Hca]]].
  destruct (location_lookup _ Hstate) as [s [Es [Hs Hsa]]].
  destruct (estimate_of_workings p) as [est [He [_ [_ [_ Hl]]]]].
  assert (Hloc : (Contracts.workings_of p).(P.w_location)
                 = Math.max2 (Fin c) (Fin s)).
  { cbn [Contracts.workings_of P.w_location]. rewrite Ec, Es.
    cbn [toNumber]. apply max3_floor_idle; lra. }
  destruct (max2_Fin c s) as [q [Eq [Hqc [Hqs Hq]]]].
  destruct (toFixed2_bounds q) as [r [Er [Hlow Hhigh]]]; [lra|].
  exists est, c, s, r.
  split.
  { unfold P.calculateRentPrice. rewrite (workings_strings p Hcat).
    cbn [bind]. rewrite He. reflexivity. }
  split; [exact Ec|]. split; [exact Es|].
  split; [apply max3_floor_idle; lra|].
  rewrite Hl, Hloc. split; [reflexivity|].
  rewrite Eq, Er. split; [reflexivity|].
  split; [apply Hlow; lra|].
  intros Hr. apply Hhigh in Hr. split; [apply Hca|apply Hsa]; lra.
Qed.

Lemma location_multiplier_bounds_witness :
  exists est c s r,
    P.calculateRentPrice Samples.andhra_flat = Normal est
    /\ get_or P.LOCATION_MULTIPLIERS
         (Contracts.city_key Samples.andhra_flat) 1.0 = Number (Fin c)
    /\ get_or P.LOCATION_MULTIPLIERS
         (Contracts.state_key Samples.andhra_flat) 1.0 = Number (Fin s)
    /\ Math.max3 (Fin c) (Fin s) (Fin 0.8) = Math.max2 (Fin c) (Fin s)
    /\ est.(P.locationMultiplier) = toFixed2 (Math.max2 (Fin c) (Fin s))
    /\ est.(P.locationMultiplier) = Fin r
    /\ 0.9 <= r
    /\ (r < 1 -> Contracts.city_key Samples.andhra_flat = "andhra pradesh"
                 /\ Contracts.state_key Samples.andhra_flat
                    = "andhra pradesh").
Proof.
  exact (location_multiplier_bounds Samples.andhra_flat
           eq_refl eq_refl eq_refl).
Defined.

(** *** The budget term of the two scores *)

(** The claim of C4 as written fails for the smart score: with a budget of
    1000 to 2000 a rent of 1800 is within the ceiling, yet the term is 24,
    neither the full 30 nor zero. *)
Lemma smart_budget_term_is_graded :
  let property := Samples.listing 1 1800 None in
  let term := SearchRoutes.price_term property Samples.with_budget in
  le (Fin 1800) (Fin 2000) = true
  /\ num_eq term (Fin 24)
  /\ ~ num_eq term (Fin 30)
  /\ ~ num_eq term (Fin 0)
  /\ AiRoutes.budget_match property Samples.user_with_budget = Fin 30.
Proof.
  cbv zeta. repeat split; try (vm_compute; reflexivity);
    vm_compute; intros H; discriminate H.
Qed.

Lemma Qabs_zero (x : Q) : Qabs x == 0 -> x == 0.
Proof.
  intros H. pose proof (Qle_Qabs x) as H1.
  pose proof (Qle_Qabs (- x)) as H2. rewrite Qabs_opp in H2. lra.
Qed.

Lemma Qdiv_zero (x y : Q) : 0 < y -> x / y == 0 -> x == 0.
Proof.
  intros Hy H.
  assert (E : x == (x / y) * y) by (field; lra).
  rewrite E, H. ring.
Qed.

(** C4, amended.  The budget term of [calculatePersonalizedScore] is
    binary: 30 when the user has a budget ceiling and the rent does not
    exceed it, zero otherwise.  The budget term of [calculateSmartScore]
    is graded: for a budget from [lo] to [hi] with midpoint
    [mid = (lo + hi) / 2 > 0] and a rent [r] it is
    [30 * (1 - |r - mid| / mid)], which reaches 30 only at [r = mid]. *)
Theorem budget_terms
  (property : Models.Listing) (userPrefs : AiRoutes.UserPrefs)
  (preferences : SearchRoutes.Preferences) (b : Models.Range) (r lo hi : Q)
  (Hrent : property.(Models.rent) = Some (Fin r))
  (Hbudget : preferences.(SearchRoutes.budget) = Some b)
  (Hlo : b.(Models.min) = Some (Fin lo))
  (Hhi : b.(Models.max) = Some (Fin hi))
  (Hpos : 0 < lo + hi) :
  let mid := (lo + hi) / 2 in
  (AiRoutes.budget_match property userPrefs = Fin 30
   \/ AiRoutes.budget_match property userPrefs = Fin 0)
  /\ (AiRoutes.budget_match property userPrefs = Fin 30 <->
      exists ub, userPrefs.(AiRoutes.budget) = Some ub
                 /\ Models.present ub.(Models.max) = true
                 /\ le (Fin r) (Models.number ub.(Models.max)) = true)
  /\ num_eq (SearchRoutes.price_term property preferences)
            (Fin (30 * (1 - Qabs (r - mid) / mid)))
  /\ (num_eq (SearchRoutes.price_term property preferences) (Fin 30)
      <-> r == mid).
Proof.
  intros mid.
  assert (Hmid : 0 < mid).
  { unfold mid. apply Qlt_shift_div_l; lra. }
  assert (Hterm : SearchRoutes.price_term property preferences
                  = Fin ((1 + - (Qabs (r + - ((lo + hi) / 2))
                                 / ((lo + hi) / 2))) * 30)).
  { unfold SearchRoutes.price_term. rewrite Hbudget, Hlo, Hhi, Hrent.
    cbn [Models.number add div]. change (Qeq_bool 2 0) with false.
    cbn [sub neg add Math.abs div].
    destruct (Qeq_bool ((lo + hi) / 2) 0) eqn:E.
    - apply Qeq_bool_eq in E. fold mid in E. lra.
    - reflexivity. }
  split; [|split; [|split]].
  - unfold AiRoutes.budget_match.
    destruct (AiRoutes.budget userPrefs) as [ub|]; [|right; reflexivity].
    destruct (Models.present (Models.max ub)); [|right; reflexivity].
    destruct (le _ _); [left|right]; reflexivity.
  - unfold AiRoutes.budget_match. rewrite Hrent. cbn [Models.number].
    split.
    + destruct (AiRoutes.budget userPrefs) as [ub|]; [|discriminate].
      destruct (Models.present (Models.max ub)) eqn:Ep; [|discriminate].
      destruct (le _ _) eqn:El; [|discriminate].
      intros _. exists ub. auto.
    + intros [ub [-> [-> ->]]]. reflexivity.
  - rewrite Hterm. cbn [num_eq]. fold mid. unfold Qminus. field. lra.
  - rewrite Hterm. cbn [num_eq]. fold mid. split.
    + intros H.
      assert (Hd : Qabs (r + - mid) / mid == 0) by lra.
      apply Qdiv_zero in Hd; [|exact Hmid].
      apply Qabs_zero in Hd. lra.
    + intros H.
      assert (Hz : r + - mid == 0) by lra.
      rewrite Hz. change (Qabs 0) with 0. field. lra.
Qed.

Lemma budget_terms_witness :
  let property := Samples.listing 1 1800 None in
  num_eq (SearchRoutes.price_term property Samples.with_budget)
         (Fin (30 * (1 - Qabs (1800 - (1000 + 2000) / 2)
                         / ((1000 + 2000) / 2)))).
Proof.
  exact (proj1 (proj2 (proj2
    (budget_terms (Samples.listing 1 1800 None)
       (Samples.user_with_budget) (Samples.with_budget)
       (Samples.budget_1000_2000)
       1800 1000 2000 eq_refl eq_refl eq_refl eq_refl eq_refl)))).
Defined.

(** *** The stable sort and the ranking *)

Lemma cmp_Fin (x y : Q) : cmp (Fin x) (Fin y) = Some (x ?= y).
Proof. reflexivity. Qed.

Lemma tie_not_moved (a b s : num) :
  eqb a s = true -> eqb b s = true -> gt (sub b a) (Fin 0) = false.
Proof.
  unfold eqb, gt, lt.
  destruct a as [x| | |], b as [y| | |], s as [z| | |];
    simpl; try discriminate; try reflexivity.
  destruct (x ?= z) eqn:Ex; try discriminate.
  destruct (y ?= z) eqn:Ey; try discriminate.
  intros _ _. apply Qeq_alt in Ex, Ey.
  destruct (0 ?= y + - x) eqn:E; try reflexivity.
  apply Qlt_alt in E. lra.
Qed.

Lemma moved_behind_better (a b : num) :
  gt (sub b a) (Fin 0) = true -> ge b a = true.
Proof.
  unfold gt, ge, lt, le.
  destruct a as [x| | |], b as [y| | |]; simpl; try discriminate;
    try reflexivity.
  destruct (0 ?= y + - x) eqn:E; try discriminate. intros _.
  apply Qlt_alt in E.
  destruct (x ?= y) eqn:E'; try reflexivity.
  apply Qgt_alt in E'. lra.
Qed.

Lemma kept_before_worse (a b : num) :
  a <> NaN -> b <> NaN -> gt (sub b a) (Fin 0) = false -> ge a b = true.
Proof.
  unfold gt, ge, lt, le.
  destruct a as [x| | |], b as [y| | |]; simpl; try discriminate;
    try reflexivity; try congruence.
  intros _ _.
  destruct (0 ?= y + - x) eqn:E; try discriminate; intros _.
  - apply Qeq_alt in E.
    destruct (y ?= x) eqn:E'; try reflexivity. apply Qgt_alt in E'. lra.
  - apply Qgt_alt in E.
    destruct (y ?= x) eqn:E'; try reflexivity. apply Qgt_alt in E'. lra.
Qed.

Lemma ge_trans (a b c : num) :
  ge a b = true -> ge b c = true -> ge a c = true.
Proof.
  unfold ge, le.
  destruct a as [x| | |], b as [y| | |], c as [z| | |];
    simpl; try discriminate; try reflexivity.
  destruct (y ?= x) eqn:E1; try discriminate;
    destruct (z ?= y) eqn:E2; try discriminate; intros _ _;
    destruct (z ?= x) eqn:E3; try reflexivity; exfalso;
    apply Qgt_alt in E3;
    first [apply Qeq_alt in E1 | apply Qlt_alt in E1];
    first [apply Qeq_alt in E2 | apply Qlt_alt in E2]; lra.
Qed.

Section SortFacts.
Variable A : Type.
Variable score : A -> num.

Lemma insert_In (x y : A) (l : list A) :
  In y (SearchRoutes.insert (Contracts.by_score score) x l)
  <-> y = x \/ In y l.
Proof.
  induction l as [|z l IH]; simpl.
  - intuition auto.
  - destruct (gt (Contracts.by_score score x z) (Fin 0)); simpl;
      rewrite ?IH; intuition auto.
Qed.

Lemma sort_In (y : A) (l : list A) :
  In y (SearchRoutes.sort (Contracts.by_score score) l) <-> In y l.
Proof.
  induction l as [|x l IH]; simpl; [tauto|].
  rewrite insert_In, IH. intuition auto.
Qed.

(** Stability: an element is never moved behind one of equal score, so
    the elements of any one score keep their order. *)
Lemma insert_filter (s : num) (x : A) (l : list A) :
  filter (fun y => eqb (score y) s)
         (SearchRoutes.insert (Contracts.by_score score) x l)
  = filter (fun y => eqb (score y) s) (x :: l).
Proof.
  induction l as [|z l IH]; [reflexivity|].
  cbn [SearchRoutes.insert].
  destruct (gt (Contracts.by_score score x z) (Fin 0)) eqn:E;
    [|reflexivity].
  cbn [filter] in *. rewrite IH.
  destruct (eqb (score x) s) eqn:Ex, (eqb (score z) s) eqn:Ez;
    try reflexivity.
  unfold Contracts.by_score in E.
  rewrite (tie_not_moved _ _ _ Ex Ez) in E.
  discriminate E.
Qed.

Lemma sort_filter (s : num) (l : list A) :
  filter (fun y => eqb (score y) s)
         (SearchRoutes.sort (Contracts.by_score score) l)
  = filter (fun y => eqb (score y) s) l.
Proof.
  induction l as [|x l IH]; [reflexivity|].
  cbn [SearchRoutes.sort fold_right].
  change (fold_right (SearchRoutes.insert (Contracts.by_score score)) [] l)
    with (SearchRoutes.sort (Contracts.by_score score) l).
  rewrite insert_filter. cbn [filter]. rewrite IH. reflexivity.
Qed.

(** Order: when every score is a number the result is sorted, best
    first. *)
Lemma insert_sorted (x : A) (l : list A) :
  score x <> NaN -> Forall (fun y => score y <> NaN) l ->
  StronglySorted (Contracts.better score) l ->
  StronglySorted (Contracts.better score)
                 (SearchRoutes.insert (Contracts.by_score score) x l).
Proof.
  intros Hx Hl Hs. induction Hs as [|z l Hs IH Hz]; simpl.
  - constructor; constructor.
  - inversion Hl as [|? ? Hzn Hln]; subst.
    destruct (gt (Contracts.by_score score x z) (Fin 0)) eqn:E.
    + constructor; [apply IH; exact Hln|].
      apply Forall_forall. intros y Hy. apply insert_In in Hy.
      destruct Hy as [->|Hy].
      * apply moved_behind_better. exact E.
      * exact (proj1 (Forall_forall _ _) Hz y Hy).
    + assert (Hxz : Contracts.better score x z)
        by (apply kept_before_worse; assumption).
      constructor; [constructor; assumption|].
      constructor; [exact Hxz|].
      apply Forall_forall. intros y Hy.
      apply (ge_trans _ (score z)); [exact Hxz|].
      exact (proj1 (Forall_forall _ _) Hz y Hy).
Qed.

Lemma sort_sorted (l : list A) :
  Forall (fun y => score y <> NaN) l ->
  StronglySorted (Contracts.better score)
                 (SearchRoutes.sort (Contracts.by_score score) l).
Proof.
  induction l as [|x l IH]; intros H; [constructor|].
  cbn [SearchRoutes.sort fold_right].
  change (fold_right (SearchRoutes.insert (Contracts.by_score score)) [] l)
    with (SearchRoutes.sort (Contracts.by_score score) l).
  inversion H as [|? ? Hx Hl]; subst.
  apply insert_sorted; [exact Hx| |apply IH; exact Hl].
  apply Forall_forall. intros y Hy.
  apply (proj1 (sort_In y l)) in Hy.
  exact (proj1 (Forall_forall _ _) Hl y Hy).
Qed.

End SortFacts.

Lemma StronglySorted_before {A} (R : A -> A -> Prop) (a b : A) (l : list A) :
  StronglySorted R l -> Contracts.before a b l -> R a b.
Proof.
  intros Hs [l1 [l2 [l3 ->]]].
  induction l1 as [|x l1 IH]; simpl in Hs.
  - apply StronglySorted_inv in Hs. destruct Hs as [_ Hall].
    apply (proj1 (Forall_forall _ _) Hall).
    apply in_or_app. right. left. reflexivity.
  - apply StronglySorted_inv in Hs. apply IH. exact (proj1 Hs).
Qed.

Lemma StronglySorted_filter {A} (R : A -> A -> Prop) (f : A -> bool)
      (l : list A) :
  StronglySorted R l -> StronglySorted R (filter f l).
Proof.
  induction 1 as [|x l Hs IH Hx]; simpl; [constructor|].
  destruct (f x); [|exact IH].
  constructor; [exact IH|].
  apply Forall_forall. intros y Hy. apply filter_In in Hy.
  exact (proj1 (Forall_forall _ _) Hx y (proj1 Hy)).
Qed.

Lemma StronglySorted_map {A B} (R : B -> B -> Prop) (g : A -> B)
      (l : list A) :
  StronglySorted (fun a b => R (g a) (g b)) l -> StronglySorted R (map g l).
Proof.
  induction 1 as [|x l Hs IH Hx]; simpl; constructor; [exact IH|].
  apply Forall_forall. intros y Hy. apply in_map_iff in Hy.
  destruct Hy as [z [<- Hz]]. exact (proj1 (Forall_forall _ _) Hx z Hz).
Qed.

Lemma StronglySorted_firstn {A} (R : A -> A -> Prop) (n : nat) (l : list A) :
  StronglySorted R l -> StronglySorted R (firstn n l).
Proof.
  intros H. revert n. induction H as [|x l Hs IH Hx]; intros [|n]; simpl;
    try constructor; [apply IH|].
  apply Forall_forall. intros y Hy.
  apply (proj1 (Forall_forall _ _) Hx).
  rewrite <- (firstn_skipn n l). apply in_or_app. left. exact Hy.
Qed.

Lemma before_filter {A} (f : A -> bool) (a b : A) (l : list A) :
  f a = true -> f b = true -> Contracts.before a b l ->
  Contracts.before a b (filter f l).
Proof.
  intros Ha Hb [l1 [l2 [l3 ->]]].
  exists (filter f l1), (filter f l2), (filter f l3).
  rewrite filter_app. cbn [filter]. rewrite Ha.
  rewrite filter_app. cbn [filter]. rewrite Hb. reflexivity.
Qed.

Lemma before_firstn {A} (n : nat) (a b : A) (l : list A) :
  Contracts.before a b (firstn n l) -> Contracts.before a b l.
Proof.
  intros [l1 [l2 [l3 H]]].
  exists l1, l2, (l3 ++ skipn n l)%list.
  rewrite <- (firstn_skipn n l) at 1. rewrite H.
  rewrite <- !app_assoc. cbn [app]. rewrite <- !app_assoc. reflexivity.
Qed.

Lemma eqb_tie (a b : num) :
  eqb a b = true -> eqb a a = true /\ eqb b a = true.
Proof.
  unfold eqb.
  destruct a as [x| | |], b as [y| | |]; simpl; try discriminate; auto.
  destruct (x ?= y) eqn:E; try discriminate. intros _.
  apply Qeq_alt in E.
  assert (E1 : x == x) by reflexivity. apply Qeq_alt in E1.
  symmetry in E. apply Qeq_alt in E. rewrite E1, E. auto.
Qed.

Lemma scores_available (found : list Models.Listing)
      (preferences : SearchRoutes.Preferences)
      (marketOf : Models.Listing -> SearchRoutes.MarketData) :
  SearchRoutes.map_throwing
    (fun property =>
       bind (SearchRoutes.call_getMarketData
               (Contracts.supplying marketOf) property)
            (fun marketData =>
               Normal (SearchRoutes.scored preferences marketData property)))
    found
  = Normal (Contracts.scored_found found preferences marketOf).
Proof.
  induction found as [|p ps IH]; [reflexivity|].
  cbn [SearchRoutes.map_throwing]. rewrite IH. reflexivity.
Qed.

Lemma insert_permutation {A} (comparefn : A -> A -> num) (x : A)
      (l : list A) :
  Permutation (SearchRoutes.insert comparefn x l) (x :: l).
Proof.
  induction l as [|y l IH]; simpl; [reflexivity|].
  destruct (gt (comparefn x y) (Fin 0)); [|reflexivity].
  rewrite IH. apply perm_swap.
Qed.

Lemma sort_permutation {A} (comparefn : A -> A -> num) (l : list A) :
  Permutation (SearchRoutes.sort comparefn l) l.
Proof.
  induction l as [|x l IH]; [reflexivity|].
  cbn [SearchRoutes.sort fold_right].
  change (fold_right (SearchRoutes.insert comparefn) [] l)
    with (SearchRoutes.sort comparefn l).
  rewrite insert_permutation, IH. reflexivity.
Qed.

(** Were [getMarketData] exported: the list handed over by the store is
    ordered newest first, and every score is a number.  Then the route
    returns the first twenty of a rearrangement of the scored listings in
    which they stand best score first, and in which any two listings whose
    scores are equal stand newest first: the sort by score is stable. *)
Lemma ranking_ties_newest_first
  (found : list Models.Listing) (preferences : SearchRoutes.Preferences)
  (marketOf : Models.Listing -> SearchRoutes.MarketData)
  (Hnew : Contracts.newest_first found)
  (Hnum : Contracts.scores_are_numbers found preferences marketOf) :
  exists sorted,
    SearchRoutes.recommendations (Contracts.supplying marketOf)
                                 found preferences
    = Normal (firstn 20 sorted)
    /\ Permutation sorted (Contracts.scored_found found preferences marketOf)
    /\ Contracts.best_first sorted
    /\ forall a b,
         Contracts.before a b sorted ->
         Contracts.tie a b ->
         (Models.createdAt b.(SearchRoutes.listing)
          <= Models.createdAt a.(SearchRoutes.listing))%Z.
Proof.
  unfold SearchRoutes.recommendations. rewrite scores_available.
  cbn [bind].
  set (properties := Contracts.scored_found found preferences marketOf).
  exists (SearchRoutes.sort
            (fun a b => sub (SearchRoutes.smartScore b)
                            (SearchRoutes.smartScore a)) properties).
  split; [reflexivity|]. split; [apply sort_permutation|]. split.
  - apply (sort_sorted SearchRoutes.Scored SearchRoutes.smartScore).
    apply Forall_forall. intros y Hy. apply in_map_iff in Hy.
    destruct Hy as [p [<- Hp]].
    exact (proj1 (Forall_forall _ _) Hnum p Hp).
  - intros a b Hbefore Htie.
    destruct (eqb_tie _ _ Htie) as [Ha Hb].
    apply (before_filter
             (fun y => eqb (SearchRoutes.smartScore y)
                           (SearchRoutes.smartScore a)) a b _ Ha Hb)
      in Hbefore.
    rewrite (sort_filter SearchRoutes.Scored SearchRoutes.smartScore)
      in Hbefore.
    revert Hbefore.
    apply (StronglySorted_before
             (fun x y => (Models.createdAt y.(SearchRoutes.listing)
                          <= Models.createdAt x.(SearchRoutes.listing))%Z)).
    apply StronglySorted_filter. apply StronglySorted_map. exact Hnew.
Qed.

(** The ranking of the three example listings, were [getMarketData]
    exported: the two that tie at 65 keep the newer one first. *)
Example ranking_of_three :
  SearchRoutes.recommendations
    (Contracts.supplying (fun _ => Samples.market))
    Samples.found3 Samples.no_preferences
  = Normal
      (map (SearchRoutes.scored Samples.no_preferences Samples.market)
           [ Samples.listing 3 1800 (Some (Fin 0));
             Samples.listing 1 1800 (Some (Fin 0));
             Samples.listing 2 2500 (Some (Fin 0)) ]).
Proof. vm_compute. reflexivity. Qed.

(** C8.  The route never gets as far as a ranking: the module it requires
    as [marketDataService] does not export the [getMarketData] that it
    calls for each listing, so for every non-empty result of the query the
    scoring raises a TypeError and the route answers with status 500.  No
    two listings are ordered at all; only an empty result is answered, with
    an empty list. *)
Theorem smart_recommendations_never_rank
  (found : list Models.Listing) (preferences : SearchRoutes.Preferences)
  (Hfound : found <> []) :
  SearchRoutes.recommendations SearchRoutes.marketDataService
                               found preferences
  = Throw TypeError
  /\ SearchRoutes.smartRecommendations SearchRoutes.marketDataService
                                       found preferences
     = SearchRoutes.Status500 "Smart recommendations service error"
  /\ SearchRoutes.smartRecommendations SearchRoutes.marketDataService
                                       [] preferences
     = SearchRoutes.Json [].
Proof.
  destruct found as [|p ps]; [contradiction|].
  repeat split.
Qed.

Lemma smart_recommendations_never_rank_witness :
  SearchRoutes.recommendations SearchRoutes.marketDataService
                               Samples.found3 Samples.no_preferences
  = Throw TypeError
  /\ SearchRoutes.smartRecommendations SearchRoutes.marketDataService
                                       Samples.found3 Samples.no_preferences
     = SearchRoutes.Status500 "Smart recommendations service error"
  /\ SearchRoutes.smartRecommendations SearchRoutes.marketDataService
                                       [] Samples.no_preferences
     = SearchRoutes.Json [].
Proof.
  apply (smart_recommendations_never_rank
           Samples.found3 Samples.no_preferences).
  discriminate.
Defined.

(** *** Real and synthetic market data *)

Lemma global_market_data_is_flagged (h : MarketData.Host) :
  field "isEstimate" (MarketData.getGlobalMarketData h) = Some (DBool true).
Proof. reflexivity. Qed.

(** X22.  [getMarketData] flags exactly its fallback results: the
    result carries [isEstimate: true] when the location or its city is
    missing, when the store has no listing for the location and when the
    query fails, and carries no [isEstimate] field when it is the aggregate
    of stored listings. *)
Lemma market_data_flag (h : MarketData.Host) (st : MarketData.Store)
      (location : option MarketData.Location) :
  field "isEstimate" (MarketData.getMarketData h st location)
  = if Contracts.real_aggregate st location then None
    else Some (DBool true).
Proof.
  unfold MarketData.getMarketData, Contracts.real_aggregate.
  destruct location as [l|]; [|reflexivity].
  destruct (MarketData.no_city l); [reflexivity|]. cbn [negb andb].
  destruct (MarketData.find st l) as [[|d ds]|e]; reflexivity.
Qed.

Lemma trend_loop_not_flagged (h : MarketData.Host) (months k : nat) :
  Forall (fun item => has_field "isEstimate" item = false)
         (MarketData.trend_loop h months k).
Proof.
  revert k. induction months as [|i IH]; intros k; simpl; constructor.
  - reflexivity.
  - apply IH.
Qed.

(** C9.  Synthetic market data is returned without the flag: the price
    trends, drawn from [Math.random()], are an array of points none of
    which carries [isEstimate], and neither does the market data that the
    AI routes draw around the rent of a listing. *)
Theorem synthetic_data_without_flag :
  MarketData.getPriceTrends Samples.host None 2
  = DArr [ DObj [("date", DStr "2024-01-01");
                 ("averageRent", DNum (Fin 1220))];
           DObj [("date", DStr "2024-01-01");
                 ("averageRent", DNum (Fin 1200))] ]
  /\ (forall h location months,
        has_field "isEstimate"
                  (MarketData.getPriceTrends h location months) = false
        /\ MarketData.getPriceTrends h location months
           = DArr (MarketData.trend_loop h months 0)
        /\ Forall (fun item => has_field "isEstimate" item = false)
                  (MarketData.trend_loop h months 0))
  /\ (forall random isoNow property,
        has_field "isEstimate"
                  (AiRoutes.getMarketData random isoNow property) = false).
Proof.
  split; [vm_compute; reflexivity|]. split.
  - intros h location months. repeat split.
    apply trend_loop_not_flagged.
  - intros random isoNow property. reflexivity.
Qed.

(** *** Keys inherited from [Object.prototype] *)

(** C7.  A property type named "constructor" is in no table, yet it is
    not given the default base price: the lookup finds the inherited
    member, the base price and the total are [NaN], and the total is not
    above zero.  A type, city, state and tag that name nothing at all do
    get the defaults. *)
Theorem inherited_type_is_not_defaulted :
  own P.BASE_PRICES "constructor" = None
  /\ get_or P.BASE_PRICES "constructor" (P.dot_default P.BASE_PRICES)
     = Opaque
  /\ Contracts.numeric_well_formed Samples.constructor_type_flat = true
  /\ (exists est,
        P.calculateRentPrice Samples.constructor_type_flat = Normal est
        /\ est.(P.basePrice) = NaN
        /\ est.(P.totalPrice) = NaN
        /\ gt est.(P.totalPrice) (Fin 0) = false)
  /\ (exists est,
        P.calculateRentPrice Samples.atlantis_flat = Normal est
        /\ est.(P.basePrice) = Fin 4000000
        /\ est.(P.amenitiesValue) = Fin 0
        /\ est.(P.totalPrice) = Fin 4000000
        /\ est.(P.locationMultiplier) = Fin 1).
Proof.
  repeat (split; [reflexivity|]).
  split; eexists; (split; [vm_compute; reflexivity|]);
    repeat split; reflexivity.
Qed.

(** C5.  With well-formed numeric fields and a city named "constructor"
    the bounds of the range and the total are [NaN]: the lower bound is
    not below the total, nor the total below the upper bound. *)
Theorem inherited_city_breaks_range :
  Contracts.numeric_well_formed Samples.constructor_city_flat = true
  /\ get_or P.LOCATION_MULTIPLIERS "constructor" 1.0 = Opaque
  /\ exists est,
       P.calculateRentPrice Samples.constructor_city_flat = Normal est
       /\ est.(P.totalPrice) = NaN
       /\ est.(P.priceRange).(P.min) = NaN
       /\ est.(P.priceRange).(P.max) = NaN
       /\ le est.(P.priceRange).(P.min) est.(P.totalPrice) = false
       /\ le est.(P.totalPrice) est.(P.priceRange).(P.max) = false
       /\ le (Fin 0) est.(P.priceRange).(P.min) = false.
Proof.
  repeat (split; [reflexivity|]).
  eexists. split; [vm_compute; reflexivity|].
  repeat split; reflexivity.
Qed.

(** *** The calculator away from the inherited keys

    With string categorical fields, well-formed numbers and keys that name
    no inherited member, every lookup yields a table entry or its default,
    the total is positive and the range brackets it. *)

Lemma BASE_PRICES_entries :
  Forall (fun kv => 3500 <= snd kv) P.BASE_PRICES.
Proof. unfold P.BASE_PRICES. repeat constructor; simpl; lra. Qed.

Lemma BEDROOM_MULTIPLIERS_entries :
  Forall (fun kv => 1 <= snd kv) P.BEDROOM_MULTIPLIERS.
Proof. unfold P.BEDROOM_MULTIPLIERS. repeat constructor; simpl; lra. Qed.

Lemma BATHROOM_MULTIPLIERS_entries :
  Forall (fun kv => 1 <= snd kv) P.BATHROOM_MULTIPLIERS.
Proof. unfold P.BATHROOM_MULTIPLIERS. repeat constructor; simpl; lra. Qed.

Lemma AMENITY_VALUES_entries :
  Forall (fun kv => 500 <= snd kv) P.AMENITY_VALUES.
Proof. unfold P.AMENITY_VALUES. repeat constructor; simpl; lra. Qed.

(** [t[k] || d] is an entry of [t] or [d], when both are above a positive
    bound. *)
Lemma lookup_bound (t : table) (k : string) (d bound : Q) :
  0 < bound -> bound <= d -> Forall (fun kv => bound <= snd kv) t ->
  inherited k = false ->
  exists q, get_or t k d = Number (Fin q) /\ bound <= q.
Proof.
  intros Hb Hd Hall Hk. rewrite (get_or_plain _ _ _ Hk).
  destruct (own t k) as [q|] eqn:E.
  - apply own_In in E.
    pose proof (proj1 (Forall_forall _ _) Hall _ E) as Hq. simpl in Hq.
    exists q. rewrite truthy_nonzero by lra. auto.
  - exists d. auto.
Qed.

Lemma multiplier_bound (t : table) (n : num) (d : Q) :
  1 <= d -> Forall (fun kv => 1 <= snd kv) t ->
  exists q, get_num_or t n d = Number (Fin q) /\ 1 <= q.
Proof.
  intros Hd Hall. unfold get_num_or.
  destruct (numeral n) as [k|] eqn:E.
  - apply (lookup_bound t k d 1); try assumption; try lra.
    exact (numeral_plain n k E).
  - exists d. auto.
Qed.

Lemma whole_positive (q : Q) :
  Contracts.whole q = true -> 0 <= q -> ~ q == 0 -> 1 <= q.
Proof.
  unfold Contracts.whole. intros H H0 H1. apply Qeq_bool_eq in H.
  assert (0 <= Qfloor q)%Z
    by (change 0%Z with (Qfloor 0); apply Qfloor_resp_le; exact H0).
  assert (Qfloor q <> 0)%Z
    by (intro E; rewrite E in H; apply H1; exact H).
  assert (Hz : (1 <= Qfloor q)%Z) by lia.
  rewrite H. change 1 with (inject_Z 1). rewrite <- Zle_Qle. exact Hz.
Qed.

(** [squareFootage || 1000] is at least one square foot. *)
Lemma area_bound (o : option num) :
  Contracts.count_or_absent o = true ->
  exists a, or_else (P.with_default o (Fin 0)) (Fin 1000) = Fin a /\ 1 <= a.
Proof.
  destruct o as [[q| | |]|]; simpl; try discriminate.
  - intros H. apply andb_prop in H. destruct H as [H0 Hw].
    apply Qle_bool_iff in H0.
    unfold or_else, truthy. destruct (Qeq_bool q 0) eqn:E; simpl.
    + exists 1000. split; [reflexivity|lra].
    + exists q. split; [reflexivity|].
      apply whole_positive; auto. apply Qeq_bool_neq. exact E.
  - intros _. exists 1000. split; [reflexivity|lra].
Qed.

Lemma tags_value_bound (keys : list string) (v0 : Q) :
  0 <= v0 -> forallb (fun k => negb (inherited k)) keys = true ->
  exists v, Contracts.tags_value keys (Number (Fin v0)) = Number (Fin v)
            /\ 0 <= v.
Proof.
  revert v0. induction keys as [|k keys IH]; intros v0 H0 Hk; simpl in *.
  - exists v0. auto.
  - apply andb_prop in Hk. destruct Hk as [Hk Hks].
    apply negb_true_iff in Hk.
    rewrite (get_or_plain _ _ _ Hk).
    destruct (own P.AMENITY_VALUES k) as [q|] eqn:E.
    + apply own_In in E.
      pose proof (proj1 (Forall_forall _ _) AMENITY_VALUES_entries _ E)
        as Hq. simpl in Hq.
      rewrite truthy_nonzero by lra. cbn [plus add].
      apply IH; [lra|exact Hks].
    + cbn [plus add]. apply IH; [lra|exact Hks].
Qed.

Lemma total_bound (p : P.Property) :
  Contracts.plain_keys p = true ->
  Contracts.numeric_well_formed p = true ->
  exists T, (Contracts.workings_of p).(P.w_totalPrice) = Number (Fin T)
            /\ 3150 <= T.
Proof.
  unfold Contracts.plain_keys, Contracts.numeric_well_formed.
  intros Hk Hn.
  apply andb_prop in Hk. destruct Hk as [Hk Hkg].
  apply andb_prop in Hk. destruct Hk as [Hk Hks].
  apply andb_prop in Hk. destruct Hk as [Hkt Hkc].
  apply negb_true_iff in Hkt, Hkc, Hks.
  apply andb_prop in Hn. destruct Hn as [Hn Hna].
  apply andb_prop in Hn. destruct Hn as [Hnb Hnt].
  destruct (lookup_bound P.BASE_PRICES (Contracts.type_key p)
              (P.dot_default P.BASE_PRICES) 3500)
    as [rate [Er Hr]];
    [lra|vm_compute; discriminate|exact BASE_PRICES_entries|exact Hkt|].
  destruct (area_bound _ Hna) as [area [Ea Ha]].
  destruct (location_lookup _ Hkc) as [c [Ec [Hc _]]].
  destruct (location_lookup _ Hks) as [s [Es [Hs _]]].
  destruct (max2_Fin c s) as [loc [El [Hlc [Hls _]]]].
  destruct (multiplier_bound P.BEDROOM_MULTIPLIERS
              (P.with_default p.(P.bedrooms) (Fin 1))
              (P.dot_default P.BEDROOM_MULTIPLIERS))
    as [bed [Eb Hb]];
    [vm_compute; discriminate|exact BEDROOM_MULTIPLIERS_entries|].
  destruct (multiplier_bound P.BATHROOM_MULTIPLIERS
              (P.with_default p.(P.bathrooms) (Fin 1))
              (P.dot_default P.BATHROOM_MULTIPLIERS))
    as [bath [Et Ht]];
    [vm_compute; discriminate|exact BATHROOM_MULTIPLIERS_entries|].
  destruct (tags_value_bound (Contracts.tag_keys p) 0)
    as [v [Ev Hv]]; [lra|exact Hkg|].
  cbn [Contracts.workings_of P.w_totalPrice].
  rewrite Er, Ea, Ec, Es, Eb, Et, Ev. cbn [toNumber].
  rewrite (max3_floor_idle c s) by lra. rewrite El.
  cbn [mul plus add].
  eexists. split; [reflexivity|].
  assert (3500 <= rate * area) by nra.
  assert (3150 <= rate * area * loc) by nra.
  assert (1 <= bed * bath) by nra.
  nra.
Qed.

(** The calculator is sound on such inputs: it returns, the total is at
    least 3150, and the range brackets the total from zero upwards. *)
Lemma rent_price_on_plain_keys (p : P.Property) :
  Contracts.categorical_strings p = true ->
  Contracts.plain_keys p = true ->
  Contracts.numeric_well_formed p = true ->
  exists est T lo t hi,
    P.calculateRentPrice p = Normal est
    /\ (Contracts.workings_of p).(P.w_totalPrice) = Number (Fin T)
    /\ est.(P.totalPrice) = of_Z t
    /\ est.(P.priceRange).(P.min) = of_Z lo
    /\ est.(P.priceRange).(P.max) = of_Z hi
    /\ t = Qfloor (T + (1 # 2))
    /\ lo = Qfloor (T - T * 0.15 + (1 # 2))
    /\ hi = Qfloor (T + T * 0.15 + (1 # 2))
    /\ (0 <= lo <= t)%Z /\ (t <= hi)%Z /\ (3150 <= t)%Z.
Proof.
  intros Hcat Hk Hn.
  destruct (total_bound p Hk Hn) as [T [ET HT]].
  destruct (estimate_of_workings p) as [est [He [Ht [Hlo [Hhi _]]]]].
  rewrite ET in Ht, Hlo, Hhi. cbn [toNumber mul sub add neg Math.round]
    in Ht, Hlo, Hhi.
  exists est, T, (Qfloor (T - T * 0.15 + (1 # 2))),
    (Qfloor (T + (1 # 2))), (Qfloor (T + T * 0.15 + (1 # 2))).
  split.
  { unfold P.calculateRentPrice. rewrite (workings_strings p Hcat).
    cbn [bind]. rewrite He. reflexivity. }
  split; [exact ET|]. split; [exact Ht|].
  split; [exact Hlo|]. split; [exact Hhi|].
  repeat (split; [reflexivity|]).
  repeat split.
  - change 0%Z with (Qfloor 0). apply Qfloor_resp_le. lra.
  - apply Qfloor_resp_le. lra.
  - apply Qfloor_resp_le. lra.
  - change 3150%Z with (Qfloor 3150). apply Qfloor_resp_le. lra.
Qed.

(* ================================================================== *)
(** ** Further properties of the code *)
(* ================================================================== *)

(** *** The regular expression matcher is sound *)

Lemma length_app_string (a b : string) :
  String.length (a ++ b) = (String.length a + String.length b)%nat.
Proof. induction a as [|c a IH]; simpl; [reflexivity|]. rewrite IH. reflexivity. Qed.

Lemma substring_prefix (w s : string) :
  substring 0 (String.length w) (w ++ s) = w.
Proof.
  induction w as [|c w IH]; simpl.
  - destruct s; reflexivity.
  - rewrite IH. reflexivity.
Qed.

Lemma consumed_app (w s1 : string) : RegExp.consumed (w ++ s1) s1 = w.
Proof.
  unfold RegExp.consumed. rewrite length_app_string.
  replace (String.length w + String.length s1 - String.length s1)%nat
    with (String.length w) by lia.
  apply substring_prefix.
Qed.

Lemma append_assoc_string (a b c : string) : ((a ++ b) ++ c = a ++ (b ++ c))%string.
Proof. induction a as [|x a IH]; simpl; [reflexivity|]. rewrite IH. reflexivity. Qed.

(** Whatever the matcher hands to its continuation is the rest of the
    input after a text that the pattern matches, with the captures of that
    match added. *)
Lemma run_sound (R : Type) (r : RegExp.regex) :
  forall (s : string) (caps : list string)
         (k : string -> list string -> option R) (x : R),
    RegExp.run r s caps k = Some x ->
    exists w s1 c,
      s = (w ++ s1)%string /\ RegExp.matches r w c
      /\ k s1 (caps ++ c)%list = Some x.
Proof.
  induction r as [c|p|r1 IH1 r2 IH2|r1 IH1|r1 IH1|r1 IH1|r1 IH1];
    intros s caps k x H.
  - destruct s as [|d rest]; simpl in H; [discriminate|].
    destruct (Ascii.eqb_spec c d) as [->|_]; [|discriminate].
    exists (String d ""), rest, []. rewrite app_nil_r.
    repeat split; [constructor|exact H].
  - destruct s as [|d rest]; simpl in H; [discriminate|].
    destruct (p d) eqn:E; [|discriminate].
    exists (String d ""), rest, []. rewrite app_nil_r.
    repeat split; [constructor; exact E|exact H].
  - simpl in H. apply IH1 in H. destruct H as [w1 [s1 [c1 [-> [M1 H]]]]].
    apply IH2 in H. destruct H as [w2 [s2 [c2 [-> [M2 H]]]]].
    exists (w1 ++ w2)%string, s2, (c1 ++ c2)%list.
    rewrite append_assoc_string, app_assoc.
    repeat split; [constructor; assumption|exact H].
  - simpl in H.
    destruct (RegExp.run r1 s caps k) as [y|] eqn:E.
    + injection H as ->. apply IH1 in E.
      destruct E as [w [s1 [c [-> [M E]]]]].
      exists w, s1, c. repeat split; [constructor; exact M|exact E].
    + exists ""%string, s, []. rewrite app_nil_r.
      repeat split; [constructor|exact H].
  - simpl in H. revert H. generalize (String.length s) at 1.
    intros fuel. revert s caps.
    induction fuel as [|fuel IHf]; intros s caps H.
    + exists ""%string, s, []. rewrite app_nil_r.
      repeat split; [constructor|exact H].
    + match type of H with
      | match ?m with _ => _ end = _ => destruct m as [y|] eqn:E
      end.
      * injection H as ->. apply IH1 in E.
        destruct E as [w1 [s1 [c1 [-> [M1 E]]]]].
        destruct (String.length s1 <? String.length (w1 ++ s1))%nat;
          [|discriminate].
        apply IHf in E. destruct E as [w2 [s2 [c2 [-> [M2 E]]]]].
        exists (w1 ++ w2)%string, s2, (c1 ++ c2)%list.
        rewrite append_assoc_string, app_assoc.
        repeat split; [constructor; assumption|exact E].
      * exists ""%string, s, []. rewrite app_nil_r.
        repeat split; [constructor|exact H].
  - simpl in H. apply IH1 in H. destruct H as [w1 [s1 [c1 [-> [M1 H]]]]].
    assert (G : exists w2 s2 c2,
               s1 = (w2 ++ s2)%string /\ RegExp.matches (RegExp.Star r1) w2 c2
               /\ k s2 ((caps ++ c1) ++ c2)%list = Some x).
    { revert H. generalize (String.length s1) at 1.
      generalize (caps ++ c1)%list as caps1.
      intros caps1 fuel. revert s1 caps1.
      induction fuel as [|fuel IHf]; intros s caps1 H.
      - exists ""%string, s, []. rewrite app_nil_r.
        repeat split; [constructor|exact H].
      - match type of H with
        | match ?m with _ => _ end = _ => destruct m as [y|] eqn:E
        end.
        + injection H as ->. apply IH1 in E.
          destruct E as [w1' [s1' [c1' [-> [M1' E]]]]].
          destruct (String.length s1' <? String.length (w1' ++ s1'))%nat;
            [|discriminate].
          apply IHf in E. destruct E as [w2 [s2 [c2 [-> [M2 E]]]]].
          exists (w1' ++ w2)%string, s2, (c1' ++ c2)%list.
          rewrite append_assoc_string, app_assoc.
          repeat split; [constructor; assumption|exact E].
        + exists ""%string, s, []. rewrite app_nil_r.
          repeat split; [constructor|exact H]. }
    destruct G as [w2 [s2 [c2 [-> [M2 G]]]]].
    exists (w1 ++ w2)%string, s2, (c1 ++ c2)%list.
    rewrite append_assoc_string, app_assoc.
    repeat split; [constructor; assumption|exact G].
  - simpl in H. apply IH1 in H. destruct H as [w [s1 [c [-> [M H]]]]].
    rewrite consumed_app in H.
    exists w, s1, (c ++ [w])%list. rewrite app_assoc.
    repeat split; [constructor; exact M|exact H].
Qed.

Lemma match_sound (r : RegExp.regex) (s : string) (caps : list string) :
  RegExp.match_ r s = Some caps ->
  exists pre w post,
    s = (pre ++ w ++ post)%string /\ RegExp.matches r w caps.
Proof.
  induction s as [|ch s IH]; cbn [RegExp.match_];
    destruct (RegExp.run r _ [] (fun _ c => Some c)) as [y|] eqn:E;
    intros H; try discriminate.
  - injection H as ->. apply run_sound in E.
    destruct E as [w [s1 [c [Hs [M E]]]]]. injection E as <-.
    exists ""%string, w, s1. split; [exact Hs|exact M].
  - injection H as ->. apply run_sound in E.
    destruct E as [w [s1 [c [Hs [M E]]]]]. injection E as <-.
    exists ""%string, w, s1. split; [exact Hs|exact M].
  - apply IH in H. destruct H as [pre [w [post [-> M]]]].
    exists (String ch pre), w, post. split; [reflexivity|exact M].
Qed.

Lemma matches_star_class (p : ascii -> bool) (w : string) (c : list string) :
  RegExp.matches (RegExp.Star (RegExp.Class p)) w c ->
  c = [] /\ all_chars p w = true.
Proof.
  intros H. remember (RegExp.Star (RegExp.Class p)) as r eqn:Er.
  induction H; try discriminate Er.
  - split; reflexivity.
  - injection Er as ->. destruct (IHmatches2 eq_refl) as [-> Hw].
    inversion H; subst. split; [reflexivity|].
    simpl. rewrite Hw. rewrite andb_true_r. assumption.
Qed.

Lemma matches_plus_class (p : ascii -> bool) (w : string) (c : list string) :
  RegExp.matches (RegExp.Plus (RegExp.Class p)) w c ->
  c = [] /\ all_chars p w = true /\ w <> ""%string.
Proof.
  intros H. inversion H as [| | | | | | |r w1 w2 c1 c2 M1 M2|]; subst.
  apply matches_star_class in M2. destruct M2 as [-> Hw].
  inversion M1; subst. simpl. rewrite Hw, andb_true_r.
  repeat split; [assumption|discriminate].
Qed.

Ltac inv_matches :=
  repeat match goal with
  | H : RegExp.matches (RegExp.Seq _ _) _ _ |- _ => inversion H; subst; clear H
  | H : RegExp.matches (RegExp.Chr _) _ _ |- _ => inversion H; subst; clear H
  | H : RegExp.matches (RegExp.Group _) _ _ |- _ => inversion H; subst; clear H
  | H : RegExp.matches (RegExp.Opt _) _ _ |- _ => inversion H; subst; clear H
  | H : RegExp.matches (RegExp.Plus (RegExp.Class _)) _ _ |- _ =>
      apply matches_plus_class in H; destruct H as [-> [? ?]]
  | H : RegExp.matches (RegExp.Star (RegExp.Class _)) _ _ |- _ =>
      apply matches_star_class in H; destruct H as [-> ?]
  end.

Lemma all_chars_app (p : ascii -> bool) (a b : string) :
  all_chars p (a ++ b) = all_chars p a && all_chars p b.
Proof.
  induction a as [|c a IH]; simpl; [reflexivity|].
  rewrite IH, andb_assoc. reflexivity.
Qed.

Lemma all_chars_impl (p q : ascii -> bool) (s : string) :
  (forall c, p c = true -> q c = true) ->
  all_chars p s = true -> all_chars q s = true.
Proof.
  intros Hpq. induction s as [|c s IH]; simpl; [reflexivity|].
  intros H. apply andb_prop in H. destruct H as [Hc Hs].
  rewrite (Hpq c Hc), (IH Hs). reflexivity.
Qed.

Lemma all_chars_both (p q : ascii -> bool) (s : string) :
  all_chars p s = true -> all_chars q s = true ->
  all_chars (fun c => p c && q c) s = true.
Proof.
  induction s as [|c s IH]; simpl; [reflexivity|].
  intros Hp Hq. apply andb_prop in Hp, Hq.
  destruct Hp as [Hp Hps], Hq as [Hq Hqs].
  rewrite Hp, Hq, (IH Hps Hqs). reflexivity.
Qed.

Lemma digit_not_space (c : ascii) :
  RegExp.digit c = true -> RegExp.space c = false.
Proof.
  destruct c as [[] [] [] [] [] [] [] []]; try discriminate; reflexivity.
Qed.

Lemma digits_nonneg (w : string) :
  forall acc : option Z,
    all_chars RegExp.digit w = true ->
    match acc with Some a => (0 <= a)%Z | None => w <> ""%string end ->
    exists z, AiRoutes.digits w acc = Some z /\ (0 <= z)%Z.
Proof.
  induction w as [|c w IH]; intros acc Hw Hacc;
    cbn [all_chars AiRoutes.digits] in *.
  - destruct acc as [a|]; [exists a; auto|contradiction].
  - apply andb_prop in Hw. destruct Hw as [Hc Hw]. rewrite Hc.
    apply IH; [exact Hw|].
    assert (0 <= Z.of_nat (nat_of_ascii c - 48))%Z by lia.
    destruct acc as [a|]; lia.
Qed.

(** The Number nearest to a non-negative integer is a non-negative
    integer, or [Infinity]. *)
Lemma nearest_number_nonneg (z : Z) :
  (0 <= z)%Z ->
  AiRoutes.nearest_number z = PInf
  \/ exists v, AiRoutes.nearest_number z = of_Z v /\ (0 <= v)%Z.
Proof.
  intros Hz. unfold AiRoutes.nearest_number.
  destruct (z <? 2 ^ 53)%Z; [right; exists z; auto|].
  set (e := (Z.log2 z - 52)%Z).
  set (m := if (Z.land z (Z.ones e) <? Z.shiftl 1 (e - 1))%Z
            then Z.shiftr z e
            else if (Z.shiftl 1 (e - 1) <? Z.land z (Z.ones e))%Z
                 then (Z.shiftr z e + 1)%Z
                 else if Z.even (Z.shiftr z e)
                      then Z.shiftr z e else (Z.shiftr z e + 1)%Z).
  destruct (2 ^ 1024 <=? Z.shiftl m e)%Z; [left; reflexivity|].
  right. exists (Z.shiftl m e). split; [reflexivity|].
  apply Z.shiftl_nonneg.
  assert (0 <= Z.shiftr z e)%Z by (apply Z.shiftr_nonneg; exact Hz).
  unfold m.
  destruct (_ <? _)%Z; [assumption|].
  destruct (_ <? _)%Z; [lia|].
  destruct (Z.even _); lia.
Qed.

(** [parseInt] of a run of digits is a non-negative integer, or
    [Infinity] when the run is too long for a Number. *)
Lemma parseInt_digits (w : string) :
  all_chars RegExp.digit w = true -> w <> ""%string ->
  AiRoutes.parseInt w = PInf
  \/ exists z, AiRoutes.parseInt w = of_Z z /\ (0 <= z)%Z.
Proof.
  intros Hw Hne. destruct w as [|c w]; [contradiction|].
  pose proof Hw as Hw'. simpl in Hw'. apply andb_prop in Hw'.
  destruct Hw' as [Hc _].
  destruct (digits_nonneg (String c w) None Hw Hne) as [z [Ez Hz]].
  assert (E : AiRoutes.parseInt (String c w) = AiRoutes.nearest_number z).
  { unfold AiRoutes.parseInt. cbn [AiRoutes.skip_space].
    rewrite (digit_not_space c Hc).
    destruct c as [[] [] [] [] [] [] [] []]; try discriminate Hc;
      rewrite Ez; reflexivity. }
  rewrite E. exact (nearest_number_nonneg z Hz).
Qed.

Lemma lower_char_not_upper (c : ascii) :
  RegExp.between 65 90 (lower_char c) = false.
Proof. destruct c as [[] [] [] [] [] [] [] []]; reflexivity. Qed.

Lemma toLowerCase_not_upper (s : string) :
  all_chars (fun c => negb (RegExp.between 65 90 c)) (toLowerCase s) = true.
Proof.
  induction s as [|c s IH]; simpl; [reflexivity|].
  rewrite lower_char_not_upper, IH. reflexivity.
Qed.

Lemma skip_space_chars (p : ascii -> bool) (s : string) :
  all_chars p s = true -> all_chars p (AiRoutes.skip_space s) = true.
Proof.
  induction s as [|c s IH]; simpl; [reflexivity|].
  intros H. destruct (RegExp.space c); [|exact H].
  apply andb_prop in H. apply IH. exact (proj2 H).
Qed.

Lemma trim_end_chars (p : ascii -> bool) (s : string) :
  all_chars p s = true -> all_chars p (AiRoutes.trim_end s) = true.
Proof.
  induction s as [|c s IH]; simpl; [reflexivity|].
  intros H. apply andb_prop in H. destruct H as [Hc Hs].
  specialize (IH Hs). destruct (AiRoutes.trim_end s) as [|d t].
  - destruct (RegExp.space c); simpl; [reflexivity|].
    rewrite Hc. reflexivity.
  - simpl in *. rewrite Hc. exact IH.
Qed.

(** *** The natural-language parser and its database query *)

Lemma all_chars_part (p : ascii -> bool) (pre w post : string) :
  all_chars p (pre ++ w ++ post) = true -> all_chars p w = true.
Proof.
  rewrite !all_chars_app. intros H.
  apply andb_prop in H. destruct H as [_ H].
  apply andb_prop in H. exact (proj1 H).
Qed.

Lemma parse_maxRent_count (query : string) (n : num) :
  (AiRoutes.parseNaturalLanguageQuery query).(AiRoutes.maxRent) = Some n ->
  Coverage.count_from 0 n.
Proof.
  cbn [AiRoutes.parseNaturalLanguageQuery AiRoutes.maxRent].
  destruct (RegExp.match_ AiRoutes.price_pattern (toLowerCase query))
    as [caps|] eqn:E; [|discriminate].
  cbn [option_map]. intros H. injection H as <-.
  apply match_sound in E. destruct E as [pre [w [post [_ M]]]].
  unfold AiRoutes.price_pattern in M. cbn [RegExp.literal] in M.
  inv_matches; cbn [app RegExp.group1 nth];
    apply parseInt_digits; assumption.
Qed.

Lemma parse_bedrooms_count (query : string) (n : num) :
  (AiRoutes.parseNaturalLanguageQuery query).(AiRoutes.f_bedrooms) = Some n ->
  Coverage.count_from 0 n.
Proof.
  cbn [AiRoutes.parseNaturalLanguageQuery AiRoutes.f_bedrooms].
  destruct (RegExp.match_ AiRoutes.bedroom_pattern (toLowerCase query))
    as [caps|] eqn:E; [|discriminate].
  cbn [option_map]. intros H. injection H as <-.
  apply match_sound in E. destruct E as [pre [w [post [_ M]]]].
  unfold AiRoutes.bedroom_pattern in M.
  inv_matches; cbn [app RegExp.group1 nth];
    apply parseInt_digits; assumption.
Qed.

Lemma lower_letter_or_space (c : ascii) :
  RegExp.letter_or_space c && negb (RegExp.between 65 90 c) = true ->
  Coverage.lower_or_space c = true.
Proof.
  unfold RegExp.letter_or_space, Coverage.lower_or_space.
  destruct (RegExp.between 97 122 c), (RegExp.between 65 90 c),
    (RegExp.space c); simpl; congruence.
Qed.

Lemma parse_city_chars (query c : string) :
  (AiRoutes.parseNaturalLanguageQuery query).(AiRoutes.city) = Some c ->
  all_chars Coverage.lower_or_space c = true.
Proof.
  cbn [AiRoutes.parseNaturalLanguageQuery AiRoutes.city].
  destruct (RegExp.match_ AiRoutes.location_pattern (toLowerCase query))
    as [caps|] eqn:E; [|discriminate].
  cbn [option_map]. intros H. injection H as <-.
  apply match_sound in E. destruct E as [pre [w [post [Hs M]]]].
  pose proof (toLowerCase_not_upper query) as Hlow. rewrite Hs in Hlow.
  apply all_chars_part in Hlow.
  unfold AiRoutes.location_pattern in M.
  inv_matches. cbn [app RegExp.group1 nth].
  unfold AiRoutes.trim. apply trim_end_chars, skip_space_chars.
  cbn [String.append] in Hlow. cbn [all_chars] in Hlow.
  repeat (apply andb_prop in Hlow; destruct Hlow as [_ Hlow]).
  apply (all_chars_impl _ _ _ lower_letter_or_space).
  apply all_chars_both; assumption.
Qed.

(** X1.  Whatever the query, the filters read by
    [parseNaturalLanguageQuery] are well formed: [maxRent] and [bedrooms],
    when set, are non-negative integers or [Infinity] (never [NaN], and
    [Infinity] only for a run of digits too long for a Number, as for 400
    nines), and [city], when set, consists of lower-case letters and white
    space only. *)
Theorem parsed_filters_well_formed (query : string) :
  let filters := AiRoutes.parseNaturalLanguageQuery query in
  (forall n, filters.(AiRoutes.maxRent) = Some n ->
             Coverage.count_from 0 n)
  /\ (forall n, filters.(AiRoutes.f_bedrooms) = Some n ->
                Coverage.count_from 0 n)
  /\ (forall c, filters.(AiRoutes.city) = Some c ->
                all_chars Coverage.lower_or_space c = true)
  /\ (AiRoutes.parseNaturalLanguageQuery
        ("under $" ++ Coverage.repeat_char "9" 400)).(AiRoutes.maxRent)
     = Some PInf.
Proof.
  cbv zeta. split; [|split; [|split]].
  - intros n. apply parse_maxRent_count.
  - intros n. apply parse_bedrooms_count.
  - intros c. apply parse_city_chars.
  - vm_compute. reflexivity.
Qed.

Lemma present_count (o : option num) (n : num) :
  o = Some n -> Coverage.count_from 0 n -> Models.present o = true ->
  Coverage.count_from 1 n.
Proof.
  intros -> [-> | [z [-> Hz]]] Hp; [left; reflexivity|].
  right. exists z. split; [reflexivity|].
  cbn [Models.present of_Z truthy] in Hp.
  destruct (Z.eq_dec z 0) as [->|Hne]; [discriminate|]. lia.
Qed.

(** X2.  The database query of the natural-language search always asks
    for active listings, and a criterion it carries is usable: the rent
    ceiling and the number of bedrooms are integers of at least one or
    [Infinity] (a parsed zero is dropped), and the city is a non-empty text
    of lower-case letters and white space, hence free of pattern operators
    when it is compiled to a regular expression. *)
Theorem natural_search_query_criteria (query : string) :
  let q := AiHelpers.buildMongoQuery
             (AiRoutes.parseNaturalLanguageQuery query) in
  q.(AiHelpers.q_status) = "active"
  /\ (forall n, q.(AiHelpers.q_rent_lte) = Some n ->
                Coverage.count_from 1 n)
  /\ (forall n, q.(AiHelpers.q_bedrooms) = Some n ->
                Coverage.count_from 1 n)
  /\ (forall c, q.(AiHelpers.q_city) = Some c ->
                c <> "" /\ all_chars Coverage.lower_or_space c = true).
Proof.
  cbv zeta. split; [reflexivity|]. split; [|split].
  - intros n. cbn [AiHelpers.buildMongoQuery AiHelpers.q_rent_lte].
    destruct (Models.present _) eqn:Ep; [|discriminate].
    intros H.
    exact (present_count _ n H (parse_maxRent_count query n H) Ep).
  - intros n. cbn [AiHelpers.buildMongoQuery AiHelpers.q_bedrooms].
    destruct (Models.present _) eqn:Ep; [|discriminate].
    intros H.
    exact (present_count _ n H (parse_bedrooms_count query n H) Ep).
  - intros c. cbn [AiHelpers.buildMongoQuery AiHelpers.q_city].
    destruct (AiRoutes.city _) as [c'|] eqn:Ec; [|discriminate].
    destruct (String.eqb_spec c' "") as [->|Hne]; [discriminate|].
    intros H. injection H as <-. split; [exact Hne|].
    exact (parse_city_chars query c' Ec).
Qed.

(** *** Comparisons of finite numbers *)

Lemma lt_Fin (a b : Q) : lt (Fin a) (Fin b) = true <-> a < b.
Proof.
  unfold lt. rewrite cmp_Fin. rewrite Qlt_alt.
  destruct (a ?= b); split; intros H; congruence.
Qed.

Lemma le_Fin (a b : Q) : le (Fin a) (Fin b) = true <-> a <= b.
Proof.
  unfold le. rewrite cmp_Fin. rewrite Qle_alt.
  destruct (a ?= b); split; intros H; congruence.
Qed.

Lemma lt_Fin_false (a b : Q) : lt (Fin a) (Fin b) = false <-> b <= a.
Proof.
  pose proof (lt_Fin a b) as H.
  destruct (lt (Fin a) (Fin b)); split; intros G; try discriminate.
  - apply Qlt_not_le in G; [contradiction|]. apply H. reflexivity.
  - apply Qnot_lt_le. intros L. apply H in L. discriminate.
  - reflexivity.
Qed.

Lemma of_Z_lt (a b : Z) : lt (of_Z a) (of_Z b) = true <-> (a < b)%Z.
Proof. unfold of_Z. rewrite lt_Fin, <- Zlt_Qlt. reflexivity. Qed.

(** *** Preferences read from a chat message *)

Ltac inv_all_matches :=
  repeat match goal with
  | H : RegExp.matches (RegExp.Seq _ _) _ _ |- _ => inversion H; subst; clear H
  | H : RegExp.matches (RegExp.Chr _) _ _ |- _ => inversion H; subst; clear H
  | H : RegExp.matches (RegExp.Class _) _ _ |- _ => inversion H; subst; clear H
  | H : RegExp.matches (RegExp.Group _) _ _ |- _ => inversion H; subst; clear H
  | H : RegExp.matches (RegExp.Opt _) _ _ |- _ => inversion H; subst; clear H
  end.

Lemma budget_amount_count (w : string) (caps : list string) :
  RegExp.matches AiHelpers.budget_pattern w caps ->
  Coverage.count_from
    0 (AiRoutes.parseInt (RegExp.group1 caps ++ RegExp.group2 caps)).
Proof.
  intros M.
  unfold AiHelpers.budget_pattern, AiHelpers.one_to_four_digits,
    AiHelpers.three_digits in M.
  inv_all_matches;
    cbn [app RegExp.group1 RegExp.group2 nth String.append];
    (apply parseInt_digits; [|discriminate]);
    cbn [all_chars];
    repeat match goal with
           | H : RegExp.digit _ = true |- _ => rewrite H; clear H
           end;
    reflexivity.
Qed.

(** X3.  Whatever the message, the preferences read from it by
    [extractPreferencesFromText] are well formed: a budget has a ceiling
    only, an integer strictly between 500 and 10000, and a bedroom
    preference has a floor only, a non-negative integer or [Infinity] (for
    a run of digits too long for a Number). *)
Theorem extracted_preferences_well_formed (text : string) :
  let prefs := AiHelpers.extractPreferencesFromText text in
  (forall b, prefs.(AiHelpers.e_budget) = Some b ->
             b.(Models.min) = None
             /\ exists z, b.(Models.max) = Some (of_Z z)
                          /\ (500 < z < 10000)%Z)
  /\ (forall b, prefs.(AiHelpers.e_bedrooms) = Some b ->
                b.(Models.max) = None
                /\ exists n, b.(Models.min) = Some n
                             /\ Coverage.count_from 0 n).
Proof.
  cbv zeta. split.
  - intros b.
    cbn [AiHelpers.extractPreferencesFromText AiHelpers.e_budget].
    destruct (RegExp.match_ AiHelpers.budget_pattern (toLowerCase text))
      as [caps|] eqn:E; [|discriminate].
    apply match_sound in E. destruct E as [pre [w [post [_ M]]]].
    destruct (budget_amount_count w caps M) as [-> | [z [-> Hz]]];
      [cbn; discriminate|].
    destruct (gt (of_Z z) (Fin 500)) eqn:Elo; [|discriminate].
    destruct (lt (of_Z z) (Fin 10000)) eqn:Ehi; [|discriminate].
    cbn [andb]. intros H. injection H as <-.
    split; [reflexivity|]. exists z. split; [reflexivity|].
    split.
    + apply (of_Z_lt 500 z). exact Elo.
    + apply (of_Z_lt z 10000). exact Ehi.
  - intros b.
    cbn [AiHelpers.extractPreferencesFromText AiHelpers.e_bedrooms].
    destruct (RegExp.match_ AiRoutes.bedroom_pattern (toLowerCase text))
      as [caps|] eqn:E; [|discriminate].
    cbn [option_map]. intros H. injection H as <-.
    split; [reflexivity|].
    apply match_sound in E. destruct E as [pre [w [post [_ M]]]].
    unfold AiRoutes.bedroom_pattern in M. inv_matches.
    cbn [app RegExp.group1 nth Models.min].
    eexists. split; [reflexivity|].
    apply parseInt_digits; assumption.
Qed.

(** *** The two scores *)

Lemma min2_Fin (a b : Q) :
  exists q, Math.min2 (Fin a) (Fin b) = Fin q
            /\ q <= a /\ q <= b /\ (q = a \/ q = b).
Proof.
  unfold Math.min2, cmp. destruct (a ?= b) eqn:E.
  - apply Qeq_alt in E. exists a. repeat split; auto; lra.
  - apply Qlt_alt in E. exists a. repeat split; auto; lra.
  - apply Qgt_alt in E. exists b. repeat split; auto; lra.
Qed.

Lemma length_num_nonneg {A} (l : list A) :
  exists q, Models.length_num l = Fin q /\ 0 <= q
            /\ (l <> [] -> 0 < q).
Proof.
  exists (inject_Z (Z.of_nat (length l))). split; [reflexivity|].
  split.
  - change 0 with (inject_Z 0). rewrite <- Zle_Qle. lia.
  - intros Hne. change 0 with (inject_Z 0). rewrite <- Zlt_Qlt.
    destruct l; [contradiction|]. simpl. lia.
Qed.

Lemma budget_match_range property userPrefs :
  exists q, AiRoutes.budget_match property userPrefs = Fin q /\ 0 <= q <= 30.
Proof.
  unfold AiRoutes.budget_match.
  destruct (AiRoutes.budget userPrefs) as [b|];
    [destruct (Models.present _);
     [destruct (le _ _)|]|];
    eexists; (split; [reflexivity|lra]).
Qed.

Lemma bedroom_match_range property userPrefs :
  exists q, AiRoutes.bedroom_match property userPrefs = Fin q /\ 0 <= q <= 25.
Proof.
  unfold AiRoutes.bedroom_match.
  destruct (AiRoutes.p_bedrooms userPrefs) as [b|];
    [destruct (Models.present _);
     [destruct (ge _ _)|]|];
    eexists; (split; [reflexivity|lra]).
Qed.

Lemma amenity_matches_range property userPrefs :
  exists q, AiRoutes.amenity_matches property userPrefs = Fin q /\ 0 <= q.
Proof.
  unfold AiRoutes.amenity_matches.
  destruct (AiRoutes.p_amenities userPrefs) as [wanted|].
  - destruct (length_num_nonneg
                (filter (Models.includes (Models.amenities property)) wanted))
      as [n [-> [Hn _]]].
    cbn [mul]. eexists. split; [reflexivity|lra].
  - exists 0. split; [reflexivity|lra].
Qed.

(** X4.  The personalized score of the AI routes is always a number
    between 0 and 100, whatever the listing and the preferences hold (also
    with absent or [NaN] rent, bedrooms or budget): unlike the smart score
    it is never [NaN]. *)
Theorem personalized_score_in_range property userPrefs :
  Contracts.in_0_100 (AiRoutes.calculatePersonalizedScore property userPrefs).
Proof.
  unfold AiRoutes.calculatePersonalizedScore.
  destruct (budget_match_range property userPrefs) as [b [-> Hb]].
  destruct (bedroom_match_range property userPrefs) as [d [-> Hd]].
  destruct (amenity_matches_range property userPrefs) as [a [-> Ha]].
  cbn [add].
  destruct (min2_Fin (0 + b + d + a) 100) as [q [-> [H1 [H2 H3]]]].
  exists q. split; [reflexivity|].
  destruct H3 as [-> | ->]; lra.
Qed.

Lemma price_term_finite property preferences :
  Coverage.budget_usable property preferences ->
  exists q, SearchRoutes.price_term property preferences = Fin q.
Proof.
  unfold Coverage.budget_usable, SearchRoutes.price_term.
  destruct (SearchRoutes.budget preferences) as [b|];
    [|intros _; eexists; reflexivity].
  intros [r [lo [hi [-> [-> [-> [_ [_ [_ Hsum]]]]]]]]].
  assert (Hne : ~ lo + hi == 0).
  { intros E. rewrite E in Hsum. revert Hsum. apply Qlt_not_le.
    reflexivity. }
  cbn [Models.number add div].
  change (Qeq_bool 2 0) with false. cbn iota.
  cbn [sub neg add Math.abs div].
  destruct (Qeq_bool ((lo + hi) / 2) 0) eqn:E.
  - exfalso. apply Qeq_bool_eq in E. apply Hne.
    setoid_replace (lo + hi) with ((lo + hi) / 2 * 2) by field.
    rewrite E. reflexivity.
  - cbn [sub neg add mul]. eexists. reflexivity.
Qed.

Lemma amenity_term_finite property preferences :
  exists q, SearchRoutes.amenity_term property preferences = Fin q.
Proof.
  unfold SearchRoutes.amenity_term.
  destruct (SearchRoutes.p_amenities preferences) as [wanted|];
    [|eexists; reflexivity].
  destruct (0 <? length wanted)%nat eqn:E; [|eexists; reflexivity].
  apply Nat.ltb_lt in E.
  destruct (length_num_nonneg wanted) as [n [-> [_ Hn]]].
  destruct (length_num_nonneg
              (filter (Models.includes wanted) (Models.amenities property)))
    as [m [-> _]].
  assert (Hpos : 0 < n).
  { apply Hn. destruct wanted; [simpl in E; lia|discriminate]. }
  cbn [div].
  destruct (Qeq_bool n 0) eqn:En.
  - apply Qeq_bool_eq in En. exfalso. lra.
  - cbn [mul]. eexists. reflexivity.
Qed.

Lemma market_term_finite property marketData :
  exists q, SearchRoutes.market_term property marketData = Fin q.
Proof.
  unfold SearchRoutes.market_term.
  repeat match goal with
         | |- context [if ?b then _ else _] => destruct b
         end; eexists; reflexivity.
Qed.

Lemma quality_term_finite property :
  exists q, SearchRoutes.quality_term property = Fin q.
Proof.
  unfold SearchRoutes.quality_term.
  repeat match goal with
         | |- context [if ?b then _ else _] => destruct b
         end; eexists; reflexivity.
Qed.

(** X5.  The smart score is a number between 0 and 100 whenever the
    listing has a finite view count and the budget of the preferences, if
    any, is usable: the floor, the ceiling and the rent are of ordinary
    size (at most 10^15 in absolute value) and the floor and the ceiling
    add up to at least 10^-15 in absolute value.  The amenities, sizes,
    years and market averages may be anything. *)
Theorem smart_score_is_number property preferences marketData (v : Q)
        (Hviews : property.(Models.views) = Some (Fin v))
        (Hbudget : Coverage.budget_usable property preferences) :
  Contracts.in_0_100
    (SearchRoutes.calculateSmartScore property preferences marketData).
Proof.
  unfold SearchRoutes.calculateSmartScore.
  destruct (price_term_finite property preferences Hbudget) as [p ->].
  destruct (amenity_term_finite property preferences) as [a ->].
  destruct (market_term_finite property marketData) as [m ->].
  destruct (quality_term_finite property) as [u ->].
  unfold SearchRoutes.popularity_term. rewrite Hviews.
  cbn [Models.number div]. change (Qeq_bool 50 0) with false. cbn iota.
  destruct (min2_Fin 10 (v / 50)) as [w [-> _]].
  cbn [add].
  destruct (clamp_range (Fin (50 + p + a + m + u + w))) as [H|H];
    [|exact H].
  exfalso.
  destruct (max2_Fin 0 (50 + p + a + m + u + w)) as [x [Ex _]].
  rewrite Ex in H.
  destruct (min2_Fin 100 x) as [y [Ey _]].
  rewrite Ey in H. discriminate.
Qed.

Lemma smart_score_is_number_witness :
  Contracts.in_0_100
    (SearchRoutes.calculateSmartScore
       (Samples.listing 1 1800 (Some (Fin 40)))
       Samples.with_budget Samples.market).
Proof.
  apply (smart_score_is_number _ _ _ 40).
  - reflexivity.
  - exists 1800, 1000, 2000.
    repeat split; apply Qle_bool_imp_le; reflexivity.
Defined.

(** *** The rent price calculator and the pricing analysis *)

(** X6.  The rent price calculator is sound on well-formed input: when
    the categorical fields are strings or absent and name no inherited
    object member, the numeric fields are well formed and the area is of
    ordinary size (at most 10^15 sq ft), it returns an estimate whose total
    is an integer of at least 3150 and whose price range brackets the total
    from zero upwards. *)
Theorem rent_price_sound (p : P.Property)
        (Hcat : Contracts.categorical_strings p = true)
        (Hplain : Contracts.plain_keys p = true)
        (Hnum : Contracts.numeric_well_formed p = true)
        (Harea : Coverage.ordinary_area p) :
  exists est lo t hi,
    P.calculateRentPrice p = Normal est
    /\ est.(P.totalPrice) = of_Z t
    /\ est.(P.priceRange).(P.min) = of_Z lo
    /\ est.(P.priceRange).(P.max) = of_Z hi
    /\ (0 <= lo <= t)%Z /\ (t <= hi)%Z /\ (3150 <= t)%Z.
Proof.
  destruct (rent_price_on_plain_keys p Hcat Hplain Hnum)
    as [est [T [lo [t [hi [H1 [_ [H2 [H3 [H4 [_ [_ [_ H5]]]]]]]]]]]]].
  exists est, lo, t, hi. auto.
Qed.

Lemma rent_price_sound_witness :
  exists est lo t hi,
    P.calculateRentPrice Samples.atlantis_flat = Normal est
    /\ est.(P.totalPrice) = of_Z t
    /\ est.(P.priceRange).(P.min) = of_Z lo
    /\ est.(P.priceRange).(P.max) = of_Z hi
    /\ (0 <= lo <= t)%Z /\ (t <= hi)%Z /\ (3150 <= t)%Z.
Proof.
  apply (rent_price_sound Samples.atlantis_flat);
    first [reflexivity | exact I].
Defined.

Lemma ratio_above (c rent average : Q) :
  0 < average -> (c < rent / average <-> c * average < rent).
Proof.
  intros Ha.
  assert (E : rent / average * average == rent) by (field; lra).
  rewrite <- E at 2. symmetry. apply Qmult_lt_r. exact Ha.
Qed.

Lemma ratio_below (c rent average : Q) :
  0 < average -> (rent / average < c <-> rent < c * average).
Proof.
  intros Ha.
  assert (E : rent / average * average == rent) by (field; lra).
  rewrite <- E at 2. symmetry. apply Qmult_lt_r. exact Ha.
Qed.

Lemma ratio_not_above (c rent average : Q) :
  0 < average -> (rent / average <= c <-> rent <= c * average).
Proof.
  intros Ha.
  assert (E : rent / average * average == rent) by (field; lra).
  rewrite <- E at 2. symmetry. apply Qmult_le_r. exact Ha.
Qed.

Lemma ratio_not_below (c rent average : Q) :
  0 < average -> (c <= rent / average <-> c * average <= rent).
Proof.
  intros Ha.
  assert (E : rent / average * average == rent) by (field; lra).
  rewrite <- E at 2. symmetry. apply Qmult_le_r. exact Ha.
Qed.

Lemma positive_not_zero (q : Q) : 0 < q -> Qeq_bool q 0 = false.
Proof.
  intros H. destruct (Qeq_bool q 0) eqn:E; [|reflexivity].
  apply Qeq_bool_eq in E. exfalso. lra.
Qed.

(** The position, from which side of each threshold the rent lies. *)
Lemma market_position_cases (rent average : Q) :
  0 < average ->
  let position := AiHelpers.getMarketPosition (Fin rent) (Fin average) in
  (1.15 * average < rent /\ position = "premium")
  \/ (1.05 * average < rent <= 1.15 * average /\ position = "above-average")
  \/ (0.95 * average <= rent <= 1.05 * average /\ position = "market-rate")
  \/ (0.85 * average <= rent < 0.95 * average /\ position = "below-average")
  \/ (rent < 0.85 * average /\ position = "budget").
Proof.
  intros Ha. cbv zeta. unfold AiHelpers.getMarketPosition, gt.
  cbn [div]. rewrite (positive_not_zero average Ha).
  destruct (lt (Fin 1.15) (Fin (rent / average))) eqn:E1.
  { apply lt_Fin, ratio_above in E1; [|exact Ha]. left. auto. }
  apply lt_Fin_false, ratio_not_above in E1; [|exact Ha].
  destruct (lt (Fin 1.05) (Fin (rent / average))) eqn:E2.
  { apply lt_Fin, ratio_above in E2; [|exact Ha]. right. left. auto. }
  apply lt_Fin_false, ratio_not_above in E2; [|exact Ha].
  destruct (lt (Fin (rent / average)) (Fin 0.85)) eqn:E3.
  { apply lt_Fin, ratio_below in E3; [|exact Ha].
    right. right. right. right. auto. }
  apply lt_Fin_false, ratio_not_below in E3; [|exact Ha].
  destruct (lt (Fin (rent / average)) (Fin 0.95)) eqn:E4.
  { apply lt_Fin, ratio_below in E4; [|exact Ha].
    right. right. right. left. auto. }
  apply lt_Fin_false, ratio_not_below in E4; [|exact Ha].
  right. right. left. auto.
Qed.

(** X7.  [getMarketPosition] places a rent by its ratio to a positive
    average: "premium" above 115 percent, "above-average" above 105,
    "market-rate" from 95 to 105 inclusive, "below-average" from 85 up to
    95, and "budget" below 85 percent.  When the average is not a number
    the position is "market-rate", whatever the rent. *)
Theorem market_position_bands (rent average : Q) (Haverage : 0 < average) :
  let position := AiHelpers.getMarketPosition (Fin rent) (Fin average) in
  (position = "premium" <-> 1.15 * average < rent)
  /\ (position = "above-average"
      <-> 1.05 * average < rent <= 1.15 * average)
  /\ (position = "market-rate"
      <-> 0.95 * average <= rent <= 1.05 * average)
  /\ (position = "below-average"
      <-> 0.85 * average <= rent < 0.95 * average)
  /\ (position = "budget" <-> rent < 0.85 * average)
  /\ (forall r : num, AiHelpers.getMarketPosition r NaN = "market-rate").
Proof.
  cbv zeta.
  pose proof (market_position_cases rent average Haverage) as H.
  cbv zeta in H.
  split; [|split; [|split; [|split; [|split]]]];
    try (destruct H as [[H ->]|[[H ->]|[[H ->]|[[H ->]|[H ->]]]]];
         split; intros G; try discriminate G; try reflexivity;
         try (exfalso; lra); lra).
  intros r. destruct r; reflexivity.
Qed.

Lemma market_position_bands_witness :
  AiHelpers.getMarketPosition (Fin 40000) (Fin 35000) = "above-average"
  <-> 1.05 * 35000 < 40000 <= 1.15 * 35000.
Proof.
  refine (proj1 (proj2 (market_position_bands 40000 35000 _))).
  reflexivity.
Defined.

(** X8.  The pricing analysis route, on well-formed input with an area
    of ordinary size (at most 10^15 sq ft) whose property type has no
    entry among the market trends (any type other than "apartment",
    "house", "villa" and "studio" in lower case, or none at all): the route
    succeeds, the recommended price is an integer of at least 3150, the
    average rent it reports is that price times 1.1, and the market
    position is therefore always "below-average". *)
Theorem pricing_position_without_trend (propertyData : P.Property)
        (k : string)
        (Hkey : AiHelpers.property_key propertyData.(P.propertyType)
                = Some k)
        (Hown : own AiHelpers.trends_averageRent k = None)
        (Hinh : inherited k = false)
        (Hcat : Contracts.categorical_strings
                  (AiHelpers.request_property propertyData) = true)
        (Hplain : Contracts.plain_keys
                    (AiHelpers.request_property propertyData) = true)
        (Hnum : Contracts.numeric_well_formed
                  (AiHelpers.request_property propertyData) = true)
        (Harea : Coverage.ordinary_area
                   (AiHelpers.request_property propertyData)) :
  let response := AiHelpers.pricingAnalysis propertyData in
  response.(AiHelpers.success) = true
  /\ response.(AiHelpers.marketPosition) = "below-average"
  /\ exists z,
       response.(AiHelpers.recommendedPrice) = of_Z z
       /\ (3150 <= z)%Z
       /\ response.(AiHelpers.insight_averageRent)
          = Number (mul (of_Z z) (Fin 1.1)).
Proof.
  cbv zeta.
  destruct (rent_price_on_plain_keys _ Hcat Hplain Hnum)
    as [est [T [lo [t [hi [H1 [_ [H2 [_ [_ [_ [_ [_ [_ [_ H5]]]]]]]]]]]]]]].
  unfold AiHelpers.pricingAnalysis. rewrite H1.
  cbn [AiHelpers.success AiHelpers.marketPosition AiHelpers.recommendedPrice
       AiHelpers.insight_averageRent].
  unfold AiHelpers.trend_average_or. rewrite Hkey, Hown, Hinh, H2.
  cbn [toNumber].
  split; [reflexivity|]. split.
  - assert (Hz : 3150 <= inject_Z t)
      by (change 3150 with (inject_Z 3150); rewrite <- Zle_Qle; exact H5).
    cbn [of_Z mul].
    destruct (market_position_cases (inject_Z t) (inject_Z t * 1.1))
      as [[H _]|[[H _]|[[H _]|[[_ E]|[H _]]]]];
      try lra.
    exact E.
  - exists t. repeat split. exact H5.
Qed.

Lemma pricing_position_without_trend_witness :
  (AiHelpers.pricingAnalysis Samples.atlantis_flat).(AiHelpers.marketPosition)
  = "below-average".
Proof.
  refine (proj1 (proj2 (pricing_position_without_trend
                          Samples.atlantis_flat "igloo" _ _ _ _ _ _ _)));
    first [reflexivity | apply Qle_bool_imp_le; reflexivity].
Defined.

(** *** The cost analysis *)

Lemma floor_bounds (x : Q) :
  inject_Z (Qfloor x) <= x /\ x < inject_Z (Qfloor x) + 1.
Proof.
  split; [apply Qfloor_le|].
  pose proof (Qlt_floor x) as H.
  rewrite inject_Z_plus in H. exact H.
Qed.

(** X9.  The affordability rating of the cost analysis is an integer
    from 1 to 5 fixed by the total monthly cost (rent, utilities and
    commute, all finite): 5 below 1500, 4 from 1500, 3 from 2000, 2 from
    2500, and 1 from 3000 upwards. *)
Theorem affordability_rating_bands (data : AiHelpers.CostData) (r u c : Q)
        (Hrent : data.(AiHelpers.d_rent) = Fin r)
        (Hutilities : data.(AiHelpers.d_utilities) = Fin u)
        (Hcommute : data.(AiHelpers.d_commuteCost) = Fin c) :
  let total := r + u + c in
  exists k : Z,
    num_eq (AiHelpers.generateCostAnalysis data).(AiHelpers.affordability_rating)
           (of_Z k)
    /\ (1 <= k <= 5)%Z
    /\ (k = 5%Z <-> total < 1500)
    /\ (k = 4%Z <-> 1500 <= total < 2000)
    /\ (k = 3%Z <-> 2000 <= total < 2500)
    /\ (k = 2%Z <-> 2500 <= total < 3000)
    /\ (k = 1%Z <-> 3000 <= total).
Proof.
  cbv zeta.
  cbn [AiHelpers.generateCostAnalysis AiHelpers.affordability_rating].
  rewrite Hrent, Hutilities, Hcommute.
  cbn [add sub neg div]. change (Qeq_bool 500 0) with false. cbn iota.
  cbn [Math.floor of_Z add sub neg].
  set (x := (r + u + c + - (1000)) / 500).
  assert (Hx : x * 500 == r + u + c - 1000) by (unfold x; field).
  destruct (floor_bounds x) as [Hlo Hhi].
  set (f := Qfloor x) in *. clearbody f. clearbody x.
  destruct (max2_Fin 1 (5 + - inject_Z f)) as [m [-> [Hm1 [Hm2 Hm3]]]].
  destruct (min2_Fin 5 m) as [q [-> [Hq1 [Hq2 Hq3]]]].
  cbn [num_eq].
  destruct (Z_le_gt_dec f 0) as [F0|F0].
  { assert (inject_Z f <= 0)
      by (change 0 with (inject_Z 0); rewrite <- Zle_Qle; exact F0).
    exists 5%Z. cbn [of_Z]. split.
    - destruct Hm3 as [-> | ->]; destruct Hq3 as [-> | ->];
        change (inject_Z 5) with 5; lra.
    - intuition (first [lia | lra | (exfalso; lra)]). }
  destruct (Z_le_gt_dec 4 f) as [F4|F4].
  { assert (4 <= inject_Z f)
      by (change 4 with (inject_Z 4); rewrite <- Zle_Qle; exact F4).
    exists 1%Z. cbn [of_Z]. split.
    - destruct Hm3 as [-> | ->]; destruct Hq3 as [-> | ->];
        change (inject_Z 1) with 1; lra.
    - intuition (first [lia | lra | (exfalso; lra)]). }
  assert (Hf : f = 1%Z \/ f = 2%Z \/ f = 3%Z) by lia.
  destruct Hf as [Hf | [Hf | Hf]];
    [exists 4%Z; assert (Hf' : inject_Z f == 1) by (rewrite Hf; reflexivity);
     cbn [of_Z]; change (inject_Z 4) with 4
    |exists 3%Z; assert (Hf' : inject_Z f == 2) by (rewrite Hf; reflexivity);
     cbn [of_Z]; change (inject_Z 3) with 3
    |exists 2%Z; assert (Hf' : inject_Z f == 3) by (rewrite Hf; reflexivity);
     cbn [of_Z]; change (inject_Z 2) with 2];
    clear Hf F0 F4;
    (split;
     [destruct Hm3 as [-> | ->]; destruct Hq3 as [-> | ->]; lra
     |intuition (first [lia | lra | (exfalso; lra)]) ]).
Qed.

Lemma affordability_rating_bands_witness :
  exists k : Z,
    num_eq (AiHelpers.generateCostAnalysis Coverage.cost_data)
             .(AiHelpers.affordability_rating)
           (of_Z k)
    /\ (1 <= k <= 5)%Z
    /\ (k = 5%Z <-> 1800 + 150 + 0 < 1500)
    /\ (k = 4%Z <-> 1500 <= 1800 + 150 + 0 < 2000)
    /\ (k = 3%Z <-> 2000 <= 1800 + 150 + 0 < 2500)
    /\ (k = 2%Z <-> 2500 <= 1800 + 150 + 0 < 3000)
    /\ (k = 1%Z <-> 3000 <= 1800 + 150 + 0).
Proof.
  apply (affordability_rating_bands Coverage.cost_data 1800 150 0);
    reflexivity.
Defined.

Lemma route_market_averageRent (random : nat -> Q) (isoNow : string)
      (property : Models.Listing) (q : Q) :
  property.(Models.rent) = Some (Fin q) -> 0 < q ->
  field "averageRent" (AiRoutes.getMarketData random isoNow property)
  = Some (DNum (of_Z (Qfloor (q * (0.9 + random 0%nat * 0.2) + (1 # 2))))).
Proof.
  intros Hrent Hq. unfold AiRoutes.getMarketData. rewrite Hrent.
  cbn [Models.present Models.number truthy].
  rewrite (positive_not_zero q Hq). reflexivity.
Qed.

(** The value score of the cost analysis route exceeds 4.5. *)
Lemma cost_value_description (random : nat -> Q)
        (isoNow : string) (r : AiHelpers.CostRequest) (q : Q)
        (Hrent : r.(AiHelpers.r_property).(Models.rent) = Some (Fin q))
        (Hq : 50 <= q)
        (Hrandom : forall k, 0 <= random k < 1) :
  let analysis := AiHelpers.costAnalysis random isoNow r in
  gt analysis.(AiHelpers.valueScore) (Fin 4.5) = true
  /\ analysis.(AiHelpers.value_description)
     = "Excellent value compared to similar properties in the area.".
Proof.
  cbv zeta.
  assert (Hpos : 0 < q) by lra.
  assert (Hb : AiHelpers.or_num r.(AiHelpers.r_property).(Models.rent) (Fin 0)
               = Fin q).
  { unfold AiHelpers.or_num. rewrite Hrent.
    cbn [Models.present Models.number truthy].
    rewrite (positive_not_zero q Hpos). reflexivity. }
  pose proof (Hrandom 0%nat) as [Hu0 Hu1].
  set (x := q * (0.9 + random 0%nat * 0.2) + (1 # 2)).
  destruct (floor_bounds x) as [Hlo Hhi].
  assert (Hx : q * 0.9 + (1 # 2) <= x /\ x < q * 1.1 + (1 # 2)).
  { unfold x. split; nra. }
  set (M := inject_Z (Qfloor x)) in *.
  assert (HM : 44 < M) by lra.
  assert (Hscore :
            (AiHelpers.costAnalysis random isoNow r).(AiHelpers.valueScore)
            = Fin (q / M * 5)).
  { unfold AiHelpers.costAnalysis.
    cbn [AiHelpers.generateCostAnalysis AiHelpers.valueScore
         AiHelpers.d_rent AiHelpers.d_averageRent
         AiHelpers.basicCosts AiHelpers.b_rent].
    rewrite Hb. unfold AiHelpers.comparison_averageRent.
    rewrite (route_market_averageRent random isoNow _ q Hrent Hpos).
    fold x. unfold of_Z at 1. fold M.
    unfold or_else at 2. cbn [truthy].
    rewrite (positive_not_zero M) by lra. cbn [negb].
    unfold or_else. cbn [truthy].
    rewrite (positive_not_zero M) by lra. cbn [negb div].
    rewrite (positive_not_zero M) by lra. reflexivity. }
  assert (Hgt : gt (Fin (q / M * 5)) (Fin 4.5) = true).
  { unfold gt. apply lt_Fin.
    assert (0.9 < q / M) by (apply ratio_above; lra).
    lra. }
  split.
  - rewrite Hscore. exact Hgt.
  - unfold AiHelpers.costAnalysis in *.
    cbn [AiHelpers.generateCostAnalysis AiHelpers.value_description
         AiHelpers.valueScore] in *.
    rewrite Hscore, Hgt. reflexivity.
Qed.

(** X10.  The cost analysis route rates every listing as excellent
    value: for a listing with a rent of at least 50 and of ordinary size
    (at most 10^15) the average rent it compares with is drawn within ten
    percent of that same rent, so the value score exceeds 4.5 and the
    description is always the "Excellent value" sentence, whatever
    [Math.random()] returns. *)
Theorem cost_analysis_value_is_excellent (random : nat -> Q)
        (isoNow : string) (r : AiHelpers.CostRequest) (q : Q)
        (Hrent : r.(AiHelpers.r_property).(Models.rent) = Some (Fin q))
        (Hq : 50 <= q)
        (Hsize : q <= Coverage.large)
        (Hrandom : forall k, 0 <= random k < 1) :
  let analysis := AiHelpers.costAnalysis random isoNow r in
  gt analysis.(AiHelpers.valueScore) (Fin 4.5) = true
  /\ analysis.(AiHelpers.value_description)
     = "Excellent value compared to similar properties in the area.".
Proof.
  exact (cost_value_description random isoNow r q Hrent Hq Hrandom).
Qed.

Lemma cost_analysis_value_is_excellent_witness :
  (AiHelpers.costAnalysis Coverage.one_half "2024-01-01"
                          Coverage.cost_request).(AiHelpers.value_description)
  = "Excellent value compared to similar properties in the area.".
Proof.
  refine (proj2 (cost_analysis_value_is_excellent
                   Coverage.one_half "2024-01-01" Coverage.cost_request
                   1800 _ _ _ _)).
  - reflexivity.
  - discriminate.
  - discriminate.
  - intros k. split; [discriminate|reflexivity].
Defined.

(** *** The statistics of the search routes *)

Section SortAny.
Variable A : Type.
Variable comparefn : A -> A -> num.

Lemma insert_any_In (x y : A) (l : list A) :
  In y (SearchRoutes.insert comparefn x l) <-> y = x \/ In y l.
Proof.
  induction l as [|z l IH]; simpl.
  - intuition.
  - destruct (gt (comparefn x z) (Fin 0)); simpl; [rewrite IH|]; intuition.
Qed.

Lemma sort_any_In (y : A) (l : list A) :
  In y (SearchRoutes.sort comparefn l) <-> In y l.
Proof.
  induction l as [|x l IH]; [reflexivity|].
  cbn [SearchRoutes.sort fold_right].
  change (fold_right (SearchRoutes.insert comparefn) [] l)
    with (SearchRoutes.sort comparefn l).
  rewrite insert_any_In, IH. simpl. intuition.
Qed.

Lemma insert_any_length (x : A) (l : list A) :
  length (SearchRoutes.insert comparefn x l) = S (length l).
Proof.
  induction l as [|z l IH]; simpl; [reflexivity|].
  destruct (gt (comparefn x z) (Fin 0)); simpl; [rewrite IH|]; reflexivity.
Qed.

Lemma sort_any_length (l : list A) :
  length (SearchRoutes.sort comparefn l) = length l.
Proof.
  induction l as [|x l IH]; [reflexivity|].
  cbn [SearchRoutes.sort fold_right].
  change (fold_right (SearchRoutes.insert comparefn) [] l)
    with (SearchRoutes.sort comparefn l).
  rewrite insert_any_length, IH. reflexivity.
Qed.

End SortAny.

Lemma sort_any_Forall {A} (comparefn : A -> A -> num) (P : A -> Prop)
      (l : list A) :
  Forall P l -> Forall P (SearchRoutes.sort comparefn l).
Proof.
  rewrite !Forall_forall. intros H x Hx. apply H.
  apply (sort_any_In A comparefn). exact Hx.
Qed.

Lemma insert_ascending (x : num) (l : list num) :
  x <> NaN -> Forall (fun y => y <> NaN) l ->
  StronglySorted (fun a b => le a b = true) l ->
  StronglySorted (fun a b => le a b = true)
                 (SearchRoutes.insert (fun a b => sub a b) x l).
Proof.
  intros Hx Hl Hs. induction Hs as [|y l Hs IH Hy]; simpl.
  - constructor; constructor.
  - apply Forall_cons_iff in Hl. destruct Hl as [Hyn Hl].
    destruct (gt (sub x y) (Fin 0)) eqn:E.
    + constructor; [exact (IH Hl)|].
      apply Forall_forall. intros z Hz.
      apply insert_any_In in Hz. destruct Hz as [-> | Hz].
      * exact (moved_behind_better y x E).
      * rewrite Forall_forall in Hy. exact (Hy z Hz).
    + assert (Hxy : le x y = true)
        by exact (kept_before_worse y x Hyn Hx E).
      constructor; [constructor; assumption|].
      constructor; [exact Hxy|].
      apply Forall_forall. intros z Hz.
      rewrite Forall_forall in Hy.
      exact (ge_trans z y x (Hy z Hz) Hxy).
Qed.

Lemma ascending_sorted (xs : list num) :
  Forall (fun y => y <> NaN) xs ->
  StronglySorted (fun a b => le a b = true) (SearchStats.ascending xs).
Proof.
  unfold SearchStats.ascending.
  induction xs as [|x xs IH]; intros H; [constructor|].
  apply Forall_cons_iff in H. destruct H as [Hx Hxs].
  cbn [SearchRoutes.sort fold_right].
  change (fold_right (SearchRoutes.insert (fun a b => sub a b)) [] xs)
    with (SearchRoutes.sort (fun a b => sub a b) xs).
  apply insert_ascending; [exact Hx| |exact (IH Hxs)].
  apply sort_any_Forall. exact Hxs.
Qed.

Lemma at_index_nat (xs : list num) (q : Q) (i : nat) :
  q == inject_Z (Z.of_nat i) ->
  SearchStats.at_index xs (Fin q) = nth_error xs i.
Proof.
  intros H. unfold SearchStats.at_index.
  assert (Hf : Qfloor q = Z.of_nat i) by (rewrite H; apply Qfloor_Z).
  assert (H0 : Qle_bool 0 q = true).
  { apply Qle_bool_iff. rewrite H. change 0 with (inject_Z 0).
    rewrite <- Zle_Qle. lia. }
  assert (H1 : Qeq_bool q (inject_Z (Qfloor q)) = true).
  { apply Qeq_bool_iff. rewrite Hf. exact H. }
  rewrite H0, H1, Hf, Nat2Z.id. reflexivity.
Qed.

Lemma at_index_floor (xs : list num) (y : Q) :
  0 <= y ->
  SearchStats.at_index xs (Math.floor (Fin y))
  = nth_error xs (Z.to_nat (Qfloor y)).
Proof.
  intros Hy. cbn [Math.floor of_Z]. apply at_index_nat.
  rewrite Z2Nat.id; [reflexivity|].
  change 0%Z with (Qfloor 0). apply Qfloor_resp_le. exact Hy.
Qed.

Lemma floor_index_below (y : Q) (n : nat) :
  0 <= y -> y < inject_Z (Z.of_nat n) -> (Z.to_nat (Qfloor y) < n)%nat.
Proof.
  intros H0 Hn.
  assert (0 <= Qfloor y)%Z
    by (change 0%Z with (Qfloor 0); apply Qfloor_resp_le; exact H0).
  assert (Qfloor y < Z.of_nat n)%Z.
  { rewrite Zlt_Qlt. pose proof (Qfloor_le y). lra. }
  lia.
Qed.

Lemma floor_index_mono (y z : Q) :
  y <= z -> (Z.to_nat (Qfloor y) <= Z.to_nat (Qfloor z))%nat.
Proof.
  intros H. apply Qfloor_resp_le in H. lia.
Qed.

Lemma le_refl_number (a : num) : a <> NaN -> le a a = true.
Proof.
  destruct a as [x| | |]; intros H; try reflexivity; [|congruence].
  apply le_Fin. lra.
Qed.

Lemma sorted_nth (l : list num) :
  StronglySorted (fun a b => le a b = true) l ->
  Forall (fun y => y <> NaN) l ->
  forall (i j : nat) (a b : num),
    (i <= j)%nat -> nth_error l i = Some a -> nth_error l j = Some b ->
    le a b = true.
Proof.
  intros Hs. induction Hs as [|x l Hs IH Hx]; intros Hn i j a b Hij Ha Hb.
  - destruct i; discriminate Ha.
  - apply Forall_cons_iff in Hn. destruct Hn as [Hxn Hn].
    destruct i as [|i], j as [|j]; simpl in Ha, Hb.
    + injection Ha as <-. injection Hb as <-.
      exact (le_refl_number x Hxn).
    + injection Ha as <-. apply nth_error_In in Hb.
      rewrite Forall_forall in Hx. exact (Hx b Hb).
    + lia.
    + apply (IH Hn i j a b); [lia|assumption..].
Qed.

(** In a non-empty ascending array the elements read at the five indices
    of [calculateMarketStats] exist and are in order. *)
Lemma quartiles_in_order (l : list num) :
  l <> [] ->
  StronglySorted (fun a b => le a b = true) l ->
  Forall (fun y => y <> NaN) l ->
  exists lo a m b hi,
    SearchStats.at_index l (Fin 0) = Some lo
    /\ SearchStats.at_index l
         (Math.floor (mul (Models.length_num l) (Fin 0.25))) = Some a
    /\ SearchStats.at_index l
         (Math.floor (div (Models.length_num l) (Fin 2))) = Some m
    /\ SearchStats.at_index l
         (Math.floor (mul (Models.length_num l) (Fin 0.75))) = Some b
    /\ SearchStats.at_index l (sub (Models.length_num l) (Fin 1)) = Some hi
    /\ le lo a = true /\ le a m = true /\ le m b = true /\ le b hi = true
    /\ Forall (fun x => In x l) [lo; a; m; b; hi]
    /\ Forall (fun x => le lo x = true /\ le x hi = true) l.
Proof.
  intros Hne Hs Hn.
  set (n := length l).
  assert (Hpos : (1 <= n)%nat)
    by (unfold n; destruct l; [contradiction|simpl; lia]).
  set (N := inject_Z (Z.of_nat n)).
  assert (HN : 1 <= N).
  { unfold N. change 1 with (inject_Z 1). rewrite <- Zle_Qle. lia. }
  set (h := N / 2).
  assert (Hh : h * 2 == N) by (unfold h; field).
  unfold Models.length_num, of_Z. fold n. fold N.
  cbn [mul div sub neg add]. change (Qeq_bool 2 0) with false. cbn iota.
  fold h.
  rewrite (at_index_nat l 0 0) by reflexivity.
  rewrite (at_index_floor l (N * 0.25)) by lra.
  rewrite (at_index_floor l h) by lra.
  rewrite (at_index_floor l (N * 0.75)) by lra.
  rewrite (at_index_nat l (N + - (1)) (n - 1)).
  2:{ unfold N. replace (Z.of_nat (n - 1)) with (Z.of_nat n + - 1)%Z by lia.
      rewrite inject_Z_plus. reflexivity. }
  set (i1 := Z.to_nat (Qfloor (N * 0.25))).
  set (i2 := Z.to_nat (Qfloor h)).
  set (i3 := Z.to_nat (Qfloor (N * 0.75))).
  assert (H12 : (i1 <= i2)%nat) by (apply floor_index_mono; lra).
  assert (H23 : (i2 <= i3)%nat) by (apply floor_index_mono; lra).
  assert (H3n : (i3 < n)%nat) by (apply floor_index_below; fold N; lra).
  assert (Hget : forall i, (i < n)%nat -> exists x, nth_error l i = Some x).
  { intros i Hi. destruct (nth_error l i) as [x|] eqn:E; [eauto|].
    apply nth_error_None in E. fold n in E. lia. }
  destruct (Hget 0%nat) as [lo Elo]; [lia|].
  destruct (Hget i1) as [a Ea]; [lia|].
  destruct (Hget i2) as [m Em]; [lia|].
  destruct (Hget i3) as [b Eb]; [lia|].
  destruct (Hget (n - 1)%nat) as [hi Ehi]; [lia|].
  exists lo, a, m, b, hi. rewrite Elo, Ea, Em, Eb, Ehi.
  repeat (split; [reflexivity|]).
  split; [apply (sorted_nth l Hs Hn 0 i1); (lia || assumption)|].
  split; [apply (sorted_nth l Hs Hn i1 i2); (lia || assumption)|].
  split; [apply (sorted_nth l Hs Hn i2 i3); (lia || assumption)|].
  split; [apply (sorted_nth l Hs Hn i3 (n - 1)); (lia || assumption)|].
  split.
  - repeat constructor; eapply nth_error_In; eassumption.
  - apply Forall_forall. intros x Hx.
    apply In_nth_error in Hx. destruct Hx as [i Hi].
    assert (i < n)%nat.
    { unfold n. apply nth_error_Some. rewrite Hi. discriminate. }
    split.
    + apply (sorted_nth l Hs Hn 0 i); (lia || assumption).
    + apply (sorted_nth l Hs Hn i (n - 1)); (lia || assumption).
Qed.

(** X11.  For a non-empty result whose rents are numbers, the market
    statistics are consistent: the minimum, first quartile, median, third
    quartile and maximum all exist, each is the rent of a listing of the
    result, they are in ascending order, and every rent of the result lies
    between the minimum and the maximum. *)
Theorem market_stats_in_order (properties : list Models.Listing)
        (Hfound : properties <> [])
        (Hrents : Forall (fun p => Models.number p.(Models.rent) <> NaN)
                         properties) :
  let stats := SearchStats.calculateMarketStats properties in
  exists lo a m b hi,
    stats.(SearchStats.minRent) = Some lo
    /\ stats.(SearchStats.priceRange)
       = Some {| SearchStats.q1 := Some a; SearchStats.q3 := Some b |}
    /\ stats.(SearchStats.medianRent) = Some m
    /\ stats.(SearchStats.maxRent) = Some hi
    /\ le lo a = true /\ le a m = true /\ le m b = true /\ le b hi = true
    /\ Forall (fun x => In x (Coverage.rents_of properties)) [lo; a; m; b; hi]
    /\ Forall (fun x => le lo x = true /\ le x hi = true)
              (Coverage.rents_of properties).
Proof.
  cbv zeta.
  assert (Hn : Forall (fun y => y <> NaN) (Coverage.rents_of properties)).
  { unfold Coverage.rents_of. apply Forall_map. exact Hrents. }
  pose proof (ascending_sorted _ Hn) as Hs.
  assert (Hne : SearchStats.ascending (Coverage.rents_of properties) <> []).
  { intros E. apply (f_equal (@length num)) in E.
    unfold SearchStats.ascending in E. rewrite sort_any_length in E.
    unfold Coverage.rents_of in E. rewrite length_map in E.
    destruct properties; [contradiction|discriminate]. }
  destruct (quartiles_in_order _ Hne Hs
              (sort_any_Forall _ _ _ Hn))
    as [lo [a [m [b [hi [E0 [E1 [E2 [E3 [E4 [L1 [L2 [L3 [L4 [Hin Hall]]]]]]]]]]]]]]].
  exists lo, a, m, b, hi.
  destruct properties as [|p0 ps]; [contradiction|].
  cbn [SearchStats.calculateMarketStats SearchStats.minRent
       SearchStats.priceRange SearchStats.medianRent SearchStats.maxRent].
  change (map (fun p => Models.number (Models.rent p)) (p0 :: ps))
    with (Coverage.rents_of (p0 :: ps)).
  rewrite E0, E1, E2, E3, E4.
  repeat (split; [reflexivity|]).
  repeat (split; [assumption|]).
  split.
  - rewrite Forall_forall in *. intros x Hx.
    apply (sort_any_In num (fun a b => sub a b)). exact (Hin x Hx).
  - rewrite Forall_forall in *. intros x Hx. apply Hall.
    apply (sort_any_In num (fun a b => sub a b)). exact Hx.
Qed.

Lemma market_stats_in_order_witness :
  let stats := SearchStats.calculateMarketStats Samples.found3 in
  exists lo a m b hi,
    stats.(SearchStats.minRent) = Some lo
    /\ stats.(SearchStats.priceRange)
       = Some {| SearchStats.q1 := Some a; SearchStats.q3 := Some b |}
    /\ stats.(SearchStats.medianRent) = Some m
    /\ stats.(SearchStats.maxRent) = Some hi
    /\ le lo a = true /\ le a m = true /\ le m b = true /\ le b hi = true
    /\ Forall (fun x => In x (Coverage.rents_of Samples.found3))
              [lo; a; m; b; hi]
    /\ Forall (fun x => le lo x = true /\ le x hi = true)
              (Coverage.rents_of Samples.found3).
Proof.
  apply (market_stats_in_order Samples.found3).
  - discriminate.
  - repeat constructor; discriminate.
Defined.

Lemma total_properties (properties : list Models.Listing) :
  (SearchStats.calculateMarketStats properties).(SearchStats.totalProperties)
  = Models.length_num properties.
Proof. destruct properties; reflexivity. Qed.

(** X12.  The market analysis advises to widen the search exactly when
    the query found fewer than ten listings: the "Limited data available"
    note is among the recommendations if and only if so, whatever the
    trends say, and there are never more than four recommendations. *)
Theorem limited_data_note (trends : SearchStats.Trends)
        (properties : list Models.Listing) :
  let advice :=
    SearchStats.generateMarketRecommendations
      trends (SearchStats.calculateMarketStats properties) in
  (In SearchStats.limited_data advice <-> (length properties < 10)%nat)
  /\ (length advice <= 4)%nat.
Proof.
  cbv zeta. unfold SearchStats.generateMarketRecommendations.
  rewrite total_properties.
  assert (Hlt : lt (Models.length_num properties) (Fin 10) = true
                <-> (length properties < 10)%nat).
  { unfold Models.length_num. rewrite (of_Z_lt _ 10). lia. }
  destruct (lt (Models.length_num properties) (Fin 10)).
  - split.
    + split; [intros _; apply Hlt; reflexivity|].
      intros _. rewrite !in_app_iff. right. right. right. left. reflexivity.
    + destruct (SearchStats.is_text _ "rising"),
        (SearchStats.is_text _ "low"), (SearchStats.is_text _ "high");
        simpl; lia.
  - split.
    + split; [|intros H; apply Hlt in H; discriminate H].
      intros H. exfalso. rewrite !in_app_iff in H.
      destruct (SearchStats.is_text _ "rising"),
        (SearchStats.is_text _ "low"), (SearchStats.is_text _ "high");
        simpl in H; intuition discriminate.
    + destruct (SearchStats.is_text _ "rising"),
        (SearchStats.is_text _ "low"), (SearchStats.is_text _ "high");
        simpl; lia.
Qed.

(** *** The advanced search: history and pagination *)

(** X13.  Recording a search appends it to the history and keeps the
    history at fifty entries at most: the result is the last 49 earlier
    entries (all of them when there are fewer) followed by the new entry. *)
Theorem search_history_bounded {A} (searchHistory : list A) (entry : A) :
  let updated := SearchStats.recordSearch searchHistory entry in
  updated = (skipn (length searchHistory - 49) searchHistory ++ [entry])%list
  /\ length updated = Nat.min (S (length searchHistory)) 50.
Proof.
  cbv zeta.
  assert (E : SearchStats.recordSearch searchHistory entry
              = (skipn (length searchHistory - 49) searchHistory
                 ++ [entry])%list).
  { unfold SearchStats.recordSearch, SearchStats.slice_last.
    rewrite length_app. cbn [length].
    destruct (50 <? length searchHistory + 1)%nat eqn:E.
    - apply Nat.ltb_lt in E. rewrite skipn_app.
      replace (length searchHistory + 1 - 50)%nat
        with (length searchHistory - 49)%nat by lia.
      replace (length searchHistory - 49 - length searchHistory)%nat
        with 0%nat by lia.
      reflexivity.
    - apply Nat.ltb_ge in E.
      replace (length searchHistory - 49)%nat with 0%nat by lia.
      reflexivity. }
  split; [exact E|].
  rewrite E, length_app, length_skipn. cbn [length]. lia.
Qed.

(** X14.  The total that the advanced search reports with its results is
    counted after the [$skip] stage: for a page and a limit of at least
    one it is the number of matching listings less the (page - 1) * limit
    that the page skips (zero when that is more than there are), not the
    number of matching listings. *)
Theorem advanced_search_total {Doc} (q : SearchStats.Search Doc)
        (docs : list Doc)
        (Hpage : (1 <= q.(SearchStats.s_page Doc))%Z)
        (Hlimit : (1 <= q.(SearchStats.s_limit Doc))%Z) :
  SearchStats.total_of Doc q docs
  = Normal (Z.max 0 (Coverage.matching q docs
                     - (q.(SearchStats.s_page Doc) - 1)
                       * q.(SearchStats.s_limit Doc))%Z).
Proof.
  unfold SearchStats.total_of, SearchStats.countPipeline_of,
    SearchStats.pipeline_of, SearchStats.slice_but_last,
    SearchStats.aggregate, Coverage.matching.
  cbn [length Nat.sub firstn fold_left bind SearchStats.run_stage].
  set (n := ((SearchStats.s_page Doc q - 1) * SearchStats.s_limit Doc q)%Z).
  assert (Hn : (0 <= n)%Z) by (unfold n; nia).
  destruct (n <? 0)%Z eqn:E; [apply Z.ltb_lt in E; lia|].
  cbn [bind]. f_equal.
  rewrite length_skipn, sort_any_length, length_map. lia.
Qed.

Lemma advanced_search_total_witness :
  SearchStats.total_of Z Coverage.second_page [1; 2; 3; 4; 5]%Z
  = Normal (Z.max 0 (Coverage.matching Coverage.second_page [1; 2; 3; 4; 5]%Z
                     - (2 - 1) * 12)%Z).
Proof.
  apply (advanced_search_total Coverage.second_page [1; 2; 3; 4; 5]%Z);
    discriminate.
Defined.

(** *** The market data service: distribution and trends *)

Lemma bump_sum (counts : list (string * cell)) (type : string) (s : Q) :
  inherited type = false ->
  Coverage.counts_sum
    (DObj (map (fun kc => (fst kc, of_cell (snd kc))) counts)) = Some s ->
  exists s',
    Coverage.counts_sum
      (DObj (map (fun kc => (fst kc, of_cell (snd kc)))
                 (MarketData.bump counts type))) = Some s'
    /\ s' == s + 1.
Proof.
  intros Hinh. unfold MarketData.bump.
  destruct (String.eqb_spec type "__proto__") as [->|_];
    [discriminate Hinh|].
  revert s.
  induction counts as [|[k c] rest IH]; intros s Hs.
  - cbn [MarketData.bump_key]. rewrite Hinh.
    cbn in Hs. injection Hs as <-.
    eexists. split; [reflexivity|]. reflexivity.
  - cbn [MarketData.bump_key].
    cbn [Coverage.counts_sum map fold_right fst snd] in Hs.
    destruct c as [[q| | |]|]; cbn [of_cell] in Hs; try discriminate Hs.
    destruct (fold_right _ _ _) as [a|] eqn:Ea in Hs; [|discriminate Hs].
    injection Hs as <-.
    destruct (String.eqb k type).
    + cbn [Coverage.counts_sum map fold_right fst snd plus of_cell].
      unfold or_else. cbn [truthy].
      destruct (Qeq_bool q 0) eqn:Eq; cbn [negb add]; rewrite Ea;
        eexists; (split; [reflexivity|]).
      * apply Qeq_bool_eq in Eq. clear - Eq. lra.
      * clear. lra.
    + destruct (IH a Ea) as [s' [Es' Hs']].
      cbn [Coverage.counts_sum map fold_right fst snd of_cell] in *.
      rewrite Es'. eexists. split; [reflexivity|]. clear - Hs'. lra.
Qed.

Lemma type_counts_sum (properties : list MarketData.Doc) :
  Forall (fun d => inherited (MarketData.type_of d) = false) properties ->
  forall (counts : list (string * cell)) (s : Q),
    Coverage.counts_sum
      (DObj (map (fun kc => (fst kc, of_cell (snd kc))) counts)) = Some s ->
    exists s',
      Coverage.counts_sum
        (DObj (map (fun kc => (fst kc, of_cell (snd kc)))
                   (fold_left
                      (fun acc prop =>
                         MarketData.bump acc (MarketData.type_of prop))
                      properties counts))) = Some s'
      /\ s' == s + inject_Z (Z.of_nat (length properties)).
Proof.
  induction 1 as [|d ps Hd Hps IH]; intros counts s Hs.
  - exists s. split; [exact Hs|].
    cbn [length Z.of_nat]. change (inject_Z 0) with 0. lra.
  - cbn [fold_left].
    destruct (bump_sum counts _ s Hd Hs) as [s1 [E1 H1]].
    destruct (IH _ s1 E1) as [s2 [E2 H2]].
    exists s2. split; [exact E2|].
    rewrite H2, H1. cbn [length]. rewrite Nat2Z.inj_succ.
    unfold Z.succ. rewrite inject_Z_plus. change (inject_Z 1) with 1. lra.
Qed.

(** X15.  Whatever [getMarketData] returns, real or fallback, is
    consistent: the counts of its [propertyTypeDistribution] add up to its
    [totalListings] (provided no stored listing has a property type that
    names an inherited object member). *)
Theorem market_data_counts_add_up (h : MarketData.Host)
        (st : MarketData.Store) (location : option MarketData.Location)
        (Hplain : Coverage.plain_types st) :
  exists distribution total s,
    field "propertyTypeDistribution" (MarketData.getMarketData h st location)
    = Some distribution
    /\ field "totalListings" (MarketData.getMarketData h st location)
       = Some (DNum (Fin total))
    /\ Coverage.counts_sum distribution = Some s
    /\ s == total.
Proof.
  assert (G : exists distribution total s,
             field "propertyTypeDistribution" (MarketData.getGlobalMarketData h)
             = Some distribution
             /\ field "totalListings" (MarketData.getGlobalMarketData h)
                = Some (DNum (Fin total))
             /\ Coverage.counts_sum distribution = Some s
             /\ s == total).
  { eexists. eexists. eexists.
    split; [reflexivity|]. split; [reflexivity|].
    split; reflexivity. }
  unfold MarketData.getMarketData.
  destruct location as [l|]; [|exact G].
  destruct (MarketData.no_city l); [exact G|].
  destruct (MarketData.find st l) as [properties|e] eqn:E; [|exact G].
  specialize (Hplain l properties E).
  destruct properties as [|d ps]; [exact G|].
  destruct (type_counts_sum (d :: ps) Hplain [] 0 eq_refl) as [s [Es Hs]].
  eexists. eexists. exists s.
  split; [reflexivity|]. split; [reflexivity|].
  split; [exact Es|]. rewrite Hs. lra.
Qed.

Lemma market_data_counts_add_up_witness :
  exists distribution total s,
    field "propertyTypeDistribution"
          (MarketData.getMarketData Samples.host Coverage.three_listings
                                    (Some Coverage.austin))
    = Some distribution
    /\ field "totalListings"
             (MarketData.getMarketData Samples.host Coverage.three_listings
                                       (Some Coverage.austin))
       = Some (DNum (Fin total))
    /\ Coverage.counts_sum distribution = Some s
    /\ s == total.
Proof.
  apply market_data_counts_add_up.
  intros l properties H. injection H as <-.
  repeat constructor.
Defined.

Lemma trend_loop_nth (h : MarketData.Host) (months : nat) :
  forall k j : nat,
    (j < months)%nat ->
    nth_error (MarketData.trend_loop h months k) j
    = Some (MarketData.trend_point h (months - 1 - j) (k + j)).
Proof.
  induction months as [|i IH]; intros k j Hj; [lia|].
  cbn [MarketData.trend_loop]. destruct j as [|j].
  - cbn [nth_error].
    replace (S i - 1 - 0)%nat with i by lia.
    replace (k + 0)%nat with k by lia. reflexivity.
  - cbn [nth_error]. rewrite IH by lia.
    replace (S i - 1 - S j)%nat with (i - 1 - j)%nat by lia.
    replace (k + S j)%nat with (S k + j)%nat by lia. reflexivity.
Qed.

Lemma trend_loop_length (h : MarketData.Host) (months : nat) :
  forall k : nat, length (MarketData.trend_loop h months k) = months.
Proof.
  induction months as [|i IH]; intros k; [reflexivity|].
  cbn [MarketData.trend_loop length]. rewrite IH. reflexivity.
Qed.

Lemma trend_point_bounds (h : MarketData.Host) (i k : nat) :
  0 <= h.(MarketData.random) k < 1 ->
  exists a : Z,
    MarketData.trend_point h i k
    = DObj [ ("date", DStr (h.(MarketData.isoDateMonthsAgo) i));
             ("averageRent", DNum (of_Z a)) ]
    /\ (900 + 20 * Z.of_nat i <= a <= 1500 + 20 * Z.of_nat i)%Z.
Proof.
  intros [Hu0 Hu1]. unfold MarketData.trend_point.
  cbn [of_Z mul sub neg add Math.round].
  set (u := MarketData.random h k) in *.
  set (I := inject_Z (Z.of_nat i)).
  set (x := 1200 + (u * 600 + - (300)) + I * 20 + (1 # 2)).
  exists (Qfloor x). split; [reflexivity|].
  assert (HI : inject_Z (900 + 20 * Z.of_nat i) == 900 + 20 * I).
  { rewrite inject_Z_plus, inject_Z_mult. reflexivity. }
  assert (HJ : inject_Z (1501 + 20 * Z.of_nat i) == 1501 + 20 * I).
  { rewrite inject_Z_plus, inject_Z_mult. reflexivity. }
  split.
  - rewrite <- (Qfloor_Z (900 + 20 * Z.of_nat i)).
    apply Qfloor_resp_le. rewrite HI. unfold x. clearbody u I. lra.
  - assert (Qfloor x < 1501 + 20 * Z.of_nat i)%Z; [|lia].
    rewrite Zlt_Qlt, HJ. pose proof (Qfloor_le x) as Hx.
    unfold x in *. clearbody u I. lra.
Qed.

(** X16.  The price trends are drawn, not measured, within fixed bounds:
    [getPriceTrends] returns one point per month asked for, oldest first,
    and the average rent of the point [i] months back is an integer between
    900 + 20 i and 1500 + 20 i, so that the points further back in time are
    the ones drawn higher. *)
Theorem price_trends_bounds (h : MarketData.Host)
        (location : option MarketData.Location) (months : nat)
        (Hrandom : forall k, 0 <= h.(MarketData.random) k < 1) :
  exists items,
    MarketData.getPriceTrends h location months = DArr items
    /\ length items = months
    /\ forall j, (j < months)%nat ->
         exists a : Z,
           nth_error items j
           = Some (DObj [ ("date",
                            DStr (h.(MarketData.isoDateMonthsAgo)
                                    (months - 1 - j)));
                          ("averageRent", DNum (of_Z a)) ])
           /\ (900 + 20 * Z.of_nat (months - 1 - j) <= a
               <= 1500 + 20 * Z.of_nat (months - 1 - j))%Z.
Proof.
  exists (MarketData.trend_loop h months 0).
  split; [reflexivity|]. split; [apply trend_loop_length|].
  intros j Hj. rewrite (trend_loop_nth h months 0 j Hj).
  destruct (trend_point_bounds h (months - 1 - j) (0 + j) (Hrandom _))
    as [a [Ea Ha]].
  exists a. rewrite Ea. split; [reflexivity|exact Ha].
Qed.

Lemma price_trends_bounds_witness :
  exists items,
    MarketData.getPriceTrends Samples.host None 12 = DArr items
    /\ length items = 12%nat
    /\ forall j, (j < 12)%nat ->
         exists a : Z,
           nth_error items j
           = Some (DObj [ ("date",
                            DStr (Samples.host.(MarketData.isoDateMonthsAgo)
                                    (12 - 1 - j)));
                          ("averageRent", DNum (of_Z a)) ])
           /\ (900 + 20 * Z.of_nat (12 - 1 - j) <= a
               <= 1500 + 20 * Z.of_nat (12 - 1 - j))%Z.
Proof.
  apply (price_trends_bounds Samples.host None 12).
  intros k. split; [discriminate|reflexivity].
Defined.

(** *** Relative pricing, comparables and the pricing report *)

(** X17.  [getRelativePricing] labels a finite rent by its ratio to the
    positive market average of the bedroom count (or, failing that, of one
    bedroom): "good-value" below 90 percent, "market-rate" from 90 up to
    110 percent, and "premium" from 110 percent upwards.  When the market
    data holds neither average, every listing is labelled "premium". *)
Theorem relative_pricing_bands (rent average : Q)
        (marketData : SearchRoutes.MarketData) (bedrooms : option num)
        (Haverage : Coverage.market_average marketData bedrooms
                    = Some (Fin average))
        (Hpositive : 0 < average) :
  let label :=
    SearchRoutes.getRelativePricing (Some (Fin rent)) marketData bedrooms in
  (label = "good-value" <-> rent < 0.9 * average)
  /\ (label = "market-rate" <-> 0.9 * average <= rent < 1.1 * average)
  /\ (label = "premium" <-> 1.1 * average <= rent)
  /\ (forall (r : option num) (m : SearchRoutes.MarketData)
             (b : option num),
         Coverage.market_average m b = None ->
         SearchRoutes.getRelativePricing r m b = "premium").
Proof.
  cbv zeta. unfold SearchRoutes.getRelativePricing.
  fold (Coverage.market_average marketData bedrooms). rewrite Haverage.
  cbn [Models.number div]. rewrite (positive_not_zero average Hpositive).
  assert (Hlast : forall (r : option num) (m : SearchRoutes.MarketData)
                         (b : option num),
             Coverage.market_average m b = None ->
             SearchRoutes.getRelativePricing r m b = "premium").
  { intros r m b H. unfold SearchRoutes.getRelativePricing.
    fold (Coverage.market_average m b). rewrite H.
    cbn [Models.number]. destruct (Models.number r); reflexivity. }
  destruct (lt (Fin (rent / average)) (Fin 0.9)) eqn:E1.
  { apply lt_Fin, ratio_below in E1; [|exact Hpositive].
    repeat split; try exact Hlast; intros; try discriminate;
      try reflexivity; try lra; exfalso; lra. }
  apply lt_Fin_false, ratio_not_below in E1; [|exact Hpositive].
  destruct (lt (Fin (rent / average)) (Fin 1.1)) eqn:E2.
  { apply lt_Fin, ratio_below in E2; [|exact Hpositive].
    repeat split; try exact Hlast; intros; try discriminate;
      try reflexivity; try lra; exfalso; lra. }
  apply lt_Fin_false, ratio_not_below in E2; [|exact Hpositive].
  repeat split; try exact Hlast; intros; try discriminate;
    try reflexivity; try lra; exfalso; lra.
Qed.

Lemma relative_pricing_bands_witness :
  SearchRoutes.getRelativePricing (Some (Fin 1800)) Samples.market
                                  (Some (Fin 2)) = "market-rate"
  <-> 0.9 * 2000 <= 1800 < 1.1 * 2000.
Proof.
  refine (proj1 (proj2 (relative_pricing_bands
                          1800 2000 Samples.market (Some (Fin 2)) _ _)));
    reflexivity.
Defined.

Lemma sum_from_finite (l : list num) :
  Forall Coverage.finite l ->
  forall a : Q, exists s, fold_left add l (Fin a) = Fin s.
Proof.
  induction 1 as [|x l Hx Hl IH]; intros a; [exists a; reflexivity|].
  destruct x as [q| | |]; try contradiction.
  cbn [fold_left add]. apply IH.
Qed.

Lemma sum_from_positive (l : list num) :
  Forall (fun x => exists q, x = Fin q /\ 0 < q) l ->
  forall a : Q,
    exists s, fold_left add l (Fin a) = Fin s
              /\ a <= s /\ (l <> [] -> a < s).
Proof.
  induction 1 as [|x l [q [-> Hq]] Hl IH]; intros a.
  - exists a. repeat split; [lra|]. intros H. contradiction.
  - cbn [fold_left add]. destruct (IH (a + q)) as [s [Es [Hs _]]].
    exists s. repeat split; [exact Es|lra|]. intros _. lra.
Qed.

Lemma positive_sizes_positive (comparables : list Models.Listing) :
  Forall (fun p => Coverage.ordinary_size p.(Models.squareFootage))
         comparables ->
  Forall (fun x => exists q, x = Fin q /\ 0 < q)
         (SearchStats.positive_sizes comparables).
Proof.
  intros H. unfold SearchStats.positive_sizes.
  apply Forall_forall. intros x Hx.
  apply filter_In in Hx. destruct Hx as [Hx Hgt].
  apply in_map_iff in Hx. destruct Hx as [p [<- Hp]].
  rewrite Forall_forall in H. specialize (H p Hp).
  destruct (Models.squareFootage p) as [[q| | |]|];
    cbn in H; try contradiction; try discriminate Hgt.
  exists q. split; [reflexivity|]. apply lt_Fin. exact Hgt.
Qed.

Lemma ordinary_finite (n : num) : Coverage.ordinary n -> Coverage.finite n.
Proof. destruct n; simpl; auto. Qed.

(** X18.  The statistics of the comparables never divide by zero: for a
    non-empty set of comparables whose rents are of ordinary size (at most
    10^15 in absolute value) and whose sizes are absent or of ordinary size
    (at most 10^15 and, when positive, at least 10^-15), the average rent
    and the price per square foot are finite numbers; listings without a
    positive size are left out of the average size, and when no comparable
    has one the price per square foot is 0. *)
Theorem comparable_stats_finite (comparables : list Models.Listing)
        (Hfound : comparables <> [])
        (Hrents : Forall (fun p => Coverage.ordinary
                                     (Models.number p.(Models.rent)))
                         comparables)
        (Hsizes : Forall (fun p => Coverage.ordinary_size
                                     p.(Models.squareFootage))
                         comparables) :
  let stats := SearchStats.calculateComparableStats comparables in
  exists average price,
    stats.(SearchStats.c_averageRent) = Fin average
    /\ stats.(SearchStats.c_pricePerSqFt) = Some (Fin price)
    /\ (SearchStats.positive_sizes comparables = [] -> price = 0).
Proof.
  cbv zeta. destruct comparables as [|p0 ps]; [contradiction|].
  cbn [SearchStats.calculateComparableStats SearchStats.c_averageRent
       SearchStats.c_pricePerSqFt].
  set (rents := SearchStats.ascending
                  (map (fun p => Models.number (Models.rent p)) (p0 :: ps))).
  assert (Hfin : Forall Coverage.finite rents).
  { unfold rents, SearchStats.ascending. apply sort_any_Forall.
    apply Forall_map. revert Hrents. apply Forall_impl.
    intros p. apply ordinary_finite. }
  assert (Hlen : rents <> []).
  { intros E. apply (f_equal (@length num)) in E.
    unfold rents, SearchStats.ascending in E.
    rewrite sort_any_length, length_map in E. discriminate E. }
  destruct (sum_from_finite rents Hfin 0) as [R ER].
  destruct (length_num_nonneg rents) as [m [Em [_ Hm]]].
  specialize (Hm Hlen).
  unfold SearchStats.sum. rewrite ER, Em. cbn [div].
  rewrite (positive_not_zero m Hm). cbn [Math.round of_Z].
  pose proof (positive_sizes_positive (p0 :: ps) Hsizes) as Hpos.
  destruct (SearchStats.positive_sizes (p0 :: ps)) as [|s0 sizes] eqn:Es.
  - cbn [length Nat.ltb Nat.leb].
    eexists. exists 0. repeat split.
  - destruct (sum_from_positive _ Hpos 0) as [S [ES [_ HS]]].
    assert (HS' : 0 < S) by (apply HS; discriminate).
    destruct (length_num_nonneg (s0 :: sizes)) as [n [En [_ Hn]]].
    assert (Hn' : 0 < n) by (apply Hn; discriminate).
    replace (0 <? length (s0 :: sizes))%nat with true by reflexivity.
    rewrite ES, En. cbn [div]. rewrite (positive_not_zero n Hn').
    assert (Hq : 0 < S / n).
    { apply Qlt_shift_div_l; [exact Hn'|]. lra. }
    cbn [div]. rewrite (positive_not_zero (S / n) Hq).
    eexists. eexists. split; [reflexivity|]. split; [reflexivity|].
    intros H. discriminate H.
Qed.

Lemma comparable_stats_finite_witness :
  let stats := SearchStats.calculateComparableStats Samples.found3 in
  exists average price,
    stats.(SearchStats.c_averageRent) = Fin average
    /\ stats.(SearchStats.c_pricePerSqFt) = Some (Fin price)
    /\ (SearchStats.positive_sizes Samples.found3 = [] -> price = 0).
Proof.
  apply (comparable_stats_finite Samples.found3).
  - discriminate.
  - repeat constructor; apply Qle_bool_imp_le; reflexivity.
  - repeat constructor.
Defined.

(** X19.  The pricing report is never without content: the confidence
    is one of 70, 75, 80, 85, 90 and 95 (the cap), and the strategy list
    has between one and four entries, the generic advice standing in when
    no signal applies. *)
Theorem pricing_report_bounds (s : AiHelpers.PricingSignals) :
  (exists k : Z,
      AiHelpers.calculateConfidence s = Fin (inject_Z (70 + 5 * k))
      /\ (0 <= k <= 5)%Z)
  /\ (1 <= length (AiHelpers.generatePricingStrategy s) <= 4)%nat
  /\ (AiHelpers.is_text s.(AiHelpers.demandLevel) "high" = false ->
      AiHelpers.is_text s.(AiHelpers.inventory) "low" = false ->
      AiHelpers.is_text s.(AiHelpers.priceDirection) "rising" = false ->
      AiHelpers.is_text s.(AiHelpers.priceDirection) "falling" = false ->
      gt (Models.number s.(AiHelpers.demandScore)) (Fin 8.5) = false ->
      AiHelpers.generatePricingStrategy s
      = ["Price competitively based on market conditions"]).
Proof.
  split; [|split].
  - unfold AiHelpers.calculateConfidence.
    destruct (gt (Models.number (AiHelpers.demandScore s)) (Fin 7)),
      (gt (Models.number (AiHelpers.marketHealth s)) (Fin 60)),
      (Models.present (AiHelpers.sizeAdjustment s)),
      (Models.present (AiHelpers.amenityBonus s));
      match goal with
      | |- context [Math.min2 ?a ?b] =>
          let v := eval vm_compute in (Math.min2 a b) in
          change (Math.min2 a b) with v
      end;
      first [ exists 0%Z; split; [reflexivity|lia]
            | exists 1%Z; split; [reflexivity|lia]
            | exists 2%Z; split; [reflexivity|lia]
            | exists 3%Z; split; [reflexivity|lia]
            | exists 4%Z; split; [reflexivity|lia]
            | exists 5%Z; split; [reflexivity|lia] ].
  - unfold AiHelpers.generatePricingStrategy.
    destruct (AiHelpers.is_text (AiHelpers.demandLevel s) "high"),
      (AiHelpers.is_text (AiHelpers.inventory s) "low"),
      (AiHelpers.is_text (AiHelpers.priceDirection s) "rising"),
      (AiHelpers.is_text (AiHelpers.priceDirection s) "falling"),
      (gt (Models.number (AiHelpers.demandScore s)) (Fin 8.5));
      cbn [app length Nat.ltb Nat.leb]; lia.
  - intros H1 H2 H3 H4 H5. unfold AiHelpers.generatePricingStrategy.
    rewrite H1, H2, H3, H4, H5. reflexivity.
Qed.

(** *** The recommendations of the cost analysis *)

Lemma cost_average_bounds (random : nat -> Q) (isoNow : string)
      (r : AiHelpers.CostRequest) (q : Q) :
  r.(AiHelpers.r_property).(Models.rent) = Some (Fin q) ->
  50 <= q ->
  0 <= random 0%nat < 1 ->
  exists M,
    (AiHelpers.basicCosts r).(AiHelpers.b_rent) = Fin q
    /\ AiHelpers.comparison_averageRent random isoNow r = Fin M
    /\ q * (0.9 + random 0%nat * 0.2) - (1 # 2) < M
    /\ M <= q * (0.9 + random 0%nat * 0.2) + (1 # 2).
Proof.
  intros Hrent Hq [Hu0 Hu1].
  assert (Hpos : 0 < q) by lra.
  assert (Hb : AiHelpers.or_num r.(AiHelpers.r_property).(Models.rent) (Fin 0)
               = Fin q).
  { unfold AiHelpers.or_num. rewrite Hrent.
    cbn [Models.present Models.number truthy].
    rewrite (positive_not_zero q Hpos). reflexivity. }
  set (x := q * (0.9 + random 0%nat * 0.2) + (1 # 2)).
  destruct (floor_bounds x) as [Hlo Hhi].
  assert (Hx : q * 0.9 + (1 # 2) <= x) by (unfold x; nra).
  exists (inject_Z (Qfloor x)).
  split; [cbn [AiHelpers.basicCosts AiHelpers.b_rent]; exact Hb|].
  split.
  - unfold AiHelpers.comparison_averageRent.
    rewrite (route_market_averageRent random isoNow _ q Hrent Hpos).
    fold x. unfold or_else, of_Z. cbn [truthy].
    rewrite (positive_not_zero (inject_Z (Qfloor x))) by lra.
    reflexivity.
  - unfold x in *. split; lra.
Qed.

(** X20.  The recommendations of the cost analysis route never call a
    listing with a rent of at least 50 and of ordinary size (at most
    10^15) priced below the market: a price recommendation, when there is
    one, is the high-priority "priced above the market average" one.  It
    does appear for a rent of at least 100 when [Math.random()] draws at
    most 0.02, in the same response that describes the listing as excellent
    value. *)
Theorem cost_recommendations_price (random : nat -> Q) (isoNow : string)
        (r : AiHelpers.CostRequest) (q : Q)
        (Hrent : r.(AiHelpers.r_property).(Models.rent) = Some (Fin q))
        (Hq : 50 <= q)
        (Hsize : q <= Coverage.large)
        (Hrandom : forall k, 0 <= random k < 1) :
  let recommendations := AiHelpers.costRecommendations random isoNow r in
  (forall x, In x recommendations ->
             x.(AiHelpers.rec_type) = "price" ->
             x.(AiHelpers.rec_priority) = "high")
  /\ (100 <= q -> random 0%nat <= 1 # 50 ->
      (exists x, In x recommendations
                 /\ x.(AiHelpers.rec_type) = "price"
                 /\ x.(AiHelpers.rec_priority) = "high")
      /\ (AiHelpers.costAnalysis random isoNow r).(AiHelpers.value_description)
         = "Excellent value compared to similar properties in the area.").
Proof.
  cbv zeta.
  destruct (cost_average_bounds random isoNow r q Hrent Hq (Hrandom 0%nat))
    as [M [Eb [EM [HM1 HM2]]]].
  pose proof (Hrandom 0%nat) as [Hu0 Hu1].
  unfold AiHelpers.costRecommendations, AiHelpers.generateRecommendations.
  cbn [AiHelpers.g_rent AiHelpers.g_marketAverage AiHelpers.g_amenities
       AiHelpers.g_city].
  rewrite Eb, EM. cbn [mul sub neg add].
  assert (Hlow : lt (Fin q) (Fin (M * 0.9)) = false).
  { apply lt_Fin_false. nra. }
  rewrite Hlow.
  split.
  - intros x Hx Ht. rewrite !in_app_iff in Hx.
    destruct Hx as [Hx|[Hx|Hx]].
    + destruct (gt (Fin q) (Fin (M * 1.1))); [|contradiction].
      destruct Hx as [<-|[]]. reflexivity.
    + destruct (_ && _); [|contradiction].
      destruct Hx as [<-|[]]. discriminate Ht.
    + destruct (AiHelpers.r_city r) as [c|]; [|contradiction].
      destruct (includes_text _ _); [|contradiction].
      destruct Hx as [<-|[]]. discriminate Ht.
  - intros Hq' Hu. split.
    + assert (Hhigh : gt (Fin q) (Fin (M * 1.1)) = true).
      { unfold gt. apply lt_Fin. nra. }
      rewrite Hhigh. eexists. split; [left; reflexivity|].
      split; reflexivity.
    + exact (proj2 (cost_value_description random isoNow r q
                                           Hrent Hq Hrandom)).
Qed.

Lemma cost_recommendations_price_witness :
  (exists x,
      In x (AiHelpers.costRecommendations Coverage.always_zero "2024-01-01"
                                          Coverage.cost_request)
      /\ x.(AiHelpers.rec_type) = "price"
      /\ x.(AiHelpers.rec_priority) = "high")
  /\ (AiHelpers.costAnalysis Coverage.always_zero "2024-01-01"
                             Coverage.cost_request)
       .(AiHelpers.value_description)
     = "Excellent value compared to similar properties in the area.".
Proof.
  refine (proj2 (cost_recommendations_price
                   Coverage.always_zero "2024-01-01" Coverage.cost_request
                   1800 _ _ _ _) _ _).
  - reflexivity.
  - discriminate.
  - discriminate.
  - intros k. split; [discriminate|reflexivity].
  - discriminate.
  - discriminate.
Defined.
